(** * terraform-provider-openhue: credential acquisition, pairing and rooms

    A shallow embedding of the provider's Go code:
    - [internal/config]: [GetAuthConfig], [authenticateWithBridgeIp],
      [authenticateWithBridgeIpOnce];
    - [internal/provider]: [OpenhueProvider.Configure];
    - [internal/resources]: the room and the light resource;
    - [internal/datasources]: the light data source.

    The Go code talks to four libraries (viper, openhue-go, the Go runtime
    and the Terraform plugin framework).  Their observable behaviour is
    written out here as far as the code depends on it; everything the
    outside world decides (environment variables, files, the bridge's
    answers, timing) is collected in a record the functions read from. *)

From stdpp Require Import gmap strings list.
From Stdlib Require Import NArith Ascii String.

Open Scope string_scope.
Open Scope N_scope.

(** ** Go values used by the code *)

(** Go's [error] values: one handed back by a library, one made by
    [fmt.Errorf] from a fixed text, and one made by [fmt.Errorf] with a
    text that ends in the [%w] verb, wrapping a cause ([prefix] is the text
    before the verb). *)
Inductive error : Type :=
| LibError (msg : string)
| Errorf (msg : string)
| Wrapf (prefix : string) (cause : error).

(** [err.Error()] *)
Fixpoint Error_ (e : error) : string :=
  match e with
  | LibError msg => msg
  | Errorf msg => msg
  | Wrapf prefix cause => prefix ++ Error_ cause
  end.

Inductive result (A : Type) : Type :=
| Ok (a : A)
| Err (e : error).
Arguments Ok {A} a.
Arguments Err {A} e.

(** [time.Duration] counts nanoseconds. *)
Abbreviation Duration := N.
Definition Millisecond : Duration := 1000000.
Definition Second : Duration := 1000 * Millisecond.
Definition Minute : Duration := 60 * Second.

(** [strings.ToUpper] and [strings.ToLower] on ASCII letters (other bytes
    are left as they are). *)
Definition upper_ascii (c : ascii) : ascii :=
  let n := N_of_ascii c in
  if (97 <=? n) && (n <=? 122) then ascii_of_N (n - 32) else c.

Definition lower_ascii (c : ascii) : ascii :=
  let n := N_of_ascii c in
  if (65 <=? n) && (n <=? 90) then ascii_of_N (n + 32) else c.

Fixpoint map_string (f : ascii -> ascii) (s : string) : string :=
  match s with
  | EmptyString => EmptyString
  | String c r => String (f c) (map_string f r)
  end.

Definition ToUpper : string -> string := map_string upper_ascii.
Definition ToLower : string -> string := map_string lower_ascii.

(** [filepath.Join] of a directory and a file name. *)
Definition Join (dir file : string) : string := dir ++ "/" ++ file.

(** ** Go's [unicode/utf8] and [strconv], as far as [%q] needs them *)

Module utf8.

Definition RuneError : N := 65533.       (* U+FFFD *)

(** [ValidRune]: up to U+10FFFF, the surrogates left out. *)
Definition ValidRune (r : N) : bool :=
  (r <? 55296) || ((57343 <? r) && (r <=? 1114111)).

Definition between (lo hi b : N) : bool := (lo <=? b) && (b <=? hi).

(** [DecodeRuneInString]: the first rune of [s] and the bytes it takes.
    What is not the shortest encoding of a valid rune decodes to
    [(RuneError, 1)]. *)
Definition DecodeRuneInString (s : string) : N * nat :=
  match s with
  | EmptyString => (RuneError, 0%nat)
  | String c0 s1 =>
    let b0 := N_of_ascii c0 in
    if b0 <? 128 then (b0, 1%nat)
    else if between 194 223 b0 then
      match s1 with
      | String c1 _ =>
        let b1 := N_of_ascii c1 in
        if between 128 191 b1
        then ((b0 mod 32) * 64 + b1 mod 64, 2%nat)
        else (RuneError, 1%nat)
      | _ => (RuneError, 1%nat)
      end
    else if between 224 239 b0 then
      match s1 with
      | String c1 (String c2 _) =>
        let b1 := N_of_ascii c1 in
        let b2 := N_of_ascii c2 in
        if between (if b0 =? 224 then 160 else 128)
                   (if b0 =? 237 then 159 else 191) b1
           && between 128 191 b2
        then ((b0 mod 16) * 4096 + (b1 mod 64) * 64 + b2 mod 64, 3%nat)
        else (RuneError, 1%nat)
      | _ => (RuneError, 1%nat)
      end
    else if between 240 244 b0 then
      match s1 with
      | String c1 (String c2 (String c3 _)) =>
        let b1 := N_of_ascii c1 in
        let b2 := N_of_ascii c2 in
        let b3 := N_of_ascii c3 in
        if between (if b0 =? 240 then 144 else 128)
                   (if b0 =? 244 then 143 else 191) b1
           && between 128 191 b2 && between 128 191 b3
        then ((b0 mod 8) * 262144 + (b1 mod 64) * 4096
              + (b2 mod 64) * 64 + b3 mod 64, 4%nat)
        else (RuneError, 1%nat)
      | _ => (RuneError, 1%nat)
      end
    else (RuneError, 1%nat)
  end.

End utf8.

Module strconv.

(** [IsPrint] looks the runes above U+00FF up in tables that are generated
    from the Unicode database of the Go release in use. *)
Class PrintTables : Type := { isPrintWide : N -> bool }.

Definition IsPrint `{PrintTables} (r : N) : bool :=
  if r <=? 255 then
    if (32 <=? r) && (r <=? 126) then true
    else if (161 <=? r) && (r <=? 255) then negb (r =? 173)
    else false
  else isPrintWide r.

Definition backslash : string := String "092"%char "".

Definition lowerhex (d : N) : ascii :=
  ascii_of_N (if d <? 10 then 48 + d else 87 + d).

(** The last [digits] hexadecimal digits of [r]. *)
Fixpoint hex (digits : nat) (r : N) : string :=
  match digits with
  | O => ""
  | S d => String (lowerhex (N.shiftr r (4 * N.of_nat d) mod 16)) (hex d r)
  end.

(** [appendEscapedRune] with the double quote as the quote character and
    no restriction to ASCII; [bytes] is the encoding of [r]. *)
Definition escapedRune `{PrintTables} (r : N) (bytes : string) : string :=
  if (r =? 34) || (r =? 92) then backslash ++ bytes
  else if IsPrint r then bytes
  else if r =? 7 then backslash ++ "a"
  else if r =? 8 then backslash ++ "b"
  else if r =? 12 then backslash ++ "f"
  else if r =? 10 then backslash ++ "n"
  else if r =? 13 then backslash ++ "r"
  else if r =? 9 then backslash ++ "t"
  else if r =? 11 then backslash ++ "v"
  else if (r <? 32) || (r =? 127) then backslash ++ "x" ++ hex 2 r
  else if negb (utf8.ValidRune r) then backslash ++ "u" ++ hex 4 utf8.RuneError
  else if r <? 65536 then backslash ++ "u" ++ hex 4 r
  else backslash ++ "U" ++ hex 8 r.

(** The loop of [appendQuotedWith]; [skip] counts the bytes of [s] that
    belong to the rune written last. *)
Fixpoint quoted `{PrintTables} (skip : nat) (s : string) : string :=
  match s with
  | EmptyString => EmptyString
  | String c rest =>
    match skip with
    | S k => quoted k rest
    | O =>
      let '(r, width) := utf8.DecodeRuneInString s in
      (if (width =? 1)%nat && (r =? utf8.RuneError)
       then backslash ++ "x" ++ hex 2 (N_of_ascii c)
       else escapedRune r (substring 0 width s))
      ++ quoted (width - 1) rest
    end
  end.

(** [strconv.Quote], which is what [fmt]'s [%q] gives for a string. *)
Definition Quote `{PrintTables} (s : string) : string :=
  String "034"%char (quoted 0 s ++ String "034"%char "").

End strconv.

(** ** Everything observable that the code does *)

Inductive LogLevel := Info | Warn.

Inductive event : Type :=
| EvLog (lvl : LogLevel) (msg : string)        (* tflog.Info / tflog.Warn *)
| EvPrintln (msg : string)                     (* fmt.Println *)
| EvDiscover                                   (* BridgeDiscovery.Discover() *)
| EvNewAuthenticator (ip : string)             (* openhue.NewAuthenticator *)
| EvAuthenticate (n : nat)                     (* n-th Authenticator.Authenticate() *)
| EvWriteConfig (path : string).               (* viper SafeWriteConfigAs *)

Definition is_discover (e : event) : bool :=
  match e with EvDiscover => true | _ => false end.
Definition is_new_authenticator (e : event) : bool :=
  match e with EvNewAuthenticator _ => true | _ => false end.
Definition is_authenticate (e : event) : bool :=
  match e with EvAuthenticate _ => true | _ => false end.
Definition is_write_config (e : event) : bool :=
  match e with EvWriteConfig _ => true | _ => false end.
Definition is_warn (e : event) : bool :=
  match e with EvLog Warn _ => true | _ => false end.

Definition count (p : event -> bool) (tr : list event) : nat :=
  List.length (List.filter p tr).

(** ** viper *)

(** What a file holds: a JSON object, read as a map from (lower-cased) key
    to the string [GetString] casts the value to, or something the JSON
    decoder rejects. *)
Inductive FileContent : Type :=
| Json (m : gmap string string)
| Garbage.

Module viper.

(** The fields of a [*viper.Viper] the code reaches. *)
Record Viper : Type := mkViper {
  configName : string;
  configType : string;
  configFile : string;
  automaticEnvApplied : bool;
  override : gmap string string;   (* values given to Set *)
  config : gmap string string;     (* values read from the config file *)
  defaults : gmap string string    (* values given to SetDefault *)
}.

(** [viper.New()] *)
Definition New : Viper :=
  {| configName := "config"; configType := ""; configFile := "";
     automaticEnvApplied := false;
     override := ∅; config := ∅; defaults := ∅ |}.

Definition SetConfigName (v : Viper) (name : string) : Viper :=
  {| configName := name; configType := configType v; configFile := "";
     automaticEnvApplied := automaticEnvApplied v;
     override := override v; config := config v; defaults := defaults v |}.

Definition SetConfigType (v : Viper) (t : string) : Viper :=
  {| configName := configName v; configType := t; configFile := configFile v;
     automaticEnvApplied := automaticEnvApplied v;
     override := override v; config := config v; defaults := defaults v |}.

Definition SetConfigFile (v : Viper) (f : string) : Viper :=
  {| configName := configName v; configType := configType v; configFile := f;
     automaticEnvApplied := automaticEnvApplied v;
     override := override v; config := config v; defaults := defaults v |}.

Definition AutomaticEnv (v : Viper) : Viper :=
  {| configName := configName v; configType := configType v;
     configFile := configFile v;
     automaticEnvApplied := true;
     override := override v; config := config v; defaults := defaults v |}.

Definition SetDefault (v : Viper) (key value : string) : Viper :=
  {| configName := configName v; configType := configType v;
     configFile := configFile v;
     automaticEnvApplied := automaticEnvApplied v;
     override := override v; config := config v;
     defaults := <[ToLower key := value]> (defaults v) |}.

Definition Set_ (v : Viper) (key value : string) : Viper :=
  {| configName := configName v; configType := configType v;
     configFile := configFile v;
     automaticEnvApplied := automaticEnvApplied v;
     override := <[ToLower key := value]> (override v);
     config := config v; defaults := defaults v |}.

(** [getEnv]: an environment variable that is set to the empty string
    counts as unset ([AllowEmptyEnv] is off). *)
Definition getEnv (environ : gmap string string) (name : string) : option string :=
  match environ !! name with
  | Some val => if decide (val = "") then None else Some val
  | None => None
  end.

(** [find]: viper's order of precedence.  Of its sources the code uses
    [Set], the environment, the config file and the defaults; no flags,
    aliases or key/value stores are registered, no prefix is set. *)
Definition find (v : Viper) (environ : gmap string string) (lcaseKey : string)
  : option string :=
  match override v !! lcaseKey with
  | Some val => Some val
  | None =>
    match (if automaticEnvApplied v then getEnv environ (ToUpper lcaseKey)
           else None) with
    | Some val => Some val
    | None =>
      match config v !! lcaseKey with
      | Some val => Some val
      | None => defaults v !! lcaseKey
      end
    end
  end.

(** [GetString]: [cast.ToString] of a missing value is the empty string. *)
Definition GetString (v : Viper) (environ : gmap string string) (key : string)
  : string :=
  default "" (find v environ (ToLower key)).

(** [ReadInConfig].  Without [SetConfigFile] the file is searched for in
    the registered config paths, and none is registered. *)
Definition ReadInConfig (v : Viper) (files : gmap string FileContent)
  : Viper * option error :=
  if decide (configFile v = "") then
    (v, Some (LibError "Config File Not Found"))
  else
    match files !! configFile v with
    | None => (v, Some (LibError "open: no such file or directory"))
    | Some Garbage => (v, Some (LibError "While parsing config"))
    | Some (Json m) =>
      ({| configName := configName v; configType := configType v;
          configFile := configFile v;
          automaticEnvApplied := automaticEnvApplied v;
          override := override v; config := m; defaults := defaults v |},
       None)
    end.

(** [AllSettings]: every key known through [Set], the config file or a
    default, with the value [Get] finds for it. *)
Definition AllSettings (v : Viper) (environ : gmap string string)
  : gmap string string :=
  map_imap (fun k _ => find v environ k)
           (override v ∪ config v ∪ defaults v).

(** [SafeWriteConfigAs]: refuses to overwrite; otherwise creates the file
    (the operating system may refuse: [oserr]) and writes [AllSettings]. *)
Definition SafeWriteConfigAs (v : Viper) (environ : gmap string string)
    (oserr : option error) (files : gmap string FileContent) (filename : string)
  : gmap string FileContent * option error :=
  match files !! filename with
  | Some _ => (files, Some (LibError "Config File Already Exists"))
  | None =>
    match oserr with
    | Some e => (files, Some e)
    | None => (<[filename := Json (AllSettings v environ)]> files, None)
    end
  end.

End viper.

(** ** The outside world and the process state *)

(** What [Authenticator.Authenticate()] hands back, and how long the call
    took. *)
Record AuthResponse : Type := mkAuthResponse {
  apiKey : string;
  retry : bool;
  err : option error;
  latency : Duration
}.

(** [openhue.BridgeInfo], the result of a discovery. *)
Record BridgeInfo : Type := mkBridgeInfo {
  Instance : string;
  IpAddress : string
}.

(** What the code reads from its surroundings and cannot change. *)
Record World : Type := mkWorld {
  UserHomeDir : result string;            (* os.UserHomeDir() *)
  environ : gmap string string;           (* the process environment *)
  Discover : result BridgeInfo;           (* NewBridgeDiscovery(5s).Discover() *)
  NewAuthenticator : string -> option error;
  Authenticate : nat -> AuthResponse;     (* the bridge's answer to the n-th request *)
  ctxDone : option Duration;              (* when the caller's context is done, if ever,
                                             counted from the entry of the waiter *)
  selectDone : nat -> bool;               (* the i-th [select] with both cases ready:
                                             whether the runtime takes [Done()] *)
  createErr : option error;               (* creating the cache file fails *)
  NewClientErr : option error             (* an option of NewClientWithResponses fails *)
}.

(** What the code changes: files, the package-level viper instance, the
    default HTTP transport, and the trace of what it did. *)
Record Proc : Type := mkProc {
  files : gmap string FileContent;
  globalViper : viper.Viper;
  DefaultTransport_InsecureSkipVerify : bool;
  trace : list event
}.

Definition emit (evs : list event) (p : Proc) : Proc :=
  {| files := files p; globalViper := globalViper p;
     DefaultTransport_InsecureSkipVerify := DefaultTransport_InsecureSkipVerify p;
     trace := (trace p ++ evs)%list |}.

Definition set_files (fs : gmap string FileContent) (p : Proc) : Proc :=
  {| files := fs; globalViper := globalViper p;
     DefaultTransport_InsecureSkipVerify := DefaultTransport_InsecureSkipVerify p;
     trace := trace p |}.

Definition set_globalViper (v : viper.Viper) (p : Proc) : Proc :=
  {| files := files p; globalViper := v;
     DefaultTransport_InsecureSkipVerify := DefaultTransport_InsecureSkipVerify p;
     trace := trace p |}.

Definition set_InsecureSkipVerify (b : bool) (p : Proc) : Proc :=
  {| files := files p; globalViper := globalViper p;
     DefaultTransport_InsecureSkipVerify := b;
     trace := trace p |}.

(** ** The code's control flow: state, early return with an error, and a
    bound on the waiter's loop *)

Definition M (A : Type) : Type := Proc -> option (result A * Proc).

Definition ret {A} (a : A) : M A := fun p => Some (Ok a, p).
Definition fail {A} (e : error) : M A := fun p => Some (Err e, p).
Definition bind {A B} (c : M A) (k : A -> M B) : M B :=
  fun p =>
    match c p with
    | None => None
    | Some (Err e, p') => Some (Err e, p')
    | Some (Ok a, p') => k a p'
    end.

Notation "x <- c ;; k" := (bind c (fun x => k))
  (at level 100, c at next level, right associativity).
Notation "c ;;; k" := (bind c (fun _ => k))
  (at level 100, right associativity).

Definition log (lvl : LogLevel) (msg : string) : M unit :=
  fun p => Some (Ok tt, emit [EvLog lvl msg] p).

(** ** internal/config: the pairing waiter *)

Module config.

Definition cachePath : string := ".openhue-credentials.json".

Record AuthConfig : Type := mkAuthConfig {
  BridgeIp : string;
  BridgeApiKey : string
}.

(** [authenticateWithBridgeIpOnce] *)
Definition authenticateWithBridgeIpOnce (r : AuthResponse) : result string :=
  match err r, retry r with
  | Some _, true => Ok ""
  | Some e, false => Err e
  | None, _ => Ok (apiKey r)
  end.

(** [time.NewTicker(500 * time.Millisecond)] and
    [context.WithTimeout(ctx, time.Minute)] *)
Definition tickInterval : Duration := 500 * Millisecond.
Definition pairingTimeout : Duration := Minute.

(** When [timeoutCtx.Done()] becomes ready: at the timeout, or when the
    caller's context is done, whichever is first. *)
Definition doneAt (w : World) : Duration :=
  match ctxDone w with
  | Some c => N.min c pairingTimeout
  | None => pairingTimeout
  end.

(** The loop's clock.  [tickAt] is when the ticker next has a tick to
    hand over: a ticker keeps at most one tick waiting and drops the
    others. *)
Record Poll : Type := mkPoll {
  now : Duration;
  tickAt : Duration;
  requests : nat;     (* calls of Authenticate so far *)
  selects : nat       (* passes through the select so far *)
}.

(** The ticker after a tick was taken at time [t]: the next multiple of
    the interval after [t]. *)
Definition nextTick (tick t : Duration) : Duration :=
  tick + tickInterval * (1 + (t - tick) / tickInterval).

Inductive selected := TakeDone | TakeTick.

(** The [select]: it waits for the first case to become ready; when both
    are ready at once the runtime chooses. *)
Definition select (w : World) (st : Poll) : selected * Duration :=
  let tTick := N.max (now st) (tickAt st) in
  let tDone := N.max (now st) (doneAt w) in
  if tTick <? tDone then (TakeTick, tTick)
  else if tDone <? tTick then (TakeDone, tDone)
  else if selectDone w (selects st) then (TakeDone, tDone)
  else (TakeTick, tTick).

Definition timedOut : error :=
  Errorf "timed out waiting for Hue Bridge to be authenticated".

(** The [for apiKey == "" { select ... }] loop.  [fuel] bounds the
    passes through the loop; [None] means it was not enough. *)
Fixpoint pollLoop (w : World) (fuel : nat) (key : string) (st : Poll)
    (tr : list event) : option (result string * Poll * list event) :=
  if decide (key = "") then
    match fuel with
    | O => None
    | S fuel' =>
      match select w st with
      | (TakeDone, t) =>
        Some (Err timedOut,
              {| now := t; tickAt := tickAt st;
                 requests := requests st; selects := S (selects st) |},
              tr)
      | (TakeTick, t) =>
        let r := Authenticate w (requests st) in
        let st' := {| now := t + latency r;
                      tickAt := nextTick (tickAt st) t;
                      requests := S (requests st);
                      selects := S (selects st) |} in
        let tr' := (tr ++ [EvPrintln "Waiting for hue bridge button to be pressed";
                           EvAuthenticate (requests st)])%list in
        match authenticateWithBridgeIpOnce r with
        | Err e => Some (Err e, st', tr')
        | Ok k => pollLoop w fuel' k st' tr'
        end
      end
    end
  else Some (Ok key, st, tr).

(** The clock at the entry of the loop.  It starts when the waiter is
    entered: the context, the ticker and the authenticator are created
    at time 0, and the ticker has its first tick one interval later. *)
Definition poll0 : Poll :=
  {| now := 0; tickAt := tickInterval; requests := 0; selects := 0 |}.

(** [authenticateWithBridgeIp] *)
Definition authenticateWithBridgeIp (w : World) (fuel : nat)
    (bridgeIpAddress : string) (tr : list event)
  : option (result string * Poll * list event) :=
  let tr := (tr ++ [EvNewAuthenticator bridgeIpAddress])%list in
  match NewAuthenticator w bridgeIpAddress with
  | Some e => Some (Err (Wrapf "failed to create authenticator: " e), poll0, tr)
  | None => pollLoop w fuel "" poll0 tr
  end.

(** The waiter as a step of the configuration flow.  Its call of
    [openhue.NewAuthenticator] switches certificate verification off on
    [http.DefaultTransport] before anything else, whether or not an
    authenticator comes of it. *)
Definition pair (w : World) (fuel : nat) (ip : string) : M string :=
  fun p =>
    match authenticateWithBridgeIp w fuel ip (trace p) with
    | None => None
    | Some (r, _, tr) =>
      Some (r, {| files := files p; globalViper := globalViper p;
                  DefaultTransport_InsecureSkipVerify := true;
                  trace := tr |})
    end.

(** [openhue.NewBridgeDiscovery(openhue.WithTimeout(5 * time.Second)).Discover()] *)
Definition discover (w : World) : M BridgeInfo :=
  fun p =>
    match Discover w with
    | Ok md => Some (Ok md, emit [EvDiscover] p)
    | Err e => Some (Err e, emit [EvDiscover] p)
    end.

(** [fmt.Errorf("...: %w", err)] around a failing step. *)
Definition wrap {A} (prefix : string) (c : M A) : M A :=
  fun p =>
    match c p with
    | Some (Err e, p') => Some (Err (Wrapf prefix e), p')
    | other => other
    end.

(** [cfg.ReadInConfig()]; the code drops the error. *)
Definition readInConfig (cfg : viper.Viper) : M viper.Viper :=
  fun p => Some (Ok (fst (viper.ReadInConfig cfg (files p))), p).

(** [cfg.SafeWriteConfigAs(path)] *)
Definition safeWriteConfigAs (w : World) (cfg : viper.Viper) (path : string)
  : M (option error) :=
  fun p =>
    let '(fs, e) :=
      viper.SafeWriteConfigAs cfg (environ w) (createErr w) (files p) path in
    Some (Ok e, emit [EvWriteConfig path] (set_files fs p)).

(** package-level [viper.SetDefault(key, value)] *)
Definition viper_SetDefault (key value : string) : M unit :=
  fun p =>
    Some (Ok tt, set_globalViper (viper.SetDefault (globalViper p) key value) p).

(** The texts of the longer log messages. *)
Definition msgDiscovering : string :=
  "No Hue bridge ip provided ot set to always discover, attempting to discover one on the local network".
Definition msgPairing : string :=
  "No Hue bridge api key provided, attempting to create one. You will need to press the link button on the Hue Bridge to authenticate!".

(** [GetAuthConfig] *)
Definition GetAuthConfig (w : World) (fuel : nat)
    (tfBridgeIp tfBridgeApiKey : string) (useCache : bool) : M AuthConfig :=
  let cfg := viper.New in
  match UserHomeDir w with
  | Err e => fail (Wrapf "failed to get user home directory: " e)
  | Ok homeDir =>
    let cfg := viper.SetConfigName cfg "credentials" in
    let cfg := viper.SetConfigType cfg "json" in
    viper_SetDefault "hue_bridge_ip" tfBridgeIp ;;;
    viper_SetDefault "hue_bridge_api_key" tfBridgeApiKey ;;;
    cfg <- (if useCache then
              log Info "Using cache for Hue bridge credentials" ;;;
              ret (viper.SetConfigFile cfg (Join homeDir cachePath))
            else ret cfg) ;;
    let cfg := viper.AutomaticEnv cfg in
    cfg <- readInConfig cfg ;;
    (* Fallback to discovery and authentication *)
    let hueBridgeIp := viper.GetString cfg (environ w) "hue_bridge_ip" in
    cfg <- (if bool_decide (hueBridgeIp = "")
               || bool_decide (tfBridgeIp = "discover") then
              log Info msgDiscovering ;;;
              discoveryMetadata <- wrap "failed to discover Hue Bridge: " (discover w) ;;
              log Info "Successfully discovered Hue Bridge" ;;;
              ret (viper.Set_ cfg "hue_bridge_ip" (IpAddress discoveryMetadata))
            else ret cfg) ;;
    let hueBridgeApiKey := viper.GetString cfg (environ w) "hue_bridge_api_key" in
    cfg <- (if bool_decide (hueBridgeApiKey = "") then
              log Warn msgPairing ;;;
              tfBridgeApiKey <- wrap "failed to authenticate with Hue Bridge: "
                (pair w fuel (viper.GetString cfg (environ w) "hue_bridge_ip")) ;;
              ret (viper.Set_ cfg "hue_bridge_api_key" tfBridgeApiKey)
            else ret cfg) ;;
    (if useCache then
       e <- safeWriteConfigAs w cfg (Join homeDir cachePath) ;;
       match e with
       | Some e => log Warn ("Failed to write cache file: " ++ Error_ e)
       | None => ret tt
       end
     else ret tt) ;;;
    ret {| BridgeIp := viper.GetString cfg (environ w) "hue_bridge_ip";
           BridgeApiKey := viper.GetString cfg (environ w) "hue_bridge_api_key" |}
  end.

End config.

(** ** Terraform plugin framework values *)

Module types.

(** [types.String]: null, unknown or a known value. *)
Inductive String_ : Type :=
| StringNull
| StringUnknown
| StringValue (s : string).

Definition ValueString (s : String_) : string :=
  match s with StringValue v => v | _ => "" end.

Definition ValueStringPointer (s : String_) : option string :=
  match s with
  | StringNull => None
  | StringUnknown => Some ""
  | StringValue v => Some v
  end.

(** The [String()] method, used in messages: a known value is formatted
    with [%q]. *)
Definition String `{strconv.PrintTables} (s : String_) : string :=
  match s with
  | StringNull => "<null>"
  | StringUnknown => "<unknown>"
  | StringValue v => strconv.Quote v
  end.

Definition StringPointerValue (s : option string) : String_ :=
  match s with Some v => StringValue v | None => StringNull end.

Inductive Bool : Type :=
| BoolNull
| BoolUnknown
| BoolValue (b : bool).

Definition ValueBool (b : Bool) : bool :=
  match b with BoolValue v => v | _ => false end.

(** [types.List] with string elements: null, unknown or known. *)
Inductive List_ : Type :=
| ListNull
| ListUnknown
| ListValue (elements : list String_).

(** [Elements()]: a null or unknown list has none. *)
Definition Elements (l : List_) : list String_ :=
  match l with ListValue elements => elements | _ => [] end.

End types.

Inductive Severity := SeverityError | SeverityWarning.

Record Diagnostic : Type := mkDiagnostic {
  severity : Severity;
  summary : string;
  detail : string
}.

Definition Diagnostics := list Diagnostic.

Definition AddError (summary detail : string) (d : Diagnostics) : Diagnostics :=
  (d ++ [mkDiagnostic SeverityError summary detail])%list.

Definition HasError (d : Diagnostics) : bool :=
  existsb (fun x => match severity x with SeverityError => true | _ => false end) d.

(** ** openhue-go: the REST client *)

Module openhue.

Inductive RequestEditorFn : Type :=
| SetHeader (name value : string).     (* req.Header.Set(name, value) *)

(** A [*ClientWithResponses], by what it was constructed with. *)
Record ClientWithResponses : Type := mkClient {
  Server : string;
  RequestEditors : list RequestEditorFn
}.

(** The room archetypes are strings; of the library's constants the code
    names these six. *)
Definition RoomArchetype := string.
Definition RoomArchetypeBedroom : RoomArchetype := "bedroom".
Definition RoomArchetypeBathroom : RoomArchetype := "bathroom".
Definition RoomArchetypeKitchen : RoomArchetype := "kitchen".
Definition RoomArchetypeDining : RoomArchetype := "dining".
Definition RoomArchetypeOffice : RoomArchetype := "office".
Definition RoomArchetypeOther : RoomArchetype := "other".

Record ResourceIdentifier : Type := mkResourceIdentifier {
  Rid : option string;
  Rtype : option string
}.

Record RoomMetadata : Type := mkRoomMetadata {
  Archetype : option RoomArchetype;
  Name : option string
}.

Record RoomPut : Type := mkRoomPut {
  Children : option (list ResourceIdentifier);
  Metadata : option RoomMetadata
}.

(** What [CreateRoomWithResponse] hands back: the HTTP status, the body,
    and what [json.Unmarshal] of the body puts behind [JSON200.Data]
    ([None] when one of the two pointers stays nil). *)
Record CreateRoomResponse : Type := mkCreateRoomResponse {
  StatusCode : N;
  Status : string;
  Body : option string;
  JSON200_Data : option (list ResourceIdentifier)
}.

End openhue.

(** ** internal/provider *)

Module provider.

Record OpenhueProviderModel : Type := mkOpenhueProviderModel {
  BridgeIp : types.String_;
  BridgeApiKey : types.String_;
  Cache : types.Bool
}.

(** [req.Config.Get(ctx, &model)]: the decoded model and the diagnostics
    of decoding. *)
Record ConfigureRequest : Type := mkConfigureRequest {
  Config_model : OpenhueProviderModel;
  Config_diags : Diagnostics
}.

Record ConfigureResponse : Type := mkConfigureResponse {
  Diags : Diagnostics;
  DataSourceData : option openhue.ClientWithResponses;
  ResourceData : option openhue.ClientWithResponses;
  EphemeralResourceData : option openhue.ClientWithResponses
}.

Definition failed (d : Diagnostics) : ConfigureResponse :=
  {| Diags := d; DataSourceData := None; ResourceData := None;
     EphemeralResourceData := None |}.

(** [openhue.NewClientWithResponses(server, WithRequestEditorFn(fn))] *)
Definition NewClientWithResponses (w : World) (server : string)
    (fn : openhue.RequestEditorFn) : result openhue.ClientWithResponses :=
  match NewClientErr w with
  | Some e => Err e
  | None => Ok (openhue.mkClient server [fn])
  end.

Section WithPrintTables.
Context {printTables : strconv.PrintTables}.

(** [OpenhueProvider.Configure] *)
Definition Configure (w : World) (fuel : nat) (req : ConfigureRequest)
    (p : Proc) : option (ConfigureResponse * Proc) :=
  let model := Config_model req in
  let diags := Config_diags req in
  match config.GetAuthConfig w fuel
          (types.ValueString (BridgeIp model))
          (types.ValueString (BridgeApiKey model))
          (types.ValueBool (Cache model)) p with
  | None => None
  | Some (r, p) =>
    let p := emit [EvLog Info ("Configuring provider with bridge_ip: "
                               ++ types.String (BridgeIp model))] p in
    match r with
    | Err e =>
      Some (failed (AddError "failed to get auth config"
                      ("failed to get auth config: " ++ Error_ e) diags), p)
    | Ok authConfig =>
      (* Create a new client with the provided bridge IP and API key *)
      match NewClientWithResponses w
              ("https://" ++ config.BridgeIp authConfig)
              (openhue.SetHeader "hue-application-key"
                                 (config.BridgeApiKey authConfig)) with
      | Err e =>
        Some (failed (AddError "failed to create home"
                        ("failed to create home: " ++ Error_ e) diags), p)
      | Ok client =>
        let p := set_InsecureSkipVerify true p in
        (* Handoff "Client" to the provider *)
        Some ({| Diags := diags;
                 DataSourceData := Some client;
                 ResourceData := Some client;
                 EphemeralResourceData := Some client |}, p)
      end
    end
  end.

End WithPrintTables.

End provider.

(** ** internal/resources: rooms *)

Module resources.

Record RoomResourceModel : Type := mkRoomResourceModel {
  Name : types.String_;
  Id : types.String_;
  LightIds : types.List_;
  Archetype : types.String_
}.

Definition stringToRoomArchetype : gmap string openhue.RoomArchetype :=
  list_to_map
    [ ("bedroom", openhue.RoomArchetypeBedroom);
      ("bathroom", openhue.RoomArchetypeBathroom);
      ("kitchen", openhue.RoomArchetypeKitchen);
      ("dining", openhue.RoomArchetypeDining);
      ("office", openhue.RoomArchetypeOffice);
      ("other", openhue.RoomArchetypeOther) ].

(** [mapStringToRoomArchetype]: a Go map read hands back the zero value
    and [false] for a missing key. *)
Definition mapStringToRoomArchetype (archetype : string)
  : openhue.RoomArchetype * bool :=
  match stringToRoomArchetype !! archetype with
  | Some val => (val, true)
  | None => ("", false)
  end.

Section WithPrintTables.
Context {printTables : strconv.PrintTables}.

(** [buildRoomPutPayload] *)
Definition buildRoomPutPayload (model : RoomResourceModel)
  : result openhue.RoomPut :=
  let '(archetype, ok) :=
    mapStringToRoomArchetype (types.ValueString (Archetype model)) in
  if negb ok then
    Err (Errorf ("failed to create room: invalid archetype "
                 ++ types.String (Archetype model)))
  else
    (* Build Metadata *)
    let metadata :=
      {| openhue.Name := types.ValueStringPointer (Name model);
         openhue.Archetype := Some archetype |} in
    (* Build Children *)
    let children :=
      List.map (fun lightId =>
                  {| openhue.Rid := Some (types.ValueString lightId);
                     openhue.Rtype := Some "device" |})
               (types.Elements (LightIds model)) in
    Ok {| openhue.Children := Some children;
          openhue.Metadata := Some metadata |}.

End WithPrintTables.

(** A room resource holds the client it was configured with, or nil. *)
Record Room : Type := mkRoom {
  client : option openhue.ClientWithResponses
}.

(** [req.Plan.Get(ctx, &model)]: the decoded plan and the diagnostics of
    decoding. *)
Record CreateRequest : Type := mkCreateRequest {
  Plan_model : RoomResourceModel;
  Plan_diags : Diagnostics
}.

Record CreateResponse : Type := mkCreateResponse {
  Diags : Diagnostics;
  State : option RoomResourceModel
}.

Inductive RoomEvent : Type :=
| RoomLog (msg : string)                          (* tflog.Info *)
| RestCreateRoom (body : openhue.RoomPut).        (* POST to the bridge *)

Definition is_rest (e : RoomEvent) : bool :=
  match e with RestCreateRoom _ => true | _ => false end.

Definition count_rest (tr : list RoomEvent) : nat :=
  List.length (List.filter is_rest tr).

(** A call either returns or panics (a nil pointer is dereferenced). *)
Inductive outcome (A : Type) : Type :=
| Returned (a : A)
| Panicked.
Arguments Returned {A} a.
Arguments Panicked {A}.

Definition StatusCreated : N := 201.

Definition addError (summary detail : string) (resp : CreateResponse)
  : CreateResponse :=
  {| Diags := AddError summary detail (Diags resp); State := State resp |}.

Definition bodyText (b : option string) : string := default "" b.

Section WithPrintTables.
Context {printTables : strconv.PrintTables}.

(** [Room.Create].  [CreateRoomWithResponse] is the bridge's answer to
    the request the client sends. *)
Definition Create
    (CreateRoomWithResponse :
       openhue.RoomPut -> result openhue.CreateRoomResponse)
    (r : Room) (req : CreateRequest) (resp : CreateResponse)
  : outcome CreateResponse * list RoomEvent :=
  match client r with
  | None =>
    (Returned (addError "failed to create room" "client is nil" resp), [])
  | Some _ =>
    let model := Plan_model req in
    let resp := {| Diags := (Diags resp ++ Plan_diags req)%list;
                   State := State resp |} in
    if HasError (Diags resp) then (Returned resp, [])
    else
      let tr := [RoomLog ("Creating room " ++ types.String (Name model))] in
      match buildRoomPutPayload model with
      | Err e =>
        (Returned (addError "failed to create room"
                     ("failed to create room: " ++ Error_ e) resp), tr)
      | Ok putData =>
        let tr := (tr ++ [RestCreateRoom putData])%list in
        match CreateRoomWithResponse putData with
        | Err e =>
          (Returned (addError "failed to create room"
                       ("failed to create room: " ++ Error_ e) resp), tr)
        | Ok apiResp =>
          if negb (openhue.StatusCode apiResp =? StatusCreated) then
            (Returned (addError "failed to create room"
                         ("failed to create room: " ++ openhue.Status apiResp
                          ++ ", response data: "
                          ++ bodyText (openhue.Body apiResp)) resp), tr)
          else
            match openhue.Body apiResp with
            | None =>
              (Returned (addError "failed to create room"
                           "failed to create room: no response body" resp), tr)
            | Some _ =>
              (* Unmarshal the 201 response body onto the JSON200 struct *)
              match openhue.JSON200_Data apiResp with
              | None => (Panicked, tr)
              | Some [] =>
                (Returned (addError "failed to create room"
                             "failed to create room: no data in response body"
                             resp), tr)
              | Some (first :: _) =>
                let model :=
                  {| Name := Name model;
                     Id := types.StringPointerValue (openhue.Rid first);
                     LightIds := LightIds model;
                     Archetype := Archetype model |} in
                (Returned {| Diags := Diags resp; State := Some model |}, tr)
              end
            end
        end
      end
  end.

End WithPrintTables.

End resources.

(** ** More of the plugin framework *)

Module framework.

(** [types.Bool]: the pointer conversions. *)
Definition ValueBoolPointer (b : types.Bool) : option bool :=
  match b with
  | types.BoolNull => None
  | types.BoolUnknown => Some false
  | types.BoolValue v => Some v
  end.

Definition BoolPointerValue (b : option bool) : types.Bool :=
  match b with Some v => types.BoolValue v | None => types.BoolNull end.

(** [types.Float32].  The code hands these numbers on and never computes
    with them, so the type of a float32 and its zero are left open. *)
Inductive Float32 (float32 : Type) : Type :=
| Float32Null
| Float32Unknown
| Float32Value (f : float32).
Arguments Float32Null {float32}.
Arguments Float32Unknown {float32}.
Arguments Float32Value {float32} f.

Definition ValueFloat32Pointer {float32 : Type} (zero : float32)
    (f : Float32 float32) : option float32 :=
  match f with
  | Float32Null => None
  | Float32Unknown => Some zero
  | Float32Value v => Some v
  end.

Definition Float32PointerValue {float32 : Type} (f : option float32)
  : Float32 float32 :=
  match f with Some v => Float32Value v | None => Float32Null end.

(** [types.ListValueFrom(ctx, types.StringType, strings)] for a slice of
    strings ([None]: the nil slice, which gives the null list). *)
Definition ListValueFrom (elems : option (list string))
  : types.List_ * Diagnostics :=
  match elems with
  | None => (types.ListNull, [])
  | Some elems => (types.ListValue (List.map types.StringValue elems), [])
  end.

(** [req.ProviderData]: nil, a [*openhue.ClientWithResponses], or a value
    of another type (by the name [%T] prints). *)
Inductive ProviderData : Type :=
| IsClient (c : openhue.ClientWithResponses)
| IsOther (typeName : string).

(** What the CRUD callbacks other than [Create] of a room leave behind:
    the diagnostics and the state, for a state of type [S]. *)
Record Response (S : Type) : Type := mkResponse {
  Diags : Diagnostics;
  State : option S
}.
Arguments mkResponse {S} Diags State.
Arguments Diags {S} r.
Arguments State {S} r.

Definition addError {S} (summary detail : string) (resp : Response S)
  : Response S :=
  {| Diags := AddError summary detail (Diags resp); State := State resp |}.

Definition append {S} (d : Diagnostics) (resp : Response S) : Response S :=
  {| Diags := (Diags resp ++ d)%list; State := State resp |}.

Definition setState {S} (s : S) (resp : Response S) : Response S :=
  {| Diags := Diags resp; State := Some s |}.

(** [req.Plan.Get] / [req.State.Get] / [req.Config.Get]: the decoded model
    and the diagnostics of decoding. *)
Record Request (S : Type) : Type := mkRequest {
  model : S;
  diags : Diagnostics
}.
Arguments mkRequest {S} model diags.
Arguments model {S} r.
Arguments diags {S} r.

End framework.

(** ** openhue-go: the other calls *)

Module api.

Definition StatusOK : N := 200.
Definition StatusMultiStatus : N := 207.

(** A parsed response: the HTTP status, the body as text, and [JSON200]
    with its [Data] ([None]: [JSON200] is nil; [Some None]: [Data] is
    nil). *)
Record Parsed (A : Type) : Type := mkParsed {
  StatusCode : N;
  Status : string;
  Body : string;
  JSON200 : option (option (list A))
}.
Arguments mkParsed {A} StatusCode Status Body JSON200.
Arguments StatusCode {A} p.
Arguments Status {A} p.
Arguments Body {A} p.
Arguments JSON200 {A} p.

Record RoomGet : Type := mkRoomGet {
  RoomChildren : option (list openhue.ResourceIdentifier);
  RoomId : option string;
  RoomMetadata : option openhue.RoomMetadata
}.

(** The calls a room resource makes, and the bridge's answers to them. *)
Inductive RoomCall : Type :=
| GetRoom (roomId : string)
| UpdateRoom (roomId : string) (body : openhue.RoomPut)
| DeleteRoom (roomId : string).

Record RoomApi : Type := mkRoomApi {
  GetRoomWithResponse : string -> result (Parsed RoomGet);
  UpdateRoomWithResponse :
    string -> openhue.RoomPut -> result (Parsed openhue.ResourceIdentifier);
  DeleteRoomWithResponse :
    string -> result (Parsed openhue.ResourceIdentifier)
}.

(** Lights. *)
Record On : Type := mkOn { On_On : option bool }.

Record GamutPosition (float32 : Type) : Type := mkGamutPosition {
  X : option float32;
  Y : option float32
}.
Arguments mkGamutPosition {float32} X Y.
Arguments X {float32} g.
Arguments Y {float32} g.

Record Color (float32 : Type) : Type := mkColor {
  Xy : option (GamutPosition float32)
}.
Arguments mkColor {float32} Xy.
Arguments Xy {float32} c.

Record Dimming (float32 : Type) : Type := mkDimming {
  Brightness : option float32
}.
Arguments mkDimming {float32} Brightness.
Arguments Brightness {float32} d.

Record LightPut (float32 : Type) : Type := mkLightPut {
  PutOn : option On;
  PutColor : option (Color float32);
  PutDimming : option (Dimming float32)
}.
Arguments mkLightPut {float32} PutOn PutColor PutDimming.
Arguments PutOn {float32} l.
Arguments PutColor {float32} l.
Arguments PutDimming {float32} l.

Record LightMetadata : Type := mkLightMetadata { LightName : option string }.

Record LightGet (float32 : Type) : Type := mkLightGet {
  LightId : option string;
  LightMeta : option LightMetadata;
  LightOn : option On;
  LightDimming : option (Dimming float32)
}.
Arguments mkLightGet {float32} LightId LightMeta LightOn LightDimming.
Arguments LightId {float32} l.
Arguments LightMeta {float32} l.
Arguments LightOn {float32} l.
Arguments LightDimming {float32} l.

Inductive LightCall (float32 : Type) : Type :=
| GetLights
| GetLight (lightId : string)
| UpdateLight (lightId : string) (body : LightPut float32).
Arguments GetLights {float32}.
Arguments GetLight {float32} lightId.
Arguments UpdateLight {float32} lightId body.

Record LightApi (float32 : Type) : Type := mkLightApi {
  GetLightsWithResponse : result (Parsed (LightGet float32));
  GetLightWithResponse : string -> result (Parsed (LightGet float32));
  UpdateLightWithResponse :
    string -> LightPut float32 -> result (Parsed openhue.ResourceIdentifier)
}.
Arguments mkLightApi {float32} _ _ _.
Arguments GetLightsWithResponse {float32} l.
Arguments GetLightWithResponse {float32} l _.
Arguments UpdateLightWithResponse {float32} l _ _.

End api.

(** What a callback did: the messages it logged and the calls it made. *)
Inductive OpEvent (Call : Type) : Type :=
| OpLog (msg : string)
| OpCall (c : Call).
Arguments OpLog {Call} msg.
Arguments OpCall {Call} c.

Definition is_call {Call} (e : OpEvent Call) : bool :=
  match e with OpCall _ => true | OpLog _ => false end.

Definition calls {Call} (tr : list (OpEvent Call)) : list Call :=
  List.flat_map (fun e => match e with OpCall c => [c] | OpLog _ => [] end) tr.

(** ** internal/resources: the rest of the room resource *)

Module room.
Import resources.

Definition Trace := list (OpEvent api.RoomCall).
Definition Resp := framework.Response RoomResourceModel.
Definition Req := framework.Request RoomResourceModel.

(** [Room.Configure] *)
Definition Configure (r : Room) (providerData : option framework.ProviderData)
    (d : Diagnostics) : Room * Diagnostics :=
  match providerData with
  | None => (r, d)
  | Some (framework.IsOther typeName) =>
    (r, AddError "expected openhue.ClientWithResponses"
          ("Expected *openhue.Client, got " ++ typeName) d)
  | Some (framework.IsClient client) => (mkRoom (Some client), d)
  end.

(** The [*light.Rid] of the loop over the children, in order; [None] when
    one of them is nil. *)
Fixpoint childRids (children : list openhue.ResourceIdentifier)
  : option (list string) :=
  match children with
  | [] => Some []
  | light :: rest =>
    match openhue.Rid light with
    | None => None
    | Some rid =>
      match childRids rest with
      | None => None
      | Some rids => Some (rid :: rids)
      end
    end
  end.

(** [mapRoomResponseToModel] *)
Definition mapRoomResponseToModel (room : api.RoomGet)
  : outcome (result RoomResourceModel) :=
  match api.RoomChildren room with
  | None => Panicked
  | Some children =>
    match childRids children with
    | None => Panicked
    | Some rids =>
      (* [var lightIds []string] stays nil when the loop appends nothing *)
      let lightIds := match rids with [] => None | _ => Some rids end in
      let '(listValues, diagnostics) := framework.ListValueFrom lightIds in
      if HasError diagnostics then
        Returned (Err (Errorf "failed to map room response to model"))
      else
        match api.RoomMetadata room with
        | None => Panicked
        | Some metadata =>
          match openhue.Archetype metadata with
          | None => Panicked
          | Some archetype =>
            Returned (Ok {| Name := types.StringPointerValue (openhue.Name metadata);
                            Id := types.StringPointerValue (api.RoomId room);
                            LightIds := listValues;
                            Archetype := types.StringValue archetype |})
          end
        end
    end
  end.

Section WithPrintTables.
Context {printTables : strconv.PrintTables}.

(** [Room.Read] *)
Definition Read (bridge : api.RoomApi) (r : Room) (req : Req) (resp : Resp)
  : outcome Resp * Trace :=
  match client r with
  | None =>
    (Returned (framework.addError "failed to read room" "client is nil" resp), [])
  | Some _ =>
    let model := framework.model req in
    let resp := framework.append (framework.diags req) resp in
    let tr := [OpLog ("Reading room " ++ types.String (Id model))] in
    if HasError (framework.Diags resp) then (Returned resp, tr)
    else
      let tr := (tr ++ [OpCall (api.GetRoom (types.ValueString (Id model)))])%list in
      match api.GetRoomWithResponse bridge (types.ValueString (Id model)) with
      | Err e =>
        (Returned (framework.addError "failed to get room"
                     ("failed to get room: " ++ Error_ e) resp), tr)
      | Ok apiResp =>
        if negb (api.StatusCode apiResp =? api.StatusOK) then
          (Returned (framework.addError "failed to get room"
                       ("failed to get room: " ++ api.Status apiResp ++ ", "
                        ++ api.Body apiResp) resp), tr)
        else
          match api.JSON200 apiResp with
          | None =>
            (Returned (framework.addError "failed to get room"
                         "failed to get room: no response body" resp), tr)
          | Some None => (Panicked, tr)
          | Some (Some []) =>
            (Returned (framework.addError "failed to get room"
                         "failed to get room: no data in response body" resp), tr)
          | Some (Some (first :: _)) =>
            match mapRoomResponseToModel first with
            | Panicked => (Panicked, tr)
            | Returned (Err e) =>
              (Returned (framework.addError "failed to get room"
                           ("failed to get room: " ++ Error_ e) resp), tr)
            | Returned (Ok model) => (Returned (framework.setState model resp), tr)
            end
          end
      end
  end.

(** The zero value of [openhue.RoomPut]. *)
Definition zeroRoomPut : openhue.RoomPut :=
  {| openhue.Children := None; openhue.Metadata := None |}.

(** [Room.Update].  The error of [buildRoomPutPayload] is overwritten by
    the next assignment to [err] before it is looked at; with it comes the
    zero payload. *)
Definition Update (bridge : api.RoomApi) (r : Room) (req : Req) (resp : Resp)
  : outcome Resp * Trace :=
  match client r with
  | None =>
    (Returned (framework.addError "failed to update room" "client is nil" resp), [])
  | Some _ =>
    let model := framework.model req in
    let resp := framework.append (framework.diags req) resp in
    if HasError (framework.Diags resp) then (Returned resp, [])
    else
      let putData := match buildRoomPutPayload model with
                     | Ok putData => putData
                     | Err _ => zeroRoomPut
                     end in
      let tr := [OpLog ("Updating room " ++ types.ValueString (Id model));
                 OpCall (api.UpdateRoom (types.ValueString (Id model)) putData)] in
      match api.UpdateRoomWithResponse bridge (types.ValueString (Id model)) putData with
      | Err e =>
        (Returned (framework.addError "failed to update room"
                     ("failed to update room: " ++ Error_ e) resp), tr)
      | Ok apiResp =>
        if negb (api.StatusCode apiResp =? api.StatusOK) then
          (Returned (framework.addError "failed to update room"
                       ("failed to update room: " ++ api.Status apiResp ++ ", "
                        ++ api.Body apiResp) resp), tr)
        else
          match api.JSON200 apiResp with
          | None =>
            (Returned (framework.addError "failed to update room"
                         "failed to update room: no response body" resp), tr)
          | Some None => (Panicked, tr)
          | Some (Some []) =>
            (Returned (framework.addError "failed to update room"
                         "failed to update room: no data in response body" resp), tr)
          | Some (Some (_ :: _)) => (Returned (framework.setState model resp), tr)
          end
      end
  end.

(** [Room.Delete] *)
Definition Delete (bridge : api.RoomApi) (r : Room) (req : Req) (resp : Resp)
  : outcome Resp * Trace :=
  match client r with
  | None =>
    (Returned (framework.addError "failed to delete room" "client is nil" resp), [])
  | Some _ =>
    let model := framework.model req in
    let resp := framework.append (framework.diags req) resp in
    let tr := [OpLog ("Deleting room " ++ types.String (Id model))] in
    if HasError (framework.Diags resp) then (Returned resp, tr)
    else
      let tr := (tr ++ [OpCall (api.DeleteRoom (types.ValueString (Id model)))])%list in
      match api.DeleteRoomWithResponse bridge (types.ValueString (Id model)) with
      | Err e =>
        (Returned (framework.addError "failed to delete room"
                     ("failed to delete room: " ++ Error_ e) resp), tr)
      | Ok apiResp =>
        if negb (api.StatusCode apiResp =? api.StatusOK) then
          (Returned (framework.addError "failed to delete room"
                       ("failed to delete room: " ++ api.Status apiResp ++ ", "
                        ++ api.Body apiResp) resp), tr)
        else (Returned resp, tr)
      end
  end.

End WithPrintTables.

End room.

(** ** internal/resources: the light resource *)

Module light.

Section WithFloat32.
Context {printTables : strconv.PrintTables}.
Variable float32 : Type.
Variable zero : float32.

Record lightResourceModelColor : Type := mkColorModel {
  X : framework.Float32 float32;
  Y : framework.Float32 float32;
  Z : framework.Float32 float32
}.

Record lightResourceModel : Type := mkLightModel {
  Name : types.String_;
  Id : types.String_;
  On : types.Bool;
  Brightness : framework.Float32 float32;
  Color : lightResourceModelColor
}.

Record Light : Type := mkLight {
  client : option openhue.ClientWithResponses
}.

Definition Trace := list (OpEvent (api.LightCall float32)).
Definition Resp := framework.Response lightResourceModel.
Definition Req := framework.Request lightResourceModel.

(** [Light.Configure] *)
Definition Configure (r : Light) (providerData : option framework.ProviderData)
    (d : Diagnostics) : Light * Diagnostics :=
  match providerData with
  | None => (r, d)
  | Some (framework.IsOther typeName) =>
    (r, AddError "expected openhue.ClientWithResponses"
          ("Expected *openhue.Client, got " ++ typeName) d)
  | Some (framework.IsClient client) => (mkLight (Some client), d)
  end.

(** [lightModelToPayload]; its error is always nil. *)
Definition lightModelToPayload (model : lightResourceModel)
  : option (api.LightPut float32) :=
  Some {| api.PutOn := Some {| api.On_On := framework.ValueBoolPointer (On model) |};
          api.PutColor :=
            Some {| api.Xy :=
                      Some {| api.X := framework.ValueFloat32Pointer zero (X (Color model));
                              api.Y := framework.ValueFloat32Pointer zero (Y (Color model)) |} |};
          api.PutDimming :=
            Some {| api.Brightness :=
                      framework.ValueFloat32Pointer zero (Brightness model) |} |}.

(** [mapLightStateToModel]; it panics when the metadata, the on state or
    the dimming of the light is nil. *)
Definition mapLightStateToModel (lightModel : lightResourceModel)
    (light : api.LightGet float32) : resources.outcome lightResourceModel :=
  match api.LightMeta light, api.LightOn light, api.LightDimming light with
  | Some metadata, Some on, Some dimming =>
    resources.Returned
      {| Name := types.StringPointerValue (api.LightName metadata);
         Id := types.StringPointerValue (api.LightId light);
         On := framework.BoolPointerValue (api.On_On on);
         Brightness := framework.Float32PointerValue (api.Brightness dimming);
         Color := Color lightModel |}
  | _, _, _ => resources.Panicked
  end.

(** [*light.Metadata.Name]; [None] when a pointer on the way is nil. *)
Definition nameOf (light : api.LightGet float32) : option string :=
  match api.LightMeta light with
  | Some metadata => api.LightName metadata
  | None => None
  end.

(** The search loop of [Create]: the first light of the name. *)
Fixpoint findLight (name : string) (lights : list (api.LightGet float32))
  : resources.outcome (option (api.LightGet float32)) :=
  match lights with
  | [] => resources.Returned None
  | light :: rest =>
    match nameOf light with
    | None => resources.Panicked
    | Some n =>
      if decide (n = name) then resources.Returned (Some light)
      else findLight name rest
    end
  end.

(** The loop that collects the names for the error message. *)
Fixpoint lampNames (lights : list (api.LightGet float32))
  : option (list string) :=
  match lights with
  | [] => Some []
  | light :: rest =>
    match nameOf light, lampNames rest with
    | Some n, Some names => Some (n :: names)
    | _, _ => None
    end
  end.

Definition notFound (name : types.String_) (names : list string) : string :=
  "failed to create light: light " ++ types.String name
  ++ " not found. Available lamps " ++ String.concat ", " names.

(** [Light.Create] *)
Definition Create (bridge : api.LightApi float32) (r : Light) (req : Req)
    (resp : Resp) : resources.outcome Resp * Trace :=
  match client r with
  | None =>
    (resources.Returned
       (framework.addError "failed to create light" "client is nil" resp), [])
  | Some _ =>
    let model := framework.model req in
    let resp := framework.append (framework.diags req) resp in
    if HasError (framework.Diags resp) then (resources.Returned resp, [])
    else
      let tr := [OpCall api.GetLights] in
      match api.GetLightsWithResponse bridge with
      | Err e =>
        (resources.Returned
           (framework.addError "failed to find light"
              ("failed to create light: " ++ Error_ e) resp), tr)
      | Ok parsedApiResp =>
        if negb (api.StatusCode parsedApiResp =? api.StatusOK) then
          (resources.Returned
             (framework.addError "failed to find light"
                ("failed to create light: " ++ api.Status parsedApiResp ++ ", "
                 ++ api.Body parsedApiResp) resp), tr)
        else
          match api.JSON200 parsedApiResp with
          | None | Some None => (resources.Panicked, tr)
          | Some (Some getLightResponse) =>
            (* Search for the light in the response *)
            match findLight (types.ValueString (Name model)) getLightResponse with
            | resources.Panicked => (resources.Panicked, tr)
            | resources.Returned None =>
              match lampNames getLightResponse with
              | None => (resources.Panicked, tr)
              | Some names =>
                (resources.Returned
                   (framework.addError "failed to find light"
                      (notFound (Name model) names) resp), tr)
              end
            | resources.Returned (Some targetLight) =>
              (* Set the ID of the light *)
              let model := {| Name := Name model;
                              Id := types.StringPointerValue (api.LightId targetLight);
                              On := On model; Brightness := Brightness model;
                              Color := Color model |} in
              (* Update light to reflect new state *)
              let tr := (tr ++ [OpLog ("Updating light " ++ types.String (Id model))])%list in
              match lightModelToPayload model with
              | None =>
                (resources.Returned
                   (framework.addError "failed to update light"
                      "failed to update light: failed to parse color" resp), tr)
              | Some lightPut =>
                let tr := (tr ++ [OpCall (api.UpdateLight (types.ValueString (Id model))
                                            lightPut)])%list in
                match api.UpdateLightWithResponse bridge
                        (types.ValueString (Id model)) lightPut with
                | Err e =>
                  (resources.Returned
                     (framework.addError "failed to update light"
                        ("failed to update light: " ++ Error_ e) resp), tr)
                | Ok updateResp =>
                  if negb (api.StatusCode updateResp =? api.StatusOK)
                     && negb (api.StatusCode updateResp =? api.StatusMultiStatus) then
                    (resources.Returned
                       (framework.addError "failed to update light"
                          ("failed to update light: " ++ api.Status updateResp ++ ", "
                           ++ api.Body updateResp) resp), tr)
                  else
                    match api.JSON200 updateResp with
                    | None =>
                      (resources.Returned
                         (framework.addError "failed to update light"
                            ("failed to update light: no parsed response body.%!(EXTRA string="
                             ++ api.Body updateResp ++ ")") resp), tr)
                    | Some None => (resources.Panicked, tr)
                    | Some (Some []) =>
                      (resources.Returned
                         (framework.addError "failed to get light"
                            "failed to get light: no data in response body" resp), tr)
                    | Some (Some (_ :: _)) =>
                      (resources.Returned (framework.setState model resp), tr)
                    end
                end
              end
            end
          end
      end
  end.

(** [Light.Read] *)
Definition Read (bridge : api.LightApi float32) (r : Light) (req : Req)
    (resp : Resp) : resources.outcome Resp * Trace :=
  match client r with
  | None =>
    (resources.Returned
       (framework.addError "failed to read light" "client is nil" resp), [])
  | Some _ =>
    let model := framework.model req in
    let resp := framework.append (framework.diags req) resp in
    let tr := [OpLog ("Reading light " ++ types.String (Id model))] in
    if HasError (framework.Diags resp) then (resources.Returned resp, tr)
    else
      let tr := (tr ++ [OpCall (api.GetLight (types.ValueString (Id model)))])%list in
      match api.GetLightWithResponse bridge (types.ValueString (Id model)) with
      | Err e =>
        (resources.Returned
           (framework.addError "failed to get light"
              ("failed to get light: " ++ Error_ e) resp), tr)
      | Ok apiResp =>
        if negb (api.StatusCode apiResp =? api.StatusOK) then
          (resources.Returned
             (framework.addError "failed to get light"
                ("failed to get light: " ++ api.Status apiResp ++ ", "
                 ++ api.Body apiResp) resp), tr)
        else
          match api.JSON200 apiResp with
          | None =>
            (resources.Returned
               (framework.addError "failed to get light"
                  "failed to get light: no response body" resp), tr)
          | Some None => (resources.Panicked, tr)
          | Some (Some []) =>
            (resources.Returned
               (framework.addError "failed to get light"
                  "failed to get light: no data in response body" resp), tr)
          | Some (Some (first :: _)) =>
            match mapLightStateToModel model first with
            | resources.Panicked => (resources.Panicked, tr)
            | resources.Returned model =>
              (resources.Returned (framework.setState model resp), tr)
            end
          end
      end
  end.

(** [Light.Update] *)
Definition Update (bridge : api.LightApi float32) (r : Light) (req : Req)
    (resp : Resp) : resources.outcome Resp * Trace :=
  match client r with
  | None =>
    (resources.Returned
       (framework.addError "failed to update light" "client is nil" resp), [])
  | Some _ =>
    let model := framework.model req in
    let resp := framework.append (framework.diags req) resp in
    if HasError (framework.Diags resp) then (resources.Returned resp, [])
    else
      match lightModelToPayload model with
      | None => (resources.Panicked, [])
      | Some lightPut =>
        let tr := [OpCall (api.UpdateLight (types.ValueString (Id model)) lightPut)] in
        match api.UpdateLightWithResponse bridge
                (types.ValueString (Id model)) lightPut with
        | Err e =>
          (resources.Returned
             (framework.addError "failed to update light"
                ("failed to update light: " ++ Error_ e) resp), tr)
        | Ok apiResp =>
          if negb (api.StatusCode apiResp =? api.StatusOK) then
            (resources.Returned
               (framework.addError "failed to update light"
                  ("failed to update light: " ++ api.Status apiResp ++ ", "
                   ++ api.Body apiResp) resp), tr)
          else (resources.Returned (framework.setState model resp), tr)
        end
      end
  end.

(** [Light.Delete]: lights cannot be deleted. *)
Definition Delete (bridge : api.LightApi float32) (r : Light) (req : Req)
    (resp : Resp) : resources.outcome Resp * Trace :=
  (resources.Returned resp, []).

End WithFloat32.

End light.

(** ** internal/datasources: the light data source *)

Module datasources.

Record LightDataSourceModel : Type := mkLightDataSourceModel {
  Id : types.String_;
  Name : types.String_;
  On : types.Bool
}.

Record LightDataSource : Type := mkLightDataSource {
  client : option openhue.ClientWithResponses
}.

Section WithFloat32.
Context {printTables : strconv.PrintTables}.
Variable float32 : Type.

Definition Trace := list (OpEvent (api.LightCall float32)).
Definition Resp := framework.Response LightDataSourceModel.
Definition Req := framework.Request LightDataSourceModel.

(** [LightDataSource.Read].  There is no check of the client here: a call
    through a nil client dereferences it. *)
Definition Read (bridge : api.LightApi float32) (d : LightDataSource)
    (req : Req) (resp : Resp) : resources.outcome Resp * Trace :=
  let model := framework.model req in
  (* Read Terraform configuration data into the model *)
  let resp := framework.append (framework.diags req) resp in
  if HasError (framework.Diags resp) then (resources.Returned resp, [])
  else
    match client d with
    | None => (resources.Panicked, [])
    | Some _ =>
      let tr := [OpCall api.GetLights] in
      match api.GetLightsWithResponse bridge with
      | Err e =>
        (resources.Returned
           (framework.addError "failed to find light"
              ("failed to create light: " ++ Error_ e) resp), tr)
      | Ok parsedApiResp =>
        if negb (api.StatusCode parsedApiResp =? api.StatusOK) then
          (resources.Returned
             (framework.addError "failed to find light"
                ("failed to create light: " ++ api.Status parsedApiResp ++ ", "
                 ++ api.Body parsedApiResp) resp), tr)
        else
          match api.JSON200 parsedApiResp with
          | None | Some None => (resources.Panicked, tr)
          | Some (Some getLightResponse) =>
            (* Search for the light in the response *)
            match light.findLight float32 (types.ValueString (Name model))
                    getLightResponse with
            | resources.Panicked => (resources.Panicked, tr)
            | resources.Returned None =>
              match light.lampNames float32 getLightResponse with
              | None => (resources.Panicked, tr)
              | Some names =>
                (resources.Returned
                   (framework.addError "failed to find light"
                      (light.notFound (Name model) names) resp), tr)
              end
            | resources.Returned (Some targetLight) =>
              match api.LightOn targetLight with
              | None => (resources.Panicked, tr)
              | Some on =>
                (* Set the ID of the light *)
                let model := {| Id := types.StringPointerValue (api.LightId targetLight);
                                Name := Name model;
                                On := framework.BoolPointerValue (api.On_On on) |} in
                (* Set the model in the response *)
                (resources.Returned (framework.setState model resp), tr)
              end
            end
          end
      end
    end.

(** [LightDataSource.Configure] *)
Definition Configure (d : LightDataSource)
    (providerData : option framework.ProviderData) (diags : Diagnostics)
  : LightDataSource * Diagnostics :=
  match providerData with
  | None => (d, diags)
  | Some (framework.IsOther typeName) =>
    (d, AddError "expected openhue.ClientWithResponses"
          ("Expected *openhue.Client, got " ++ typeName) diags)
  | Some (framework.IsClient client) => (mkLightDataSource (Some client), diags)
  end.

End WithFloat32.

End datasources.

Module config_defs.
Import config.
(** The loop's clock after the tick the [select] hands over in [st] and
    the request that follows it. *)
Definition afterTick (w : World) (st : Poll) : Poll :=
  let t := N.max (now st) (tickAt st) in
  {| now := t + latency (Authenticate w (requests st));
     tickAt := nextTick (tickAt st) t;
     requests := S (requests st);
     selects := S (selects st) |}.

Definition tickEvents (st : Poll) : list event :=
  [EvPrintln "Waiting for hue bridge button to be pressed";
   EvAuthenticate (requests st)].

(** The bridge answers the [n]-th request with "not yet, retry". *)
Definition retries (w : World) (n : nat) : Prop :=
  is_Some (err (Authenticate w n)) /\ retry (Authenticate w n) = true.

(** The bridge answers the [n]-th request before the next tick is due. *)
Definition prompt (w : World) (n : nat) : Prop :=
  latency (Authenticate w n) < tickInterval.

(** The runtime's choice is fair: a [select] that keeps finding both
    cases ready takes [Done()] at some point. *)
Definition fairSelect (w : World) : Prop :=
  forall n, exists m, (n <= m)%nat /\ selectDone w m = true.
End config_defs.

(** ** Helpers for the statements about [GetAuthConfig] *)

Module acquire_defs.
Import config.

(** The value the cache file holds for a key, when the cache is in use. *)
Definition cached (w : World) (p : Proc) (useCache : bool) (key : string)
  : option string :=
  if useCache then
    match UserHomeDir w with
    | Ok homeDir =>
      match files p !! Join homeDir cachePath with
      | Some (Json m) => m !! key
      | _ => None
      end
    | Err _ => None
    end
  else None.

(** Environment variable, then cached value, then empty. *)
Definition env_then_cache (w : World) (p : Proc) (useCache : bool)
    (key : string) : string :=
  match viper.getEnv (environ w) (ToUpper key) with
  | Some val => val
  | None => default "" (cached w p useCache key)
  end.

(** [cfg] as it is after [cfg.ReadInConfig()]. *)
Definition loaded (files : gmap string FileContent) (homeDir : string)
    (useCache : bool) : viper.Viper :=
  let cfg :=
    viper.SetConfigType (viper.SetConfigName viper.New "credentials") "json" in
  let cfg := if useCache then viper.SetConfigFile cfg (Join homeDir cachePath)
             else cfg in
  fst (viper.ReadInConfig (viper.AutomaticEnv cfg) files).

(** The four parts of [GetAuthConfig], in the order of its text. *)
Definition stage_load (homeDir tfBridgeIp tfBridgeApiKey : string)
    (useCache : bool) : M viper.Viper :=
  let cfg :=
    viper.SetConfigType (viper.SetConfigName viper.New "credentials") "json" in
  viper_SetDefault "hue_bridge_ip" tfBridgeIp ;;;
  viper_SetDefault "hue_bridge_api_key" tfBridgeApiKey ;;;
  cfg <- (if useCache then
            log Info "Using cache for Hue bridge credentials" ;;;
            ret (viper.SetConfigFile cfg (Join homeDir cachePath))
          else ret cfg) ;;
  readInConfig (viper.AutomaticEnv cfg).

Definition stage_address (w : World) (tfBridgeIp : string)
    (cfg : viper.Viper) : M viper.Viper :=
  if bool_decide (viper.GetString cfg (environ w) "hue_bridge_ip" = "")
     || bool_decide (tfBridgeIp = "discover") then
    log Info msgDiscovering ;;;
    discoveryMetadata <- wrap "failed to discover Hue Bridge: " (discover w) ;;
    log Info "Successfully discovered Hue Bridge" ;;;
    ret (viper.Set_ cfg "hue_bridge_ip" (IpAddress discoveryMetadata))
  else ret cfg.

Definition stage_key (w : World) (fuel : nat) (cfg : viper.Viper)
  : M viper.Viper :=
  if bool_decide (viper.GetString cfg (environ w) "hue_bridge_api_key" = "") then
    log Warn msgPairing ;;;
    tfBridgeApiKey <- wrap "failed to authenticate with Hue Bridge: "
      (pair w fuel (viper.GetString cfg (environ w) "hue_bridge_ip")) ;;
    ret (viper.Set_ cfg "hue_bridge_api_key" tfBridgeApiKey)
  else ret cfg.

Definition stage_save (w : World) (homeDir : string) (useCache : bool)
    (cfg : viper.Viper) : M unit :=
  if useCache then
    e <- safeWriteConfigAs w cfg (Join homeDir cachePath) ;;
    match e with
    | Some e => log Warn ("Failed to write cache file: " ++ Error_ e)
    | None => ret tt
    end
  else ret tt.

(** The process state after each of the two parts that cannot fail. *)
Definition afterLoad (tfBridgeIp tfBridgeApiKey : string) (useCache : bool)
    (p : Proc) : Proc :=
  let g := viper.SetDefault
             (viper.SetDefault (globalViper p) "hue_bridge_ip" tfBridgeIp)
             "hue_bridge_api_key" tfBridgeApiKey in
  {| files := files p; globalViper := g;
     DefaultTransport_InsecureSkipVerify := DefaultTransport_InsecureSkipVerify p;
     trace := (trace p ++ if useCache
                          then [EvLog Info "Using cache for Hue bridge credentials"]
                          else [])%list |}.

Definition saveEvents (w : World) (homeDir : string) (useCache : bool)
    (cfg : viper.Viper) (p : Proc) : list event :=
  if useCache then
    EvWriteConfig (Join homeDir cachePath) ::
    match snd (viper.SafeWriteConfigAs cfg (environ w) (createErr w) (files p)
                 (Join homeDir cachePath)) with
    | Some e => [EvLog Warn ("Failed to write cache file: " ++ Error_ e)]
    | None => []
    end
  else [].

Definition afterSave (w : World) (homeDir : string) (useCache : bool)
    (cfg : viper.Viper) (p : Proc) : Proc :=
  {| files := if useCache
              then fst (viper.SafeWriteConfigAs cfg (environ w) (createErr w)
                          (files p) (Join homeDir cachePath))
              else files p;
     globalViper := globalViper p;
     DefaultTransport_InsecureSkipVerify := DefaultTransport_InsecureSkipVerify p;
     trace := (trace p ++ saveEvents w homeDir useCache cfg p)%list |}.

Definition authConfigOf (w : World) (cfg : viper.Viper) : AuthConfig :=
  {| BridgeIp := viper.GetString cfg (environ w) "hue_bridge_ip";
     BridgeApiKey := viper.GetString cfg (environ w) "hue_bridge_api_key" |}.

(** What [GetAuthConfig] is to hand back, told without the cache file
    being written: the address the environment or the cache has, or the
    one a discovery finds; the key they have, or the one the waiter gets
    from the bridge at that address. *)
Definition credentials (w : World) (fuel : nat) (tfBridgeIp : string)
    (useCache : bool) (p : Proc) : option (result AuthConfig) :=
  match UserHomeDir w with
  | Err e => Some (Err (Wrapf "failed to get user home directory: " e))
  | Ok _ =>
    let found := env_then_cache w p useCache "hue_bridge_ip" in
    let address :=
      if bool_decide (found = "") || bool_decide (tfBridgeIp = "discover") then
        match Discover w with
        | Ok md => Ok (IpAddress md)
        | Err e => Err (Wrapf "failed to discover Hue Bridge: " e)
        end
      else Ok found in
    match address with
    | Err e => Some (Err e)
    | Ok ip =>
      let key := env_then_cache w p useCache "hue_bridge_api_key" in
      if bool_decide (key = "") then
        match authenticateWithBridgeIp w fuel ip [] with
        | None => None
        | Some (Err e, _, _) =>
          Some (Err (Wrapf "failed to authenticate with Hue Bridge: " e))
        | Some (Ok k, _, _) => Some (Ok {| BridgeIp := ip; BridgeApiKey := k |})
        end
      else Some (Ok {| BridgeIp := ip; BridgeApiKey := key |})
    end
  end.

(** The same world, except for whether creating the cache file fails. *)
Definition set_createErr (e : option error) (w : World) : World :=
  {| UserHomeDir := UserHomeDir w; environ := environ w;
     Discover := Discover w; NewAuthenticator := NewAuthenticator w;
     Authenticate := Authenticate w; ctxDone := ctxDone w;
     selectDone := selectDone w; createErr := e;
     NewClientErr := NewClientErr w |}.

(** The events that are not a write of the cache file. *)
Definition not_write (e : event) : Prop := is_write_config e = false.

(** The events a run added to the trace. *)
Definition added (p p' : Proc) (evs : list event) : Prop :=
  trace p' = (trace p ++ evs)%list.

End acquire_defs.

Module room_defs.
(** The archetype names [stringToRoomArchetype] has an entry for. *)
Definition recognised : list string :=
  ["bedroom"; "bathroom"; "kitchen"; "dining"; "office"; "other"].
End room_defs.

Module samples.
Import config.
Definition retryResponse : AuthResponse :=
  {| apiKey := ""; retry := true;
     err := Some (LibError "link button not pressed");
     latency := 20 * Millisecond |}.
Definition keyResponse (k : string) : AuthResponse :=
  {| apiKey := k; retry := false; err := None; latency := 20 * Millisecond |}.

(** A home directory, no variables, a bridge found at 10.0.0.9. *)
Definition world (environ : gmap string string)
    (bridge : nat -> AuthResponse) : World :=
  {| UserHomeDir := Ok "/home/u";
     environ := environ;
     Discover := Ok {| Instance := "bridge-1"; IpAddress := "10.0.0.9" |};
     NewAuthenticator := fun _ => None;
     Authenticate := bridge;
     ctxDone := None;
     selectDone := fun _ => true;
     createErr := None;
     NewClientErr := None |}.

Definition threeRetriesThenKey (n : nat) : AuthResponse :=
  if (n <? 3)%nat then retryResponse else keyResponse "KEY".

Definition alwaysRetry (n : nat) : AuthResponse := retryResponse.

Definition cachePathOfU : string := "/home/u/.openhue-credentials.json".

(** A fresh process, and one that finds a cache file. *)
Definition freshProc : Proc :=
  {| files := ∅; globalViper := viper.New;
     DefaultTransport_InsecureSkipVerify := false; trace := [] |}.

Definition procWithCache (ip key : string) : Proc :=
  {| files := {[ cachePathOfU :=
                   Json (<["hue_bridge_ip" := ip]>
                           (<["hue_bridge_api_key" := key]> ∅)) ]};
     globalViper := viper.New;
     DefaultTransport_InsecureSkipVerify := false; trace := [] |}.

Definition envBoth (ip key : string) : gmap string string :=
  <["HUE_BRIDGE_IP" := ip]> (<["HUE_BRIDGE_API_KEY" := key]> ∅).

Definition envKey (key : string) : gmap string string :=
  <["HUE_BRIDGE_API_KEY" := key]> ∅.

Definition request (ip key : types.String_) (cache : bool)
  : provider.ConfigureRequest :=
  {| provider.Config_model :=
       {| provider.BridgeIp := ip; provider.BridgeApiKey := key;
          provider.Cache := types.BoolValue cache |};
     provider.Config_diags := [] |}.

Definition room (archetype : string) : resources.RoomResourceModel :=
  {| resources.Name := types.StringValue "Study";
     resources.Id := types.StringUnknown;
     resources.LightIds := types.ListValue [types.StringValue "light-1"];
     resources.Archetype := types.StringValue archetype |}.

(** A table of printable runes: everything above U+00FF but the line and
    paragraph separators. *)
Definition printTables : strconv.PrintTables :=
  {| strconv.isPrintWide := fun r => negb ((r =? 8232) || (r =? 8233)) |}.

(** A text between quotation marks. *)
Definition quotes (s : string) : string :=
  String "034"%char s ++ String "034"%char "".

Definition someClient : openhue.ClientWithResponses :=
  {| openhue.Server := "https://10.0.0.9"; openhue.RequestEditors := [] |}.

Definition created (body : openhue.RoomPut)
  : result openhue.CreateRoomResponse :=
  Ok {| openhue.StatusCode := 201; openhue.Status := "201 Created";
        openhue.Body := Some "{}";
        openhue.JSON200_Data :=
          Some [ {| openhue.Rid := Some "room-1";
                    openhue.Rtype := Some "room" |} ] |}.

(** The same, with the caller's context done from the start. *)
Definition cancelledWorld : World :=
  {| UserHomeDir := Ok "/home/u";
     environ := ∅;
     Discover := Ok {| Instance := "bridge-1"; IpAddress := "10.0.0.9" |};
     NewAuthenticator := fun _ => None;
     Authenticate := alwaysRetry;
     ctxDone := Some 0;
     selectDone := fun _ => true;
     createErr := None;
     NewClientErr := None |}.

(** A world in which no bridge is found. *)
Definition noBridgeWorld : World :=
  {| UserHomeDir := Ok "/home/u";
     environ := ∅;
     Discover := Err (LibError "no bridge found");
     NewAuthenticator := fun _ => None;
     Authenticate := alwaysRetry;
     ctxDone := None;
     selectDone := fun _ => true;
     createErr := None;
     NewClientErr := None |}.

(** A fresh world in which the button is pressed before the fourth
    request. *)
Definition pairingWorld : World := world ∅ threeRetriesThenKey.

Definition paired : config.AuthConfig :=
  {| config.BridgeIp := "10.0.0.9"; config.BridgeApiKey := "KEY" |}.

(** A bridge that accepts every call on rooms. *)
Definition okRooms {A} (data : list A) : result (api.Parsed A) :=
  Ok (api.mkParsed 200 "200 OK" "{}" (Some (Some data))).

Definition roomBridge : api.RoomApi :=
  {| api.GetRoomWithResponse := fun id =>
       okRooms [ {| api.RoomChildren := Some [];
                    api.RoomId := Some id;
                    api.RoomMetadata :=
                      Some {| openhue.Archetype := Some "office";
                              openhue.Name := Some "Study" |} |} ];
     api.UpdateRoomWithResponse := fun id _ =>
       okRooms [ {| openhue.Rid := Some "room-1"; openhue.Rtype := Some "room" |} ];
     api.DeleteRoomWithResponse := fun id =>
       okRooms [ {| openhue.Rid := Some id; openhue.Rtype := Some "room" |} ] |}.

(** Lights, with a float32 stood for by a number. *)
Definition lamp (name id : string) : api.LightGet N :=
  {| api.LightId := Some id;
     api.LightMeta := Some {| api.LightName := Some name |};
     api.LightOn := Some {| api.On_On := Some true |};
     api.LightDimming := Some {| api.Brightness := Some 80 |} |}.

Definition lamps : list (api.LightGet N) :=
  [lamp "lamp_1" "id-1"; lamp "lamp_2" "id-2"; lamp "lamp_2" "id-3"].

Definition lightBridge : api.LightApi N :=
  {| api.GetLightsWithResponse := okRooms lamps;
     api.GetLightWithResponse := fun id => okRooms [lamp "lamp_2" id];
     api.UpdateLightWithResponse := fun id _ =>
       okRooms [ {| openhue.Rid := Some id; openhue.Rtype := Some "light" |} ] |}.

(** A bridge on which the light read has another name than the state. *)
Definition renamingBridge : api.LightApi N :=
  {| api.GetLightsWithResponse := okRooms lamps;
     api.GetLightWithResponse := fun _ => okRooms [lamp "desk" "id-7"];
     api.UpdateLightWithResponse := fun id _ =>
       okRooms [ {| openhue.Rid := Some id; openhue.Rtype := Some "light" |} ] |}.

Definition lightModel (name : string) : light.lightResourceModel N :=
  {| light.Name := types.StringValue name;
     light.Id := types.StringUnknown;
     light.On := types.BoolValue true;
     light.Brightness := framework.Float32Value 100;
     light.Color := {| light.X := framework.Float32Value 1;
                       light.Y := framework.Float32Value 2;
                       light.Z := framework.Float32Value 3 |} |}.
End samples.

(** ** Helpers for the further statements *)

Module extra_defs.
Import config.

(** The time the bridge takes for [count] requests from the [from]-th on. *)
Fixpoint sumLatency (w : World) (from count : nat) : N :=
  match count with
  | O => 0
  | S c => latency (Authenticate w from) + sumLatency w (S from) c
  end.

(** The loop keeps to the ticker: so many requests, so many intervals. *)
Definition paced (st : Poll) : Prop :=
  N.of_nat (requests st) * tickInterval <= now st /\
  N.of_nat (S (requests st)) * tickInterval <= tickAt st.

(** Two process states that differ at most in the package-level viper. *)
Definition same_io (p q : Proc) : Prop :=
  files p = files q /\ trace p = trace q /\
  DefaultTransport_InsecureSkipVerify p = DefaultTransport_InsecureSkipVerify q.

(** Two runs with the same result that end in such states. *)
Definition same_run {A} (x y : option (result A * Proc)) : Prop :=
  match x, y with
  | None, None => True
  | Some (r, p), Some (s, q) => r = s /\ same_io p q
  | _, _ => False
  end.

(** A step that does not look at the package-level viper. *)
Definition blind {A} (c : M A) : Prop :=
  forall p q, same_io p q -> same_run (c p) (c q).

(** Whether [GetAuthConfig] goes to discover a bridge. *)
Definition discovers (w : World) (p : Proc) (tfBridgeIp : string)
    (useCache : bool) : bool :=
  bool_decide (acquire_defs.env_then_cache w p useCache "hue_bridge_ip" = "")
  || bool_decide (tfBridgeIp = "discover").

(** The events of the waiter's loop. *)
Definition loop_event (e : event) : Prop :=
  match e with
  | EvPrintln _ | EvAuthenticate _ => True
  | _ => False
  end.

End extra_defs.

Module room_extra_defs.
Import resources.

(** [Room.Configure] called once for each element, in order. *)
Definition configureAll (r : Room) (ds : list (option framework.ProviderData))
  : Room :=
  fold_left (fun r d => fst (room.Configure r d [])) ds r.

(** A room model with a known name, id and archetype. *)
Definition roomWith (name id archetype : string) (lights : types.List_)
  : RoomResourceModel :=
  {| Name := types.StringValue name;
     Id := types.StringValue id;
     LightIds := lights;
     Archetype := types.StringValue archetype |}.

(** A room model as a configuration with known values gives it. *)
Definition knownRoom (name id archetype : string) (lightIds : list string)
  : RoomResourceModel :=
  roomWith name id archetype
    (types.ListValue (List.map types.StringValue lightIds)).

(** The bridge's record of a room, echoing what was put. *)
Definition echo (id : string) (put : openhue.RoomPut) : api.RoomGet :=
  {| api.RoomChildren := openhue.Children put;
     api.RoomId := Some id;
     api.RoomMetadata := openhue.Metadata put |}.

End room_extra_defs.

(** Case analysis on whatever an operation branches on. *)
Ltac split_cases :=
  repeat match goal with
         | |- context [match ?x with _ => _ end] =>
           lazymatch x with
           | context [match _ with _ => _ end] => fail
           | _ => destruct x eqn:?
           end
         | |- context [if ?x then _ else _] =>
           lazymatch x with
           | context [if _ then _ else _] => fail
           | _ => destruct x eqn:?
           end
         end.

(** Comparisons that were decided, as facts for [lia]. *)
Ltac ltb_facts :=
  repeat match goal with
         | H : (_ <? _) = true |- _ => apply N.ltb_lt in H
         | H : (_ <? _) = false |- _ => apply N.ltb_ge in H
         end.

Section Waiter.
Import config config_defs.
Variable w : World.

Lemma tickInterval_pos : 0 < tickInterval.
Proof. reflexivity. Qed.

Lemma nextTick_ge tick t : tick + tickInterval <= nextTick tick t.
Proof.
  unfold nextTick. rewrite N.mul_add_distr_l, N.mul_1_r.
  generalize (tickInterval * ((t - tick) / tickInterval)).
  generalize tickInterval. intros; lia.
Qed.

Lemma nextTick_le tick t : tick <= t -> nextTick tick t <= t + tickInterval.
Proof.
  intros Hle. unfold nextTick. rewrite N.mul_add_distr_l, N.mul_1_r.
  pose proof (N.Div0.mul_div_le (t - tick) tickInterval) as Hd.
  revert Hd. generalize (tickInterval * ((t - tick) / tickInterval)).
  generalize tickInterval. intros; lia.
Qed.

Lemma pollLoop_key fuel key st tr :
  key <> "" -> pollLoop w fuel key st tr = Some (Ok key, st, tr).
Proof. intros Hk. destruct fuel; simpl; destruct (decide (key = "")); congruence. Qed.

Lemma select_tick st :
  N.max (now st) (tickAt st) < doneAt w ->
  select w st = (TakeTick, N.max (now st) (tickAt st)).
Proof.
  intros H. unfold select.
  destruct (N.ltb_spec (N.max (now st) (tickAt st)) (N.max (now st) (doneAt w))); [done | lia].
Qed.

Lemma select_tick_time st t :
  select w st = (TakeTick, t) -> t = N.max (now st) (tickAt st).
Proof.
  unfold select. repeat case_match; congruence.
Qed.

Lemma pollLoop_unfold_tick fuel st tr :
  fst (select w st) = TakeTick ->
  pollLoop w (S fuel) "" st tr =
    match authenticateWithBridgeIpOnce (Authenticate w (requests st)) with
    | Err e => Some (Err e, afterTick w st, (tr ++ tickEvents st)%list)
    | Ok k => pollLoop w fuel k (afterTick w st) (tr ++ tickEvents st)%list
    end.
Proof.
  intros H. simpl. destruct (select w st) as [s t] eqn:E. simpl in H. subst s.
  apply select_tick_time in E. subst t. reflexivity.
Qed.

Lemma once_retry n : retries w n -> authenticateWithBridgeIpOnce (Authenticate w n) = Ok "".
Proof. intros [[e He] Hr]. unfold authenticateWithBridgeIpOnce. by rewrite He, Hr. Qed.

Lemma pollLoop_retry fuel st tr :
  N.max (now st) (tickAt st) < doneAt w ->
  retries w (requests st) ->
  pollLoop w (S fuel) "" st tr =
    pollLoop w fuel "" (afterTick w st) (tr ++ tickEvents st)%list.
Proof.
  intros Ht Hr. rewrite pollLoop_unfold_tick by (by rewrite select_tick).
  by rewrite once_retry.
Qed.

(** Bounds on the clock after a tick. *)
Lemma afterTick_now_le st :
  tickAt st <= now st + tickInterval ->
  now (afterTick w st)
    <= now st + tickInterval + latency (Authenticate w (requests st)).
Proof. intros H. simpl. lia. Qed.

Lemma afterTick_tickAt_le st :
  tickAt st <= now st + tickInterval ->
  tickAt (afterTick w st) <= now (afterTick w st) + tickInterval.
Proof.
  intros H. simpl.
  pose proof (nextTick_le (tickAt st) (N.max (now st) (tickAt st))). lia.
Qed.

Lemma afterTick_tickAt_ge st :
  tickAt st + tickInterval <= tickAt (afterTick w st).
Proof. simpl. apply nextTick_ge. Qed.

Lemma afterTick_now_ge st : tickAt st <= now (afterTick w st).
Proof. simpl. lia. Qed.

(** A run that ends well ends with a key. *)
Lemma pollLoop_ok_nonempty fuel : forall key st tr k st' tr',
  pollLoop w fuel key st tr = Some (Ok k, st', tr') -> k <> "".
Proof.
  induction fuel as [|fuel IH]; intros key st tr k st' tr'; simpl.
  - destruct (decide (key = "")); [discriminate | congruence].
  - destruct (decide (key = "")); [| congruence].
    destruct (select w st) as [[] t]; [discriminate |].
    destruct (authenticateWithBridgeIpOnce _); [apply IH | discriminate].
Qed.

(** The requests a run issues are the [EvAuthenticate] events it adds. *)
Lemma count_app p (l1 l2 : list event) :
  count p (l1 ++ l2) = (count p l1 + count p l2)%nat.
Proof. unfold count. by rewrite List.filter_app, List.length_app. Qed.

Lemma pollLoop_requests fuel : forall key st tr res st' tr',
  pollLoop w fuel key st tr = Some (res, st', tr') ->
  (requests st <= requests st')%nat /\
  (count is_authenticate tr' + requests st
   = count is_authenticate tr + requests st')%nat.
Proof.
  induction fuel as [|fuel IH]; intros key st tr res st' tr'; simpl.
  - destruct (decide (key = "")); [discriminate |].
    intros [= <- <- <-]. lia.
  - destruct (decide (key = "")); [| intros [= <- <- <-]; lia].
    destruct (select w st) as [[] t]; [intros [= <- <- <-]; simpl; lia |].
    destruct (authenticateWithBridgeIpOnce _).
    + intros H. apply IH in H. simpl in H. rewrite count_app in H.
      cbn in H. lia.
    + intros [= <- <- <-]. rewrite count_app. cbn. lia.
Qed.


(** With a bridge that always asks to retry, the only way out of the
    loop is the timeout. *)
Lemma pollLoop_only_timeout fuel : forall st tr res st' tr',
  (forall n, retries w n) ->
  pollLoop w fuel "" st tr = Some (res, st', tr') ->
  res = Err timedOut /\ doneAt w <= now st'.
Proof.
  induction fuel as [|fuel IH]; intros st tr res st' tr' Hall; simpl.
  - discriminate.
  - destruct (select w st) as [[] t] eqn:E.
    + intros [= <- <- <-]. split; [done |]. simpl.
      unfold select in E. repeat case_match; simplify_eq; lia.
    + rewrite once_retry by done. by apply IH.
Qed.

(** When the bridge answers every request with "not yet" and before the
    next tick is due, the loop never finds a tick waiting: it takes the
    ticks that come before [Done()] is ready (and perhaps one that comes
    at that very moment), and then [Done()]. *)
Lemma nextTick_on_time tick : nextTick tick tick = tick + tickInterval.
Proof.
  unfold nextTick. rewrite N.sub_diag, N.Div0.div_0_l. lia.
Qed.

Lemma pollLoop_prompt d : forall fuel st tr,
  (forall n, retries w n) ->
  (forall n, prompt w n) ->
  now st < tickAt st ->
  now st < doneAt w + tickInterval ->
  tickAt st = N.of_nat (S (requests st)) * tickInterval ->
  N.of_nat (requests st) * tickInterval <= doneAt w ->
  doneAt w < tickAt st + N.of_nat d * tickInterval ->
  (d < fuel)%nat ->
  exists st' tr',
    pollLoop w fuel "" st tr = Some (Err timedOut, st', tr') /\
    doneAt w <= now st' /\ now st' < doneAt w + tickInterval /\
    N.of_nat (requests st') * tickInterval <= doneAt w /\
    doneAt w <= N.of_nat (S (requests st')) * tickInterval /\
    (requests st' <= requests st + d)%nat.
Proof.
  induction d as [|d IH]; intros fuel st tr Hall Hlat Hnow Hlate Htick Hreq Hd Hfuel;
    (destruct fuel as [|fuel]; [lia |]).
  - simpl. unfold select.
    destruct (N.ltb_spec (N.max (now st) (tickAt st)) (N.max (now st) (doneAt w)));
      [lia |].
    destruct (N.ltb_spec (N.max (now st) (doneAt w)) (N.max (now st) (tickAt st)));
      [| lia].
    eexists _, _. split; [reflexivity |]. cbn [now requests].
    rewrite <- Htick. lia.
  - destruct (select w st) as [[] t] eqn:E.
    + simpl. rewrite E. eexists _, _. split; [reflexivity |]. cbn [now requests].
      rewrite <- Htick. unfold select in E.
      repeat case_match; simplify_eq; ltb_facts; lia.
    + assert (Ht : tickAt st <= doneAt w).
      { unfold select in E. repeat case_match; simplify_eq; ltb_facts; lia. }
      rewrite pollLoop_unfold_tick by (by rewrite E).
      rewrite once_retry by done.
      pose proof (Hlat (requests st)) as Hl. unfold prompt in Hl.
      assert (Hmax : N.max (now st) (tickAt st) = tickAt st) by lia.
      destruct (IH fuel (afterTick w st) (tr ++ tickEvents st)%list)
        as (st' & tr' & Hrun & H1 & H2 & H3 & H4 & H5); try done.
      * cbn [now tickAt afterTick]. rewrite Hmax, nextTick_on_time. lia.
      * cbn [now afterTick]. rewrite Hmax. lia.
      * cbn [tickAt requests afterTick]. rewrite Hmax, nextTick_on_time, Htick. lia.
      * cbn [requests afterTick]. lia.
      * cbn [tickAt afterTick]. rewrite Hmax, nextTick_on_time. lia.
      * lia.
      * exists st', tr'. cbn [requests afterTick] in H5.
        repeat split; try done. lia.
Qed.

Lemma select_done st :
  selectDone w (selects st) = true ->
  doneAt w <= tickAt st ->
  exists t, select w st = (TakeDone, t).
Proof.
  intros Hs Hd. unfold select. rewrite Hs.
  destruct (N.ltb_spec (N.max (now st) (tickAt st)) (N.max (now st) (doneAt w)));
    [lia |].
  destruct (_ <? _); eauto.
Qed.

(** ... and with a fair [select] the loop does get out. *)
Lemma pollLoop_times_out m : forall d st tr,
  (forall n, retries w n) ->
  selectDone w m = true ->
  (selects st + d = m)%nat ->
  doneAt w <= tickAt st + N.of_nat d * tickInterval ->
  exists fuel st' tr', pollLoop w fuel "" st tr = Some (Err timedOut, st', tr').
Proof.
  induction d as [|d IH]; intros st tr Hall Hm Hsel Htime.
  - destruct (select_done st) as [t E]; [by replace (selects st) with m by lia | lia |].
    exists 1%nat. simpl. rewrite E. eauto.
  - destruct (select w st) as [[] t] eqn:E.
    + exists 1%nat. simpl. rewrite E. eauto.
    + destruct (IH (afterTick w st) (tr ++ tickEvents st)%list) as (fuel & st' & tr' & H);
        [done | done | simpl; lia | |].
      * pose proof (afterTick_tickAt_ge st). lia.
      * exists (S fuel), st', tr'.
        rewrite pollLoop_unfold_tick by (by rewrite E).
        by rewrite once_retry.
Qed.

(** Whatever time the bridge takes to answer: with a runtime that is
    fair, a waiter that is only ever told to retry gives up. *)
Lemma waiter_gives_up_when_fair ip tr :
  NewAuthenticator w ip = None ->
  (forall n, retries w n) ->
  fairSelect w ->
  exists fuel st tr',
    authenticateWithBridgeIp w fuel ip tr = Some (Err timedOut, st, tr').
Proof.
  intros Hnew Hall Hfair. unfold authenticateWithBridgeIp. rewrite Hnew.
  set (d := N.to_nat (doneAt w / tickInterval + 1)).
  destruct (Hfair d) as (m & Hm & Hsel).
  apply (pollLoop_times_out m m); [done | done | simpl; lia |].
  pose proof (N.mul_succ_div_gt (doneAt w) tickInterval) as Hdiv.
  assert (tickInterval <> 0) by (pose proof tickInterval_pos; lia).
  specialize (Hdiv H).
  assert (N.of_nat d <= N.of_nat m) by lia.
  assert (N.of_nat d = N.succ (doneAt w / tickInterval)) by (unfold d; lia).
  simpl. nia.
Qed.

End Waiter.

Section WaiterClaims.
Import config config_defs.
Variable w : World.

(** C4.  When the bridge answers the first three requests with "not
    yet, retry" and the fourth with a key, and the fourth tick comes
    before the waiter's [Done()], the waiter sends exactly these four
    requests, one per tick, and returns the key of the fourth with no
    error; four tick intervals or more have passed by then. *)
Theorem three_retries_then_key ip tr k fuel :
  NewAuthenticator w ip = None ->
  retries w 0 -> retries w 1 -> retries w 2 ->
  err (Authenticate w 3) = None ->
  apiKey (Authenticate w 3) = k -> k <> "" ->
  4 * tickInterval + latency (Authenticate w 0) + latency (Authenticate w 1)
    + latency (Authenticate w 2) < doneAt w ->
  (4 <= fuel)%nat ->
  exists st,
    authenticateWithBridgeIp w fuel ip tr =
      Some (Ok k, st,
            (tr ++ [EvNewAuthenticator ip]
                ++ tickEvents poll0
                ++ tickEvents (afterTick w poll0)
                ++ tickEvents (afterTick w (afterTick w poll0))
                ++ tickEvents (afterTick w (afterTick w (afterTick w poll0))))%list)
    /\ requests st = 4%nat /\ selects st = 4%nat
    /\ 4 * tickInterval <= now st.
Proof.
  intros Hnew R0 R1 R2 Herr Hkey Hk Htime Hfuel.
  do 4 (destruct fuel as [|fuel]; [lia |]). clear Hfuel.
  unfold authenticateWithBridgeIp. rewrite Hnew.
  set (s0 := poll0). set (s1 := afterTick w s0).
  set (s2 := afterTick w s1). set (s3 := afterTick w s2).
  assert (I0 : tickAt s0 <= now s0 + tickInterval) by (simpl; lia).
  assert (N0 : now s0 = 0) by reflexivity.
  assert (T0 : tickAt s0 = tickInterval) by reflexivity.
  assert (Q0 : requests s0 = 0%nat) by reflexivity.
  pose proof (afterTick_now_le w s0 I0) as N1.
  pose proof (afterTick_tickAt_le w s0 I0) as I1.
  pose proof (afterTick_tickAt_ge w s0) as T1.
  pose proof (afterTick_now_le w s1 I1) as N2.
  pose proof (afterTick_tickAt_le w s1 I1) as I2.
  pose proof (afterTick_tickAt_ge w s1) as T2.
  pose proof (afterTick_now_le w s2 I2) as N3.
  pose proof (afterTick_tickAt_le w s2 I2) as I3.
  pose proof (afterTick_tickAt_ge w s2) as T3.
  pose proof (afterTick_now_ge w s3) as N4.
  fold s1 in N1, I1, T1, N2, I2, T2, N3, I3, T3, N4.
  fold s2 in N2, I2, T2, N3, I3, T3, N4. fold s3 in N3, I3, T3, N4.
  assert (Q1 : requests s1 = 1%nat) by reflexivity.
  assert (Q2 : requests s2 = 2%nat) by reflexivity.
  assert (Q3 : requests s3 = 3%nat) by reflexivity.
  rewrite Q0 in N1. rewrite Q1 in N2. rewrite Q2 in N3.
  rewrite pollLoop_retry; [| lia | by rewrite Q0]. fold s1.
  rewrite pollLoop_retry; [| lia | by rewrite Q1]. fold s2.
  rewrite pollLoop_retry; [| lia | by rewrite Q2]. fold s3.
  rewrite pollLoop_unfold_tick by (rewrite select_tick; [done | lia]).
  unfold authenticateWithBridgeIpOnce. rewrite Q3, Herr, Hkey.
  rewrite pollLoop_key by done.
  exists (afterTick w s3). repeat split.
  - by rewrite <- !app_assoc.
  - lia.
Qed.


(** C6.  The timeout is one minute and the tick interval 500ms, both
    fixed: [Done()] is ready one minute after the waiter is entered, or
    when the caller's context ends if that is earlier.  Let the bridge
    answer every request with "not yet, retry".  If it answers before the
    next tick is due, the waiter gives up with the timeout error, for
    every bound of at least 121 passes through the loop: it has then sent
    a request at each tick before the deadline and at most one at the
    very moment of the deadline, at most 120 in all, and it returns not
    before the deadline and less than one tick interval after it.  If
    answers take longer, a tick can be waiting when [Done()] is ready, and
    the runtime chooses between the two: the waiter gives up when the
    choice falls on [Done()], which a fair runtime makes happen.  No run,
    whatever its bound, returns anything but the timeout error. *)
Theorem pairing_times_out ip tr :
  NewAuthenticator w ip = None ->
  (forall n, retries w n) ->
  pairingTimeout = 60 * 1000 * Millisecond /\
  tickInterval = 500 * Millisecond /\
  doneAt w <= pairingTimeout /\
  (ctxDone w = None -> doneAt w = pairingTimeout) /\
  ((forall n, prompt w n) ->
   forall fuel, (121 <= fuel)%nat ->
   exists st tr',
     authenticateWithBridgeIp w fuel ip tr = Some (Err timedOut, st, tr') /\
     doneAt w <= now st /\
     now st < doneAt w + tickInterval /\
     now st < pairingTimeout + tickInterval /\
     N.of_nat (requests st) * tickInterval <= doneAt w /\
     doneAt w <= N.of_nat (S (requests st)) * tickInterval /\
     (requests st <= 120)%nat /\
     count is_authenticate tr' = (count is_authenticate tr + requests st)%nat) /\
  (fairSelect w ->
   exists fuel st tr',
     authenticateWithBridgeIp w fuel ip tr = Some (Err timedOut, st, tr')) /\
  (forall fuel res st tr',
     authenticateWithBridgeIp w fuel ip tr = Some (res, st, tr') ->
     res = Err timedOut /\ doneAt w <= now st).
Proof.
  intros Hnew Hall. split; [reflexivity |]. split; [reflexivity |].
  assert (Hdone : doneAt w <= pairingTimeout)
    by (unfold doneAt; destruct (ctxDone w); lia).
  split; [done |]. split; [by unfold doneAt; intros -> |].
  split; [| split].
  - intros Hlat fuel Hfuel. unfold authenticateWithBridgeIp. rewrite Hnew.
    destruct (pollLoop_prompt w 120 fuel poll0
                (tr ++ [EvNewAuthenticator ip])%list)
      as (st & tr' & Hrun & H1 & H2 & H3 & H4 & H5); try done.
    + pose proof tickInterval_pos. cbn [now poll0]. lia.
    + cbn [requests poll0]. lia.
    + cbn [tickAt poll0]. revert Hdone.
      unfold pairingTimeout, tickInterval, Minute, Second, Millisecond. lia.
    + exists st, tr'. split; [done |].
      pose proof (pollLoop_requests w _ _ _ _ _ _ _ Hrun) as [_ Hc].
      rewrite count_app in Hc. cbn in Hc. cbn [requests poll0] in H5.
      repeat split; try done; try lia.
  - intros Hfair. by apply waiter_gives_up_when_fair.
  - intros fuel res st tr'. unfold authenticateWithBridgeIp. rewrite Hnew.
    by apply pollLoop_only_timeout.
Qed.

(** C9.  A key the waiter returns without an error is not empty. *)
Theorem paired_key_nonempty fuel ip tr k st tr' :
  authenticateWithBridgeIp w fuel ip tr = Some (Ok k, st, tr') -> k <> "".
Proof.
  unfold authenticateWithBridgeIp.
  destruct (NewAuthenticator w ip); [discriminate |].
  apply pollLoop_ok_nonempty.
Qed.
End WaiterClaims.

Section WaiterWitnesses.
Import config config_defs.

Lemma three_retries_then_key_witness :
  exists st,
    authenticateWithBridgeIp (samples.world ∅ samples.threeRetriesThenKey)
      4 "10.0.0.9" [] =
      Some (Ok "KEY", st,
            ([] ++ [EvNewAuthenticator "10.0.0.9"]
                ++ tickEvents poll0
                ++ tickEvents (afterTick (samples.world ∅ samples.threeRetriesThenKey) poll0)
                ++ tickEvents (afterTick (samples.world ∅ samples.threeRetriesThenKey)
                                 (afterTick (samples.world ∅ samples.threeRetriesThenKey) poll0))
                ++ tickEvents (afterTick (samples.world ∅ samples.threeRetriesThenKey)
                                 (afterTick (samples.world ∅ samples.threeRetriesThenKey)
                                    (afterTick (samples.world ∅ samples.threeRetriesThenKey) poll0))))%list)
    /\ requests st = 4%nat /\ selects st = 4%nat
    /\ 4 * tickInterval <= now st.
Proof.
  apply (three_retries_then_key (samples.world ∅ samples.threeRetriesThenKey)
           "10.0.0.9" [] "KEY" 4);
    try reflexivity; try discriminate; try lia;
    split; solve [reflexivity | eexists; reflexivity].
Defined.


Lemma pairing_times_out_witness :
  exists st tr',
    authenticateWithBridgeIp (samples.world ∅ samples.alwaysRetry)
      121 "10.0.0.9" [] = Some (Err timedOut, st, tr') /\
    (requests st <= 120)%nat /\
    pairingTimeout <= now st /\
    now st < pairingTimeout + tickInterval.
Proof.
  destruct (pairing_times_out (samples.world ∅ samples.alwaysRetry)
              "10.0.0.9" [])
    as (_ & _ & _ & Hd & Hprompt & _).
  - reflexivity.
  - intros n. split; [eexists; reflexivity | reflexivity].
  - destruct (Hprompt (fun n => eq_refl) 121%nat)
      as (st & tr' & Hrun & H1 & _ & H2 & _ & _ & H3 & _); [lia |].
    exists st, tr'. rewrite <- (Hd eq_refl). by repeat split.
Defined.

Lemma paired_key_nonempty_witness : "KEY" <> "".
Proof.
  eapply (paired_key_nonempty (samples.world ∅ samples.threeRetriesThenKey)
            4 "10.0.0.9" [] "KEY").
  vm_compute. reflexivity.
Defined.

End WaiterWitnesses.

(** ** [GetAuthConfig] *)

Section Acquire.
Import config config_defs acquire_defs.
Variable w : World.

Lemma GetAuthConfig_stages fuel a b c p :
  GetAuthConfig w fuel a b c p =
    match UserHomeDir w with
    | Err e => Some (Err (Wrapf "failed to get user home directory: " e), p)
    | Ok h =>
      (cfg <- stage_load h a b c ;;
       cfg <- stage_address w a cfg ;;
       cfg <- stage_key w fuel cfg ;;
       stage_save w h c cfg ;;;
       ret (authConfigOf w cfg)) p
    end.
Proof.
  unfold GetAuthConfig. destruct (UserHomeDir w); [| done].
  unfold stage_load. destruct c; reflexivity.
Qed.

Lemma bind_ok {A B} (c : M A) (k : A -> M B) p a p' :
  c p = Some (Ok a, p') -> bind c k p = k a p'.
Proof. unfold bind. by intros ->. Qed.

Lemma bind_inv {A B} (c : M A) (k : A -> M B) p r p'' :
  bind c k p = Some (r, p'') ->
  (exists e, c p = Some (Err e, p'') /\ r = Err e) \/
  (exists a p', c p = Some (Ok a, p') /\ k a p' = Some (r, p'')).
Proof.
  unfold bind. destruct (c p) as [[[a|e] p']|]; [eauto | | done].
  intros [= <- <-]. eauto.
Qed.

Lemma Join_nonempty d f : Join d f <> "".
Proof. unfold Join. destruct d; discriminate. Qed.

(** *** Loading *)

Lemma stage_load_run h a b c p :
  stage_load h a b c p = Some (Ok (loaded (files p) h c), afterLoad a b c p).
Proof.
  unfold stage_load, afterLoad, loaded. destruct c; cbn.
  - unfold emit; cbn. by rewrite app_nil_r || done.
  - by rewrite app_nil_r.
Qed.

Lemma loaded_override fs h c : viper.override (loaded fs h c) = ∅.
Proof.
  unfold loaded, viper.ReadInConfig. destruct c; simpl; [| done].
  destruct (decide _); [done |]. repeat case_match; done.
Qed.

Lemma loaded_defaults fs h c : viper.defaults (loaded fs h c) = ∅.
Proof.
  unfold loaded, viper.ReadInConfig. destruct c; simpl; [| done].
  destruct (decide _); [done |]. repeat case_match; done.
Qed.

Lemma loaded_env fs h c : viper.automaticEnvApplied (loaded fs h c) = true.
Proof.
  unfold loaded, viper.ReadInConfig. destruct c; simpl; [| done].
  destruct (decide _); [done |]. repeat case_match; done.
Qed.

Lemma loaded_config p h c key :
  UserHomeDir w = Ok h ->
  viper.config (loaded (files p) h c) !! key = cached w p c key.
Proof.
  intros Hh. unfold loaded, cached, viper.ReadInConfig. rewrite Hh.
  destruct c; simpl; [| done].
  destruct (decide _) as [E|_]; [by apply Join_nonempty in E |].
  repeat case_match; simplify_eq; done.
Qed.

(** What [cfg] answers after loading: the environment, then the cache. *)
Lemma find_loaded p h c key :
  UserHomeDir w = Ok h ->
  default "" (viper.find (loaded (files p) h c) (environ w) key)
  = env_then_cache w p c key.
Proof.
  intros Hh. unfold viper.find, env_then_cache.
  rewrite loaded_override, lookup_empty, loaded_env, loaded_defaults, lookup_empty.
  destruct (viper.getEnv _ _); [done |].
  rewrite (loaded_config _ _ _ _ Hh). by destruct (cached _ _ _ _).
Qed.

Lemma GetString_loaded_ip p h c :
  UserHomeDir w = Ok h ->
  viper.GetString (loaded (files p) h c) (environ w) "hue_bridge_ip"
  = env_then_cache w p c "hue_bridge_ip".
Proof. intros. by apply find_loaded. Qed.

Lemma GetString_loaded_key p h c :
  UserHomeDir w = Ok h ->
  viper.GetString (loaded (files p) h c) (environ w) "hue_bridge_api_key"
  = env_then_cache w p c "hue_bridge_api_key".
Proof. intros. by apply find_loaded. Qed.

Lemma GetString_Set_eq cfg env key v :
  viper.GetString (viper.Set_ cfg key v) env key = v.
Proof.
  unfold viper.GetString, viper.find, viper.Set_. simpl.
  by rewrite lookup_insert_eq.
Qed.

Lemma GetString_Set_ne cfg env key key' v :
  ToLower key <> ToLower key' ->
  viper.GetString (viper.Set_ cfg key v) env key' = viper.GetString cfg env key'.
Proof.
  intros Hne. unfold viper.GetString, viper.find, viper.Set_. simpl.
  by rewrite lookup_insert_ne.
Qed.

(** *** The address *)

Lemma stage_address_keep a cfg p :
  viper.GetString cfg (environ w) "hue_bridge_ip" <> "" ->
  a <> "discover" ->
  stage_address w a cfg p = Some (Ok cfg, p).
Proof.
  intros H1 H2. unfold stage_address.
  by rewrite !bool_decide_eq_false_2.
Qed.

Lemma stage_address_inv a cfg p cfg' p' :
  stage_address w a cfg p = Some (Ok cfg', p') ->
  files p' = files p /\
  viper.GetString cfg' (environ w) "hue_bridge_api_key"
    = viper.GetString cfg (environ w) "hue_bridge_api_key" /\
  (viper.GetString cfg (environ w) "hue_bridge_ip" <> "" ->
   a <> "discover" -> cfg' = cfg).
Proof.
  unfold stage_address.
  destruct (bool_decide _ || bool_decide _) eqn:E.
  - unfold bind, log, wrap, discover, ret.
    destruct (Discover w); [| done]. intros [= <- <-].
    split; [done |]. split; [by apply GetString_Set_ne |].
    intros H1 H2. by rewrite !bool_decide_eq_false_2 in E.
  - by intros [= <- <-].
Qed.

(** *** The key *)

Lemma stage_key_keep fuel cfg p :
  viper.GetString cfg (environ w) "hue_bridge_api_key" <> "" ->
  stage_key w fuel cfg p = Some (Ok cfg, p).
Proof.
  intros H. unfold stage_key. by rewrite bool_decide_eq_false_2.
Qed.

Lemma stage_key_inv fuel cfg p cfg' p' :
  stage_key w fuel cfg p = Some (Ok cfg', p') ->
  files p' = files p /\
  viper.GetString cfg' (environ w) "hue_bridge_ip"
    = viper.GetString cfg (environ w) "hue_bridge_ip" /\
  (viper.GetString cfg (environ w) "hue_bridge_api_key" <> "" -> cfg' = cfg).
Proof.
  unfold stage_key. case_bool_decide as E.
  - unfold bind, log, wrap, pair, ret. cbn [trace emit].
    destruct (authenticateWithBridgeIp _ _ _ _) as [[[[k|e] st] tr]|]; [| done | done].
    intros [= <- <-]. split; [done |]. split; [by apply GetString_Set_ne | done].
  - by intros [= <- <-].
Qed.

(** *** Saving *)

Lemma stage_save_run h c cfg p :
  stage_save w h c cfg p = Some (Ok tt, afterSave w h c cfg p).
Proof.
  unfold stage_save, afterSave, saveEvents. destruct c.
  - unfold bind, safeWriteConfigAs.
    destruct (viper.SafeWriteConfigAs _ _ _ _ _) as [fs [e|]]; cbn.
    + unfold log, emit; cbn. by rewrite <- app_assoc.
    + done.
  - unfold ret. destruct p; cbn. by rewrite app_nil_r.
Qed.

(** *** The whole of it, when nothing has to be discovered or paired *)

Lemma GetAuthConfig_resolved fuel a b c p h :
  UserHomeDir w = Ok h ->
  a <> "discover" ->
  env_then_cache w p c "hue_bridge_ip" <> "" ->
  env_then_cache w p c "hue_bridge_api_key" <> "" ->
  GetAuthConfig w fuel a b c p =
    Some (Ok {| BridgeIp := env_then_cache w p c "hue_bridge_ip";
                BridgeApiKey := env_then_cache w p c "hue_bridge_api_key" |},
          afterSave w h c (loaded (files p) h c) (afterLoad a b c p)).
Proof.
  intros Hh Ha Hip Hkey. rewrite GetAuthConfig_stages, Hh.
  rewrite (bind_ok _ _ _ _ _ (stage_load_run h a b c p)).
  rewrite (bind_ok _ _ _ (loaded (files p) h c) (afterLoad a b c p));
    [| apply stage_address_keep; [by rewrite GetString_loaded_ip | done]].
  rewrite (bind_ok _ _ _ (loaded (files p) h c) (afterLoad a b c p));
    [| apply stage_key_keep; by rewrite GetString_loaded_key].
  rewrite (bind_ok _ _ _ _ _ (stage_save_run h c _ _)).
  unfold ret, authConfigOf.
  by rewrite GetString_loaded_ip, GetString_loaded_key.
Qed.

(** What a run that ends well returns, field by field. *)
Lemma GetAuthConfig_fields fuel a b c p auth p' :
  GetAuthConfig w fuel a b c p = Some (Ok auth, p') ->
  (a <> "discover" -> env_then_cache w p c "hue_bridge_ip" <> "" ->
   BridgeIp auth = env_then_cache w p c "hue_bridge_ip") /\
  (env_then_cache w p c "hue_bridge_api_key" <> "" ->
   BridgeApiKey auth = env_then_cache w p c "hue_bridge_api_key").
Proof.
  rewrite GetAuthConfig_stages. destruct (UserHomeDir w) as [h|] eqn:Hh; [| done].
  rewrite (bind_ok _ _ _ _ _ (stage_load_run h a b c p)).
  intros H.
  apply bind_inv in H as [(e & _ & [=]) | (cfg1 & p1 & H1 & H)].
  apply bind_inv in H as [(e & _ & [=]) | (cfg2 & p2 & H2 & H)].
  rewrite (bind_ok _ _ _ _ _ (stage_save_run h c _ _)) in H.
  injection H as <- <-.
  apply stage_address_inv in H1 as (_ & K1 & A1).
  apply stage_key_inv in H2 as (_ & A2 & K2).
  rewrite GetString_loaded_key in K1 by done.
  rewrite GetString_loaded_ip in A1 by done.
  unfold authConfigOf; cbn [BridgeIp BridgeApiKey]. split.
  - intros Ha Hip. rewrite A2, (A1 Hip Ha). by apply GetString_loaded_ip.
  - intros Hkey. rewrite K2 by (by rewrite K1). by rewrite K1.
Qed.

(** *** The parts of a run, spelled out *)

Lemma emit_emit e1 e2 p : emit e2 (emit e1 p) = emit (e1 ++ e2) p.
Proof. unfold emit; cbn. by rewrite app_assoc. Qed.

Lemma stage_address_run a cfg p :
  stage_address w a cfg p =
    if bool_decide (viper.GetString cfg (environ w) "hue_bridge_ip" = "")
       || bool_decide (a = "discover") then
      match Discover w with
      | Ok md =>
        Some (Ok (viper.Set_ cfg "hue_bridge_ip" (IpAddress md)),
              emit [EvLog Info msgDiscovering; EvDiscover;
                    EvLog Info "Successfully discovered Hue Bridge"] p)
      | Err e =>
        Some (Err (Wrapf "failed to discover Hue Bridge: " e),
              emit [EvLog Info msgDiscovering; EvDiscover] p)
      end
    else Some (Ok cfg, p).
Proof.
  unfold stage_address. destruct (_ || _); [| done].
  unfold bind, log, wrap, discover, ret.
  destruct (Discover w); by rewrite !emit_emit.
Qed.

(** The result of the waiter does not depend on the events before it. *)
Lemma pollLoop_result_any_trace fuel : forall key st tr1 tr2,
  (fun x => (x.1.1, x.1.2)) <$> pollLoop w fuel key st tr1
  = (fun x => (x.1.1, x.1.2)) <$> pollLoop w fuel key st tr2.
Proof.
  induction fuel as [|fuel IH]; intros key st tr1 tr2; simpl.
  - by destruct (decide (key = "")).
  - destruct (decide (key = "")); [| done].
    destruct (select w st) as [[] t]; [done |].
    destruct (authenticateWithBridgeIpOnce _); [apply IH | done].
Qed.

Lemma waiter_result_any_trace fuel ip tr1 tr2 :
  (fun x => x.1.1) <$> authenticateWithBridgeIp w fuel ip tr1
  = (fun x => x.1.1) <$> authenticateWithBridgeIp w fuel ip tr2.
Proof.
  unfold authenticateWithBridgeIp. destruct (NewAuthenticator w ip); [done |].
  pose proof (pollLoop_result_any_trace fuel "" poll0
                (tr1 ++ [EvNewAuthenticator ip])%list
                (tr2 ++ [EvNewAuthenticator ip])%list) as H.
  destruct (pollLoop _ _ _ _ (tr1 ++ _)) as [[[r1 s1] t1]|],
           (pollLoop _ _ _ _ (tr2 ++ _)) as [[[r2 s2] t2]|];
    simplify_eq/=; done.
Qed.

(** The key part, spelled out. *)
Lemma stage_key_run fuel cfg p :
  stage_key w fuel cfg p =
    if bool_decide (viper.GetString cfg (environ w) "hue_bridge_api_key" = "") then
      match authenticateWithBridgeIp w fuel
              (viper.GetString cfg (environ w) "hue_bridge_ip")
              (trace p ++ [EvLog Warn msgPairing])%list with
      | None => None
      | Some (res, _, tr) =>
        Some (match res with
              | Ok k => Ok (viper.Set_ cfg "hue_bridge_api_key" k)
              | Err e => Err (Wrapf "failed to authenticate with Hue Bridge: " e)
              end,
              {| files := files p; globalViper := globalViper p;
                 DefaultTransport_InsecureSkipVerify := true; trace := tr |})
      end
    else Some (Ok cfg, p).
Proof.
  unfold stage_key. case_bool_decide; [| done].
  unfold bind, log, wrap, pair, ret. cbn [trace emit files globalViper].
  by destruct (authenticateWithBridgeIp _ _ _ _) as [[[[k|e] st] tr]|].
Qed.

(** *** The result, without the save *)

Lemma GetAuthConfig_credentials fuel a b c p :
  fst <$> GetAuthConfig w fuel a b c p = credentials w fuel a c p.
Proof.
  rewrite GetAuthConfig_stages. unfold credentials.
  destruct (UserHomeDir w) as [h|e] eqn:Hh; [| done].
  rewrite (bind_ok _ _ _ _ _ (stage_load_run h a b c p)).
  unfold bind at 1. rewrite stage_address_run, (GetString_loaded_ip p h c Hh).
  destruct (_ || _).
  - destruct (Discover w) as [md|e]; [| done].
    unfold bind at 1. rewrite stage_key_run.
    rewrite GetString_Set_ne, (GetString_loaded_key p h c Hh) by done.
    rewrite GetString_Set_eq.
    case_bool_decide.
    + pose proof (waiter_result_any_trace fuel (IpAddress md)
                    (trace (emit [EvLog Info msgDiscovering; EvDiscover;
                                  EvLog Info "Successfully discovered Hue Bridge"]
                              (afterLoad a b c p)) ++ [EvLog Warn msgPairing])%list
                    []) as Hw.
      destruct (authenticateWithBridgeIp _ _ _ (_ ++ _)) as [[[r1 s1] t1]|],
               (authenticateWithBridgeIp _ _ _ []) as [[[r2 s2] t2]|];
        simplify_eq/=; [| done].
      destruct r2 as [k|e]; [| done].
      rewrite (bind_ok _ _ _ _ _ (stage_save_run h c _ _)).
      unfold ret, authConfigOf. cbn.
      by rewrite GetString_Set_eq, GetString_Set_ne, GetString_Set_eq.
    + rewrite (bind_ok _ _ _ _ _ (stage_save_run h c _ _)).
      unfold ret, authConfigOf. cbn.
      by rewrite GetString_Set_eq, GetString_Set_ne, (GetString_loaded_key p h c Hh).
  - unfold bind at 1. rewrite stage_key_run.
    rewrite (GetString_loaded_key p h c Hh), (GetString_loaded_ip p h c Hh).
    case_bool_decide.
    + pose proof (waiter_result_any_trace fuel
                    (env_then_cache w p c "hue_bridge_ip")
                    (trace (afterLoad a b c p) ++ [EvLog Warn msgPairing])%list
                    []) as Hw.
      destruct (authenticateWithBridgeIp _ _ _ (_ ++ _)) as [[[r1 s1] t1]|],
               (authenticateWithBridgeIp _ _ _ []) as [[[r2 s2] t2]|];
        simplify_eq/=; [| done].
      destruct r2 as [k|e]; [| done].
      rewrite (bind_ok _ _ _ _ _ (stage_save_run h c _ _)).
      unfold ret, authConfigOf. cbn.
      by rewrite GetString_Set_eq, GetString_Set_ne, (GetString_loaded_ip p h c Hh).
    + rewrite (bind_ok _ _ _ _ _ (stage_save_run h c _ _)).
      unfold ret, authConfigOf. cbn.
      by rewrite (GetString_loaded_key p h c Hh), (GetString_loaded_ip p h c Hh).
Qed.

(** *** What the parts before the save add to the trace *)

Lemma count_none p (evs : list event) :
  Forall (fun e => p e = false) evs -> count p evs = 0%nat.
Proof.
  unfold count. induction 1 as [|e evs He _ IH]; [done |].
  simpl. by rewrite He.
Qed.

Lemma pollLoop_trace fuel : forall key st tr res st' tr',
  pollLoop w fuel key st tr = Some (res, st', tr') ->
  exists evs, tr' = (tr ++ evs)%list /\ Forall not_write evs.
Proof.
  induction fuel as [|fuel IH]; intros key st tr res st' tr'; simpl.
  - destruct (decide (key = "")); [done |]. intros [= <- <- <-].
    exists []. by rewrite app_nil_r.
  - destruct (decide (key = ""));
      [| intros [= <- <- <-]; exists []; by rewrite app_nil_r].
    destruct (select w st) as [[] t];
      [intros [= <- <- <-]; exists []; by rewrite app_nil_r |].
    destruct (authenticateWithBridgeIpOnce _).
    + intros H. apply IH in H as (evs & -> & Hevs).
      eexists. rewrite <- app_assoc. split; [done |].
      apply Forall_app. split; [| done]. by repeat constructor.
    + intros [= <- <- <-]. eexists. split; [done |]. by repeat constructor.
Qed.

Lemma stage_address_trace a cfg p r p' :
  stage_address w a cfg p = Some (r, p') ->
  files p' = files p /\ exists evs, added p p' evs /\ Forall not_write evs.
Proof.
  unfold stage_address, added. destruct (bool_decide _ || bool_decide _).
  - unfold bind, log, wrap, discover, ret. cbn.
    destruct (Discover w); intros [= <- <-]; (split; [done |]); cbn;
      rewrite <- ?app_assoc; eexists; (split; [done |]); by repeat constructor.
  - intros [= <- <-]. split; [done |]. exists []. by rewrite app_nil_r.
Qed.

Lemma stage_key_trace fuel cfg p r p' :
  stage_key w fuel cfg p = Some (r, p') ->
  files p' = files p /\ exists evs, added p p' evs /\ Forall not_write evs.
Proof.
  unfold stage_key, added. case_bool_decide as Hdec.
  - unfold bind, log, wrap, pair, authenticateWithBridgeIp, ret. cbn.
    destruct (NewAuthenticator w _).
    + intros [= <- <-]. split; [done |]. cbn. rewrite <- app_assoc.
      eexists. split; [done |]. by repeat constructor.
    + destruct (pollLoop _ _ _ _ _) as [[[res st] tr]|] eqn:E; [| done].
      apply pollLoop_trace in E as (evs & -> & Hevs).
      intros H. assert (files p' = files p /\ trace p' =
        ((trace p ++ [EvLog Warn msgPairing]) ++
          [EvNewAuthenticator (viper.GetString cfg (environ w) "hue_bridge_ip")])
          ++ evs)%list as [Hf Ht]
        by (destruct res; injection H as <- <-; done).
      split; [done |]. rewrite Ht, <- !app_assoc. eexists. split; [done |].
      cbn. by repeat constructor.
  - intros [= <- <-]. split; [done |]. exists []. by rewrite app_nil_r.
Qed.

(** Everything up to the save, as one step. *)
Lemma before_save fuel a b c p h r p' :
  UserHomeDir w = Ok h ->
  GetAuthConfig w fuel a b c p = Some (r, p') ->
  (exists evs, added p p' evs /\ Forall not_write evs /\ files p' = files p /\
               exists e, r = Err e) \/
  (exists cfg p2 evs,
      added p p2 evs /\ Forall not_write evs /\ files p2 = files p /\
      r = Ok (authConfigOf w cfg) /\ p' = afterSave w h c cfg p2).
Proof.
  intros Hh. rewrite GetAuthConfig_stages, Hh.
  rewrite (bind_ok _ _ _ _ _ (stage_load_run h a b c p)).
  assert (L : exists evs, added p (afterLoad a b c p) evs /\ Forall not_write evs).
  { eexists. split; [reflexivity |]. destruct c; by repeat constructor. }
  destruct L as (evs0 & L0 & F0). unfold added in *.
  intros H. apply bind_inv in H as [(e & H1 & ->) | (cfg1 & p1 & H1 & H)].
  { apply stage_address_trace in H1 as (Hf & evs1 & L1 & F1). left.
    exists (evs0 ++ evs1)%list. unfold added in *.
    rewrite L1, L0, app_assoc. repeat split; eauto using Forall_app_2. }
  apply stage_address_trace in H1 as (Hf1 & evs1 & L1 & F1). unfold added in *.
  apply bind_inv in H as [(e & H2 & ->) | (cfg2 & p2 & H2 & H)].
  { apply stage_key_trace in H2 as (Hf & evs2 & L2 & F2). left.
    exists (evs0 ++ evs1 ++ evs2)%list. unfold added in *.
    rewrite L2, L1, L0, !app_assoc. rewrite Hf, Hf1.
    repeat split; eauto using Forall_app_2. }
  apply stage_key_trace in H2 as (Hf2 & evs2 & L2 & F2). unfold added in *.
  rewrite (bind_ok _ _ _ _ _ (stage_save_run h c _ _)) in H.
  injection H as <- <-. right.
  exists cfg2, p2, (evs0 ++ evs1 ++ evs2)%list.
  rewrite L2, L1, L0, !app_assoc, Hf2, Hf1.
  repeat split; eauto using Forall_app_2.
Qed.

End Acquire.

(** *** The world's answer to the write does not reach the result *)

Section CreateErr.
Import config config_defs acquire_defs.
Variable w : World.

Lemma pollLoop_createErr e fuel : forall key st tr,
  pollLoop (set_createErr e w) fuel key st tr = pollLoop w fuel key st tr.
Proof.
  induction fuel as [|fuel IH]; intros key st tr; simpl; [done |].
  destruct (decide (key = "")); [| done].
  change (select (set_createErr e w) st) with (select w st).
  destruct (select w st) as [[] t]; [done |].
  cbn [Authenticate set_createErr].
  destruct (authenticateWithBridgeIpOnce _); [apply IH | done].
Qed.

Lemma stage_key_createErr e fuel cfg p :
  stage_key (set_createErr e w) fuel cfg p = stage_key w fuel cfg p.
Proof.
  unfold stage_key. cbn [environ set_createErr]. case_bool_decide; [| done].
  unfold bind, log, wrap, pair, authenticateWithBridgeIp.
  cbn [NewAuthenticator set_createErr]. destruct (NewAuthenticator w _); [done |].
  by rewrite pollLoop_createErr.
Qed.

Lemma bind_fst_ext {A B} (c c' : M A) (k k' : A -> M B) p :
  c p = c' p ->
  (forall a q, fst <$> k a q = fst <$> k' a q) ->
  fst <$> bind c k p = fst <$> bind c' k' p.
Proof.
  intros Hc Hk. unfold bind. rewrite Hc.
  destruct (c' p) as [[[a|e] q]|]; [apply Hk | done | done].
Qed.

Lemma GetAuthConfig_createErr e1 e2 fuel a b c p :
  fst <$> GetAuthConfig (set_createErr e1 w) fuel a b c p
  = fst <$> GetAuthConfig (set_createErr e2 w) fuel a b c p.
Proof.
  rewrite !GetAuthConfig_stages. cbn [UserHomeDir set_createErr].
  destruct (UserHomeDir w) as [h|]; [| done].
  apply bind_fst_ext; [done |]. intros cfg0 p0.
  apply bind_fst_ext; [done |]. intros cfg1 p1.
  apply bind_fst_ext; [by rewrite !stage_key_createErr |]. intros cfg2 p2.
  by rewrite !(bind_ok _ _ _ _ _ (stage_save_run _ h c _ _)).
Qed.

End CreateErr.

Section AcquireClaims.
Import config config_defs acquire_defs.

(** C1 (as amended).  For the bridge address and for the API key, each on
    its own, [GetAuthConfig] takes the environment variable if one is
    set, else the value of the cache file if the cache is enabled; the
    values the caller passes do not override either.  When both fields
    are found this way (and the address argument is not "discover") the
    call returns them, whatever the arguments and the bound on the
    waiter are. *)
Theorem env_then_cache_precedence (w : World) fuel a b c p h :
  UserHomeDir w = Ok h ->
  (a <> "discover" ->
   env_then_cache w p c "hue_bridge_ip" <> "" ->
   env_then_cache w p c "hue_bridge_api_key" <> "" ->
   exists p',
     GetAuthConfig w fuel a b c p =
       Some (Ok {| BridgeIp := env_then_cache w p c "hue_bridge_ip";
                   BridgeApiKey := env_then_cache w p c "hue_bridge_api_key" |},
             p')) /\
  (forall auth p',
     GetAuthConfig w fuel a b c p = Some (Ok auth, p') ->
     (a <> "discover" -> env_then_cache w p c "hue_bridge_ip" <> "" ->
      BridgeIp auth = env_then_cache w p c "hue_bridge_ip") /\
     (env_then_cache w p c "hue_bridge_api_key" <> "" ->
      BridgeApiKey auth = env_then_cache w p c "hue_bridge_api_key")).
Proof.
  intros Hh. split.
  - intros Ha Hip Hkey. eexists. by apply GetAuthConfig_resolved.
  - intros auth p'. apply GetAuthConfig_fields.
Qed.

(** With "X" passed, "Y" in the environment and "Z" in the cache the
    call returns "Y"; with the environment empty it returns "Z". *)
Lemma env_then_cache_precedence_witness :
  (exists p',
     GetAuthConfig (samples.world (samples.envBoth "Y" "Y") samples.alwaysRetry)
       0 "X" "X" true (samples.procWithCache "Z" "Z")
     = Some (Ok {| BridgeIp := "Y"; BridgeApiKey := "Y" |}, p')) /\
  (exists p',
     GetAuthConfig (samples.world ∅ samples.alwaysRetry)
       0 "X" "X" true (samples.procWithCache "Z" "Z")
     = Some (Ok {| BridgeIp := "Z"; BridgeApiKey := "Z" |}, p')).
Proof.
  split.
  - destruct (proj1 (env_then_cache_precedence
                       (samples.world (samples.envBoth "Y" "Y") samples.alwaysRetry)
                       0 "X" "X" true (samples.procWithCache "Z" "Z") "/home/u"
                       eq_refl)) as [p' Hp]; try (vm_compute; discriminate).
    exists p'. rewrite Hp. vm_compute. reflexivity.
  - destruct (proj1 (env_then_cache_precedence
                       (samples.world ∅ samples.alwaysRetry)
                       0 "X" "X" true (samples.procWithCache "Z" "Z") "/home/u"
                       eq_refl)) as [p' Hp]; try (vm_compute; discriminate).
    exists p'. rewrite Hp. vm_compute. reflexivity.
Defined.

(** C1 as stated fails: with "X" passed, "Y" in the environment and "Z"
    in the cache, the call returns "Y", not "X". *)
Lemma explicit_value_does_not_win :
  fst <$> GetAuthConfig
            (samples.world (samples.envBoth "Y" "Y") samples.alwaysRetry)
            0 "X" "X" true (samples.procWithCache "Z" "Z")
    = Some (Ok {| BridgeIp := "Y"; BridgeApiKey := "Y" |}) /\
  ~ exists p',
      GetAuthConfig (samples.world (samples.envBoth "Y" "Y") samples.alwaysRetry)
        0 "X" "X" true (samples.procWithCache "Z" "Z")
      = Some (Ok {| BridgeIp := "X"; BridgeApiKey := "X" |}, p').
Proof.
  split; [vm_compute; reflexivity |].
  intros [p' H]. vm_compute in H. discriminate.
Qed.

(** C2 at its failing input: the address "192.168.1.10" is passed, the
    key comes from the environment, no cache is used; the discovery
    probe runs once and the address it finds is the one returned. *)
Lemma explicit_address_is_dropped :
  (fun r => (r.1, count is_discover (trace r.2))) <$>
    GetAuthConfig (samples.world (samples.envKey "K") samples.alwaysRetry)
      0 "192.168.1.10" "" false samples.freshProc
  = Some (Ok {| BridgeIp := "10.0.0.9"; BridgeApiKey := "K" |}, 1%nat).
Proof. vm_compute. reflexivity. Qed.

(** C3.  With a cache file that holds an address and a key, the cache
    enabled, nothing passed and nothing in the environment,
    [GetAuthConfig] returns the two cached values; it runs no discovery,
    creates no authenticator and sends no pairing request. *)
Theorem cached_credentials_need_no_bridge (w : World) fuel p h m ip key :
  UserHomeDir w = Ok h ->
  files p !! Join h cachePath = Some (Json m) ->
  m !! "hue_bridge_ip" = Some ip -> ip <> "" ->
  m !! "hue_bridge_api_key" = Some key -> key <> "" ->
  viper.getEnv (environ w) "HUE_BRIDGE_IP" = None ->
  viper.getEnv (environ w) "HUE_BRIDGE_API_KEY" = None ->
  exists p' evs,
    GetAuthConfig w fuel "" "" true p
      = Some (Ok {| BridgeIp := ip; BridgeApiKey := key |}, p') /\
    added p p' evs /\
    count is_discover evs = 0%nat /\
    count is_new_authenticator evs = 0%nat /\
    count is_authenticate evs = 0%nat.
Proof.
  intros Hh Hfile Hip Hip' Hkey Hkey' Eip Ekey.
  assert (Cip : env_then_cache w p true "hue_bridge_ip" = ip).
  { unfold env_then_cache, cached.
    change (ToUpper "hue_bridge_ip") with "HUE_BRIDGE_IP".
    by rewrite Eip, Hh, Hfile, Hip. }
  assert (Ckey : env_then_cache w p true "hue_bridge_api_key" = key).
  { unfold env_then_cache, cached.
    change (ToUpper "hue_bridge_api_key") with "HUE_BRIDGE_API_KEY".
    by rewrite Ekey, Hh, Hfile, Hkey. }
  eexists _, _. split.
  - rewrite (GetAuthConfig_resolved w fuel "" "" true p h); try done.
    + by rewrite Cip, Ckey.
    + by rewrite Cip.
    + by rewrite Ckey.
  - unfold added, afterSave, saveEvents, viper.SafeWriteConfigAs.
    cbn [trace files afterLoad]. rewrite Hfile. cbn [snd].
    rewrite <- app_assoc. split; [reflexivity |]. done.
Qed.

Lemma cached_credentials_need_no_bridge_witness :
  exists p' evs,
    GetAuthConfig (samples.world ∅ samples.alwaysRetry) 0 "" "" true
      (samples.procWithCache "10.0.0.7" "cached-key")
      = Some (Ok {| BridgeIp := "10.0.0.7"; BridgeApiKey := "cached-key" |}, p') /\
    added (samples.procWithCache "10.0.0.7" "cached-key") p' evs /\
    count is_discover evs = 0%nat /\
    count is_new_authenticator evs = 0%nat /\
    count is_authenticate evs = 0%nat.
Proof.
  apply (cached_credentials_need_no_bridge
           (samples.world ∅ samples.alwaysRetry) 0
           (samples.procWithCache "10.0.0.7" "cached-key") "/home/u"
           (<["hue_bridge_ip" := "10.0.0.7"]>
              (<["hue_bridge_api_key" := "cached-key"]> ∅))
           "10.0.0.7" "cached-key");
    solve [reflexivity | discriminate].
Defined.

(** C7.  A write of the cache file that fails does not reach what
    [GetAuthConfig] returns.  Value and error alike are those of
    [credentials], in which nothing is written: they are settled by the
    environment, by what the cache file holds when it is read, by the
    discovery and by the waiter, whether or not the file is there already
    and whether or not it can be created.  In particular the result is
    the one of the run in which the file is created.  Without the cache no
    write is attempted; with it, a run that ends well although the file
    exists already or cannot be created ends with the attempt and a
    warning, and leaves the files as they were. *)
Theorem cache_write_failure_is_harmless (w : World) fuel a b p e :
  (forall c,
     fst <$> GetAuthConfig w fuel a b c p = credentials w fuel a c p) /\
  (forall c,
     fst <$> GetAuthConfig (set_createErr (Some e) w) fuel a b c p
     = fst <$> GetAuthConfig (set_createErr None w) fuel a b c p) /\
  (forall r p',
     GetAuthConfig w fuel a b false p = Some (r, p') ->
     files p' = files p /\
     exists evs, added p p' evs /\ Forall not_write evs) /\
  (forall h auth p',
     UserHomeDir w = Ok h ->
     is_Some (createErr w) \/ is_Some (files p !! Join h cachePath) ->
     GetAuthConfig w fuel a b true p = Some (Ok auth, p') ->
     files p' = files p /\
     exists evs msg,
       added p p' (evs ++ [EvWriteConfig (Join h cachePath); EvLog Warn msg]) /\
       Forall not_write evs).
Proof.
  split; [intros c; apply GetAuthConfig_credentials |].
  split; [intros c; apply GetAuthConfig_createErr |]. split.
  - intros r p' H. destruct (UserHomeDir w) as [h|err] eqn:Hh.
    + destruct (before_save w fuel a b false p h r p' Hh H)
        as [(evs & Ha & Hf & Hfs & _) | (cfg & p2 & evs & Ha & Hf & Hfs & _ & ->)].
      * eauto.
      * split; [done |]. exists evs. split; [| done].
        unfold added in *. cbn. by rewrite app_nil_r.
    + unfold GetAuthConfig in H. rewrite Hh in H. injection H as <- <-.
      split; [done |]. exists []. split; [| done]. unfold added. by rewrite app_nil_r.
  - intros h auth p' Hh Hfail H.
    destruct (before_save w fuel a b true p h _ p' Hh H)
      as [(evs & _ & _ & _ & err & [=]) | (cfg & p2 & evs & Ha & Hf & Hfs & _ & ->)].
    unfold added, afterSave, saveEvents, viper.SafeWriteConfigAs in *.
    cbn [trace files]. rewrite Hfs.
    destruct (files p !! Join h cachePath) as [c0|]; cbn [fst snd].
    + split; [done |]. rewrite Ha, <- app_assoc. eauto.
    + destruct Hfail as [[e0 He0] | [? [=]]]. rewrite He0. cbn [fst snd].
      split; [done |]. rewrite Ha, <- app_assoc. eauto.
Qed.

(** The cache file is there already, with an address only; the key comes
    from the waiter.  The write is refused, and the call returns the
    cached address and the new key. *)
Lemma cache_write_failure_is_harmless_witness :
  fst <$> GetAuthConfig samples.pairingWorld 4 "" "" true
            (samples.procWithCache "10.0.0.7" "")
  = Some (Ok {| BridgeIp := "10.0.0.7"; BridgeApiKey := "KEY" |}) /\
  forall auth p',
    GetAuthConfig samples.pairingWorld 4 "" "" true
      (samples.procWithCache "10.0.0.7" "") = Some (Ok auth, p') ->
    files p' = files (samples.procWithCache "10.0.0.7" "").
Proof.
  pose proof (cache_write_failure_is_harmless samples.pairingWorld 4 "" ""
                (samples.procWithCache "10.0.0.7" "")
                (LibError "permission denied")) as (Hres & _ & _ & Hlog).
  split.
  - rewrite (Hres true). vm_compute. reflexivity.
  - intros auth p' Hrun.
    apply (Hlog "/home/u" auth p' eq_refl); [| exact Hrun].
    right. eexists. vm_compute. reflexivity.
Defined.

End AcquireClaims.

(** ** The provider's [Configure] *)

Section ProviderClaims.
Import config.
Context {printTables : strconv.PrintTables}.

(** C8.  When [GetAuthConfig] ends well and the client is constructed,
    [Configure] hands over a client constructed with the URL
    https://{bridge address} and one request editor that sets the header
    hue-application-key to the API key, and it leaves the process with
    [InsecureSkipVerify] set on the default transport, whatever it was
    before: the setting is a field of the process state, not of the
    client. *)
Theorem configure_disables_tls_globally (w : World) fuel req p auth p1 :
  GetAuthConfig w fuel
    (types.ValueString (provider.BridgeIp (provider.Config_model req)))
    (types.ValueString (provider.BridgeApiKey (provider.Config_model req)))
    (types.ValueBool (provider.Cache (provider.Config_model req))) p
    = Some (Ok auth, p1) ->
  NewClientErr w = None ->
  exists p',
    let client :=
      {| openhue.Server := "https://" ++ BridgeIp auth;
         openhue.RequestEditors :=
           [openhue.SetHeader "hue-application-key" (BridgeApiKey auth)] |} in
    provider.Configure w fuel req p =
      Some ({| provider.Diags := provider.Config_diags req;
               provider.DataSourceData := Some client;
               provider.ResourceData := Some client;
               provider.EphemeralResourceData := Some client |}, p') /\
    DefaultTransport_InsecureSkipVerify p' = true /\
    files p' = files p1 /\ globalViper p' = globalViper p1.
Proof.
  intros H Hnew. unfold provider.Configure, provider.NewClientWithResponses.
  rewrite H, Hnew. eexists. cbn zeta. split; [reflexivity |]. done.
Qed.

End ProviderClaims.

Section ProviderWitnesses.
Import config.
#[local] Existing Instance samples.printTables.

Lemma configure_disables_tls_globally_witness :
  exists p',
    provider.Configure (samples.world (samples.envKey "K") samples.alwaysRetry) 0
      (samples.request (types.StringValue "discover") types.StringNull false)
      samples.freshProc
    = Some ({| provider.Diags := [];
               provider.DataSourceData :=
                 Some (openhue.mkClient "https://10.0.0.9"
                         [openhue.SetHeader "hue-application-key" "K"]);
               provider.ResourceData :=
                 Some (openhue.mkClient "https://10.0.0.9"
                         [openhue.SetHeader "hue-application-key" "K"]);
               provider.EphemeralResourceData :=
                 Some (openhue.mkClient "https://10.0.0.9"
                         [openhue.SetHeader "hue-application-key" "K"]) |}, p')
    /\ DefaultTransport_InsecureSkipVerify samples.freshProc = false
    /\ DefaultTransport_InsecureSkipVerify p' = true.
Proof.
  destruct (configure_disables_tls_globally
              (samples.world (samples.envKey "K") samples.alwaysRetry) 0
              (samples.request (types.StringValue "discover") types.StringNull false)
              samples.freshProc
              {| BridgeIp := "10.0.0.9"; BridgeApiKey := "K" |}
              _ ltac:(vm_compute; reflexivity) eq_refl)
    as (p' & Hc & Htls & _).
  exists p'. split; [exact Hc |]. split; [reflexivity | exact Htls].
Defined.

End ProviderWitnesses.

(** ** Rooms *)

Section RoomClaims.
Import resources room_defs.
Context {printTables : strconv.PrintTables}.

Lemma unrecognised_lookup a :
  a ∉ recognised -> stringToRoomArchetype !! a = None.
Proof. intros H. by apply not_elem_of_list_to_map_1. Qed.

Lemma recognised_maps a :
  a ∈ recognised -> mapStringToRoomArchetype a = (a, true).
Proof.
  unfold recognised. intros H.
  repeat (apply elem_of_cons in H as [-> | H]; [by vm_compute |]).
  by apply elem_of_nil in H.
Qed.

(** C10.  For a room model whose archetype is none of the six names,
    [buildRoomPutPayload] returns an error; [Room.Create] sends no
    request to the bridge, and, when it has a client and the plan was
    decoded without errors, adds that error to the diagnostics.  For a
    model whose archetype is one of the six names [buildRoomPutPayload]
    returns a payload that carries what [mapStringToRoomArchetype] maps
    the name to, with the name of the room and its lights, and
    [Room.Create] sends that payload to the bridge, once.  Each of the six
    names is mapped to the bridge's constant of that name. *)
Theorem invalid_archetype_is_rejected (model : RoomResourceModel) :
  (types.ValueString (Archetype model) ∉ recognised ->
   let e := Errorf ("failed to create room: invalid archetype "
                    ++ types.String (Archetype model)) in
   buildRoomPutPayload model = Err e /\
   forall bridge r req resp,
     Plan_model req = model ->
     count_rest (snd (Create bridge r req resp)) = 0%nat /\
     (is_Some (client r) ->
      HasError (Diags resp ++ Plan_diags req)%list = false ->
      fst (Create bridge r req resp) =
        Returned
          {| Diags := AddError "failed to create room"
                        ("failed to create room: " ++ Error_ e)
                        (Diags resp ++ Plan_diags req)%list;
             State := State resp |})) /\
  (types.ValueString (Archetype model) ∈ recognised ->
   let put :=
     {| openhue.Children :=
          Some (List.map (fun lightId =>
                            {| openhue.Rid := Some (types.ValueString lightId);
                               openhue.Rtype := Some "device" |})
                         (types.Elements (LightIds model)));
        openhue.Metadata :=
          Some {| openhue.Archetype :=
                    Some (fst (mapStringToRoomArchetype
                                 (types.ValueString (Archetype model))));
                  openhue.Name := types.ValueStringPointer (Name model) |} |} in
   buildRoomPutPayload model = Ok put /\
   forall bridge r req resp,
     Plan_model req = model ->
     is_Some (client r) ->
     HasError (Diags resp ++ Plan_diags req)%list = false ->
     snd (Create bridge r req resp) =
       [RoomLog ("Creating room " ++ types.String (Name model));
        RestCreateRoom put]) /\
  mapStringToRoomArchetype "bedroom" = (openhue.RoomArchetypeBedroom, true) /\
  mapStringToRoomArchetype "bathroom" = (openhue.RoomArchetypeBathroom, true) /\
  mapStringToRoomArchetype "kitchen" = (openhue.RoomArchetypeKitchen, true) /\
  mapStringToRoomArchetype "dining" = (openhue.RoomArchetypeDining, true) /\
  mapStringToRoomArchetype "office" = (openhue.RoomArchetypeOffice, true) /\
  mapStringToRoomArchetype "other" = (openhue.RoomArchetypeOther, true).
Proof.
  split; [| split; [| repeat split; vm_compute; reflexivity]].
  - intros Hbad e.
    assert (Hb : buildRoomPutPayload model = Err e).
    { unfold buildRoomPutPayload, mapStringToRoomArchetype.
      by rewrite (unrecognised_lookup _ Hbad). }
    split; [done |]. intros bridge r req resp <-. unfold Create.
    destruct (client r) as [cl|]; [| split; [done | by intros [? [=]]]].
    destruct (HasError _) eqn:Hd; [split; [done | by intros _ [=]] |].
    rewrite Hb. split; [done |]. by intros _ _.
  - intros Hgood put.
    assert (Hb : buildRoomPutPayload model = Ok put).
    { unfold put, buildRoomPutPayload.
      by rewrite (recognised_maps _ Hgood). }
    split; [done |]. intros bridge r req resp <- [cl Hcl] Hd. unfold Create.
    rewrite Hcl. cbn [Diags]. rewrite Hd, Hb.
    by repeat case_match.
Qed.

End RoomClaims.

Section RoomWitnesses.
Import resources room_defs.
#[local] Existing Instance samples.printTables.

(** An archetype that is none of the six and has quotation marks in it,
    and one of the six. *)
Lemma invalid_archetype_is_rejected_witness :
  (buildRoomPutPayload (samples.room ("attic " ++ samples.quotes "2"))
     = Err (Errorf ("failed to create room: invalid archetype "
                    ++ samples.quotes
                         ("attic " ++ strconv.backslash ++ samples.quotes
                            ("2" ++ strconv.backslash)))) /\
   count_rest (snd (Create samples.created (mkRoom (Some samples.someClient))
                      (mkCreateRequest
                         (samples.room ("attic " ++ samples.quotes "2")) [])
                      (mkCreateResponse [] None))) = 0%nat) /\
  count_rest (snd (Create samples.created (mkRoom (Some samples.someClient))
                     (mkCreateRequest (samples.room "office") [])
                     (mkCreateResponse [] None))) = 1%nat.
Proof.
  split.
  - destruct (proj1 (invalid_archetype_is_rejected
                       (samples.room ("attic " ++ samples.quotes "2"))))
      as [Hb Hc].
    + vm_compute. intros H.
      repeat (inversion H as [|? ? ? H']; subst; clear H; rename H' into H).
    + split; [exact Hb |].
      exact (proj1 (Hc samples.created (mkRoom (Some samples.someClient))
                      (mkCreateRequest
                         (samples.room ("attic " ++ samples.quotes "2")) [])
                      (mkCreateResponse [] None) eq_refl)).
  - destruct (proj1 (proj2 (invalid_archetype_is_rejected (samples.room "office"))))
      as [_ Hc].
    + vm_compute. set_solver.
    + by rewrite (Hc samples.created (mkRoom (Some samples.someClient))
                    (mkCreateRequest (samples.room "office") [])
                    (mkCreateResponse [] None) eq_refl
                    (ex_intro _ samples.someClient eq_refl) eq_refl).
Defined.

End RoomWitnesses.

(** * Further properties *)

(** ** The waiter *)

Section WaiterExtras.
Import config config_defs extra_defs.
Variable w : World.

Lemma paced_afterTick st : paced st -> paced (afterTick w st).
Proof.
  unfold paced. intros [Hn Ht]. cbn [afterTick now tickAt requests].
  pose proof (nextTick_ge (tickAt st) (N.max (now st) (tickAt st))) as Hge.
  rewrite !Nat2N.inj_succ, !N.mul_succ_l in *. lia.
Qed.

Lemma select_time_ge st s t : select w st = (s, t) -> now st <= t.
Proof. unfold select. repeat case_match; intros [= <- <-]; lia. Qed.

Lemma pollLoop_paced fuel : forall key st tr res st' tr',
  pollLoop w fuel key st tr = Some (res, st', tr') ->
  paced st -> paced st'.
Proof.
  induction fuel as [|fuel IH]; intros key st tr res st' tr'; simpl.
  - destruct (decide (key = "")); [discriminate |]. by intros [= <- <- <-].
  - destruct (decide (key = "")); [| by intros [= <- <- <-]].
    destruct (select w st) as [[] t] eqn:E.
    + intros [= <- <- <-] [Hn Ht]. apply select_time_ge in E.
      split; cbn [now tickAt requests]; lia.
    + pose proof E as E'. apply select_tick_time in E'. subst t.
      fold (afterTick w st).
      destruct (authenticateWithBridgeIpOnce _).
      * intros H Hp. eapply IH; [exact H |]. by apply paced_afterTick.
      * intros [= <- <- <-] Hp. by apply paced_afterTick.
Qed.

(** X1.  The waiter keeps to the ticker: when it returns after [n]
    requests, at least [n] tick intervals have passed since it was
    entered. *)
Theorem requests_are_paced fuel ip tr res st tr' :
  authenticateWithBridgeIp w fuel ip tr = Some (res, st, tr') ->
  N.of_nat (requests st) * tickInterval <= now st.
Proof.
  unfold authenticateWithBridgeIp. destruct (NewAuthenticator w ip).
  - intros [= <- <- <-]. simpl. lia.
  - intros H. eapply pollLoop_paced in H as [Hn _]; [done |].
    split; simpl; lia.
Qed.

Lemma sumLatency_succ from count :
  sumLatency w from (S count)
  = latency (Authenticate w from) + sumLatency w (S from) count.
Proof. reflexivity. Qed.

Lemma pollLoop_retries k : forall m fuel st tr,
  (forall i, (requests st <= i < requests st + m)%nat -> retries w i) ->
  err (Authenticate w (requests st + m)) = None ->
  apiKey (Authenticate w (requests st + m)) = k -> k <> "" ->
  tickAt st <= now st + tickInterval ->
  now st + N.of_nat (S m) * tickInterval + sumLatency w (requests st) m
    < doneAt w ->
  (S m <= fuel)%nat ->
  exists st' tr',
    pollLoop w fuel "" st tr = Some (Ok k, st', tr') /\
    requests st' = (requests st + S m)%nat.
Proof.
  induction m as [|m IH]; intros fuel st tr Hret Herr Hkey Hk Htick Htime Hfuel;
    (destruct fuel as [|fuel]; [lia |]).
  - rewrite Nat.add_0_r in Herr, Hkey. cbn [sumLatency] in Htime.
    rewrite pollLoop_unfold_tick by (rewrite select_tick; [done | lia]).
    unfold authenticateWithBridgeIpOnce. rewrite Herr, Hkey.
    rewrite pollLoop_key by done. eexists _, _. split; [done |]. simpl. lia.
  - rewrite sumLatency_succ in Htime.
    rewrite Nat2N.inj_succ, N.mul_succ_l in Htime.
    rewrite pollLoop_retry; [| lia | apply Hret; lia].
    pose proof (afterTick_now_le w st Htick) as Hn.
    pose proof (afterTick_tickAt_le w st Htick) as Ht.
    destruct (IH fuel (afterTick w st) (tr ++ tickEvents st)%list)
      as (st' & tr' & Hrun & Hreq).
    + intros i Hi. apply Hret. cbn [afterTick requests] in Hi. lia.
    + cbn [afterTick requests]. by replace (S (requests st) + m)%nat
        with (requests st + S m)%nat by lia.
    + cbn [afterTick requests]. by replace (S (requests st) + m)%nat
        with (requests st + S m)%nat by lia.
    + done.
    + done.
    + replace (requests (afterTick w st)) with (S (requests st)) by done. lia.
    + lia.
    + exists st', tr'. split; [done |]. rewrite Hreq. cbn [afterTick requests]. lia.
Qed.

(** X2.  However many times the bridge asks to retry first: when it
    answers the requests before the [n]-th with "not yet, retry" and the
    [n]-th with a key, and these [n+1] ticks with the time the bridge
    takes for the first [n] answers fit before the waiter's [Done()], the
    waiter returns that key after exactly [n+1] requests. *)
Theorem retries_then_key n ip tr k fuel :
  NewAuthenticator w ip = None ->
  (forall i, (i < n)%nat -> retries w i) ->
  err (Authenticate w n) = None ->
  apiKey (Authenticate w n) = k -> k <> "" ->
  N.of_nat (S n) * tickInterval + sumLatency w 0 n < doneAt w ->
  (S n <= fuel)%nat ->
  exists st tr',
    authenticateWithBridgeIp w fuel ip tr = Some (Ok k, st, tr') /\
    requests st = S n /\
    count is_authenticate tr' = (count is_authenticate tr + S n)%nat.
Proof.
  intros Hnew Hret Herr Hkey Hk Htime Hfuel.
  unfold authenticateWithBridgeIp. rewrite Hnew.
  assert (H0 : forall i, (requests poll0 <= i < requests poll0 + n)%nat -> retries w i)
    by (intros i Hi; apply Hret; simpl in Hi; lia).
  assert (H1 : tickAt poll0 <= now poll0 + tickInterval)
    by (cbn [now tickAt poll0]; lia).
  assert (H2 : now poll0 + N.of_nat (S n) * tickInterval
               + sumLatency w (requests poll0) n < doneAt w)
    by (cbn [now requests poll0]; lia).
  destruct (pollLoop_retries k n fuel poll0 (tr ++ [EvNewAuthenticator ip])%list
              H0 Herr Hkey Hk H1 H2 Hfuel) as (st & tr' & Hrun & Hreq).
  exists st, tr'. split; [done |]. split; [done |].
  apply pollLoop_requests in Hrun as [_ Hc].
  rewrite count_app in Hc. cbn in Hc. rewrite Hreq in Hc. cbn in Hc. lia.
Qed.

(** X3.  When the caller's context is done before the first tick, the
    waiter returns the timeout error at once and sends the bridge
    nothing. *)
Theorem done_context_sends_nothing c ip tr fuel :
  ctxDone w = Some c -> c < tickInterval ->
  NewAuthenticator w ip = None ->
  (1 <= fuel)%nat ->
  authenticateWithBridgeIp w fuel ip tr =
    Some (Err timedOut,
          {| now := c; tickAt := tickInterval; requests := 0; selects := 1 |},
          (tr ++ [EvNewAuthenticator ip])%list).
Proof.
  intros Hc Hlt Hnew Hfuel. destruct fuel as [|fuel]; [lia |].
  unfold authenticateWithBridgeIp. rewrite Hnew. simpl.
  unfold select, doneAt. rewrite Hc. cbn [now tickAt poll0].
  assert (Hmin : N.min c pairingTimeout = c).
  { apply N.min_l. assert (tickInterval <= pairingTimeout) by done. lia. }
  rewrite Hmin.
  rewrite (N.max_r 0 tickInterval), (N.max_r 0 c) by lia.
  destruct (N.ltb_spec tickInterval c); [lia |].
  destruct (N.ltb_spec c tickInterval); [done | lia].
Qed.

End WaiterExtras.

Section WaiterExtraWitnesses.
Import config config_defs extra_defs.

Lemma requests_are_paced_witness :
  exists res st tr',
    authenticateWithBridgeIp (samples.world ∅ samples.threeRetriesThenKey)
      4 "10.0.0.9" [] = Some (res, st, tr') /\
    N.of_nat (requests st) * tickInterval <= now st.
Proof.
  eexists _, _, _. split; [vm_compute; reflexivity |].
  eapply (requests_are_paced (samples.world ∅ samples.threeRetriesThenKey)
            4 "10.0.0.9" []).
  vm_compute. reflexivity.
Defined.

Lemma retries_then_key_witness :
  exists st tr',
    authenticateWithBridgeIp (samples.world ∅ samples.threeRetriesThenKey)
      9 "10.0.0.9" [] = Some (Ok "KEY", st, tr') /\
    requests st = 4%nat /\
    count is_authenticate tr' = (count is_authenticate [] + 4)%nat.
Proof.
  apply (retries_then_key (samples.world ∅ samples.threeRetriesThenKey)
           3 "10.0.0.9" [] "KEY" 9); try reflexivity; try discriminate; try lia.
  intros i Hi. unfold retries, samples.world, samples.threeRetriesThenKey.
  cbn [Authenticate]. destruct (Nat.ltb_spec i 3); [| lia].
  split; [eexists; reflexivity | reflexivity].
Defined.

Lemma done_context_sends_nothing_witness :
  authenticateWithBridgeIp samples.cancelledWorld 5 "10.0.0.9" [] =
    Some (Err timedOut,
          {| now := 0; tickAt := tickInterval; requests := 0; selects := 1 |},
          ([] ++ [EvNewAuthenticator "10.0.0.9"])%list).
Proof.
  apply (done_context_sends_nothing samples.cancelledWorld 0 "10.0.0.9" [] 5);
    try reflexivity. lia.
Defined.

End WaiterExtraWitnesses.

(** ** [GetAuthConfig] *)

Section AcquireExtras.
Import config config_defs acquire_defs extra_defs.
Variable w : World.

(** *** Steps that do not look at the package-level viper *)

Lemma same_io_refl p : same_io p p.
Proof. by repeat split. Qed.

Lemma same_io_emit evs p q : same_io p q -> same_io (emit evs p) (emit evs q).
Proof. intros (Hf & Ht & Hd). repeat split; cbn; congruence. Qed.

Lemma blind_ret {A} (a : A) : blind (ret a).
Proof. intros p q H. by split. Qed.

Lemma blind_log lvl msg : blind (log lvl msg).
Proof. intros p q H. split; [done |]. by apply same_io_emit. Qed.

Lemma blind_bind {A B} (c : M A) (k : A -> M B) :
  blind c -> (forall a, blind (k a)) -> blind (bind c k).
Proof.
  intros Hc Hk p q H. specialize (Hc p q H). unfold bind, same_run in *.
  destruct (c p) as [[[a|e] p1]|], (c q) as [[[a'|e'] q1]|]; try done;
    try (by destruct Hc as [[=] _]).
  - destruct Hc as [[= <-] H1]. by apply Hk.
  - by destruct Hc as [[= ->] H1].
Qed.

Lemma blind_wrap {A} prefix (c : M A) : blind c -> blind (wrap prefix c).
Proof.
  intros Hc p q H. specialize (Hc p q H). unfold wrap, same_run in *.
  destruct (c p) as [[[a|e] p1]|], (c q) as [[[a'|e'] q1]|]; try done;
    try (by destruct Hc as [[=] _]).
  by destruct Hc as [[= ->] H1].
Qed.

Lemma blind_discover : blind (discover w).
Proof.
  intros p q H. unfold discover.
  destruct (Discover w); (split; [done | by apply same_io_emit]).
Qed.

Lemma blind_pair fuel ip : blind (pair w fuel ip).
Proof.
  intros p q (Hf & Ht & Hd). unfold pair. rewrite Ht.
  destruct (authenticateWithBridgeIp _ _ _ _) as [[[r st] tr]|]; [| done].
  by repeat split.
Qed.

Lemma blind_safeWriteConfigAs cfg path : blind (safeWriteConfigAs w cfg path).
Proof.
  intros p q (Hf & Ht & Hd). unfold safeWriteConfigAs. rewrite Hf.
  destruct (viper.SafeWriteConfigAs _ _ _ _ _) as [fs e].
  split; [done |]. repeat split; cbn; congruence.
Qed.

Lemma blind_stage_address a cfg : blind (stage_address w a cfg).
Proof.
  unfold stage_address. destruct (_ || _); [| apply blind_ret].
  apply blind_bind; [apply blind_log |]. intros _.
  apply blind_bind; [apply blind_wrap, blind_discover |]. intros md.
  apply blind_bind; [apply blind_log |]. intros _. apply blind_ret.
Qed.

Lemma blind_stage_key fuel cfg : blind (stage_key w fuel cfg).
Proof.
  unfold stage_key. case_bool_decide; [| apply blind_ret].
  apply blind_bind; [apply blind_log |]. intros _.
  apply blind_bind; [apply blind_wrap, blind_pair |]. intros k. apply blind_ret.
Qed.

Lemma blind_stage_save h c cfg : blind (stage_save w h c cfg).
Proof.
  unfold stage_save. destruct c; [| apply blind_ret].
  apply blind_bind; [apply blind_safeWriteConfigAs |]. intros [e|];
    [apply blind_log | apply blind_ret].
Qed.

(** X4.  The address and the key that are passed in reach only the
    defaults of viper's package-level instance, which [GetAuthConfig] does
    not read: apart from the comparison of the address with "discover",
    what the call returns, logs, asks of the bridge and writes does not
    depend on them. *)
Theorem explicit_values_are_not_read fuel a b a' b' c p :
  (a = "discover" <-> a' = "discover") ->
  same_run (GetAuthConfig w fuel a b c p) (GetAuthConfig w fuel a' b' c p).
Proof.
  intros Hiff. rewrite !GetAuthConfig_stages.
  destruct (UserHomeDir w) as [h|e]; [| split; [done | apply same_io_refl]].
  rewrite !(bind_ok _ _ _ _ _ (stage_load_run h _ _ c p)).
  assert (Hs : stage_address w a' = stage_address w a).
  { unfold stage_address. by rewrite (bool_decide_ext _ _ Hiff). }
  rewrite Hs.
  apply blind_bind; [apply blind_stage_address | |].
  - intros cfg1. apply blind_bind; [apply blind_stage_key |]. intros cfg2.
    apply blind_bind; [apply blind_stage_save |]. intros _. apply blind_ret.
  - by repeat split.
Qed.

(** *** The events of a run *)

Lemma pollLoop_loop_events fuel : forall key st tr res st' tr',
  pollLoop w fuel key st tr = Some (res, st', tr') ->
  exists evs, tr' = (tr ++ evs)%list /\ Forall loop_event evs.
Proof.
  induction fuel as [|fuel IH]; intros key st tr res st' tr'; simpl.
  - destruct (decide (key = "")); [done |]. intros [= <- <- <-].
    exists []. by rewrite app_nil_r.
  - destruct (decide (key = ""));
      [| intros [= <- <- <-]; exists []; by rewrite app_nil_r].
    destruct (select w st) as [[] t];
      [intros [= <- <- <-]; exists []; by rewrite app_nil_r |].
    destruct (authenticateWithBridgeIpOnce _).
    + intros H. apply IH in H as (evs & -> & Hevs).
      eexists. rewrite <- app_assoc. split; [done |].
      apply Forall_app. split; [| done]. by repeat constructor.
    + intros [= <- <- <-]. eexists. split; [done |]. by repeat constructor.
Qed.

Lemma loop_events_count (f : event -> bool) evs :
  (forall e, loop_event e -> f e = false) ->
  Forall loop_event evs -> count f evs = 0%nat.
Proof.
  intros Hf H. apply count_none. eapply Forall_impl; [exact H | exact Hf].
Qed.

(** The key part, when the waiter has to get one. *)
Lemma stage_key_paired fuel cfg p r p' :
  viper.GetString cfg (environ w) "hue_bridge_api_key" = "" ->
  stage_key w fuel cfg p = Some (r, p') ->
  files p' = files p /\
  DefaultTransport_InsecureSkipVerify p' = true /\
  exists res st,
    authenticateWithBridgeIp w fuel
      (viper.GetString cfg (environ w) "hue_bridge_ip")
      (trace p ++ [EvLog Warn msgPairing])%list = Some (res, st, trace p') /\
    match res with
    | Ok k => r = Ok (viper.Set_ cfg "hue_bridge_api_key" k)
    | Err e => r = Err (Wrapf "failed to authenticate with Hue Bridge: " e)
    end.
Proof.
  intros Hkey. unfold stage_key. rewrite bool_decide_eq_true_2 by done.
  unfold bind, log, wrap, pair, ret. cbn [trace emit].
  destruct (authenticateWithBridgeIp _ _ _ _) as [[[[k|e] st] tr]|] eqn:E;
    [| | done]; intros [= <- <-]; cbn [files trace DefaultTransport_InsecureSkipVerify];
    (split; [done |]); (split; [done |]).
  - exists (Ok k), st. by split.
  - exists (Err e), st. by split.
Qed.

Lemma waiter_events fuel ip tr res st tr' :
  authenticateWithBridgeIp w fuel ip tr = Some (res, st, tr') ->
  exists evs, tr' = (tr ++ EvNewAuthenticator ip :: evs)%list /\
              Forall loop_event evs.
Proof.
  unfold authenticateWithBridgeIp. destruct (NewAuthenticator w ip).
  - intros [= <- <- <-]. exists []. done.
  - intros H. apply pollLoop_loop_events in H as (evs & -> & Hevs).
    exists evs. by rewrite <- app_assoc.
Qed.

(** A run, part by part. *)
Lemma run_parts fuel a b c p h r p' :
  UserHomeDir w = Ok h ->
  GetAuthConfig w fuel a b c p = Some (r, p') ->
  exists r1 p1 r2 p2,
    stage_address w a (loaded (files p) h c) (afterLoad a b c p) = Some (r1, p1) /\
    match r1 with
    | Err e => r = Err e /\ p' = p1
    | Ok cfg1 =>
      stage_key w fuel cfg1 p1 = Some (r2, p2) /\
      match r2 with
      | Err e => r = Err e /\ p' = p2
      | Ok cfg2 => r = Ok (authConfigOf w cfg2) /\ p' = afterSave w h c cfg2 p2
      end
    end.
Proof.
  intros Hh. rewrite GetAuthConfig_stages, Hh.
  rewrite (bind_ok _ _ _ _ _ (stage_load_run h a b c p)).
  intros H. apply bind_inv in H as [(e & H1 & ->) | (cfg1 & p1 & H1 & H)].
  { exists (Err e), p', (Err e), p'. by rewrite H1. }
  apply bind_inv in H as [(e & H2 & ->) | (cfg2 & p2 & H2 & H)].
  { exists (Ok cfg1), p1, (Err e), p'. by rewrite H1, H2. }
  rewrite (bind_ok _ _ _ _ _ (stage_save_run w h c _ _)) in H.
  injection H as <- <-.
  exists (Ok cfg1), p1, (Ok cfg2), p2. by rewrite H1, H2.
Qed.

Lemma stage_key_events fuel cfg p r p' :
  stage_key w fuel cfg p = Some (r, p') ->
  exists evs, added p p' evs /\
    count is_discover evs = 0%nat /\ count is_write_config evs = 0%nat.
Proof.
  intros H.
  destruct (decide (viper.GetString cfg (environ w) "hue_bridge_api_key" = ""))
    as [Hk|Hk].
  - apply (stage_key_paired _ _ _ _ _ Hk) in H as (_ & _ & res & st & Hrun & _).
    apply waiter_events in Hrun as (evs & Ht & Hevs).
    exists (EvLog Warn msgPairing :: EvNewAuthenticator
              (viper.GetString cfg (environ w) "hue_bridge_ip") :: evs).
    unfold added. rewrite Ht, <- app_assoc. split; [done |].
    change (EvLog Warn msgPairing
            :: EvNewAuthenticator (viper.GetString cfg (environ w) "hue_bridge_ip")
            :: evs)
      with ([EvLog Warn msgPairing;
             EvNewAuthenticator (viper.GetString cfg (environ w) "hue_bridge_ip")]
            ++ evs)%list.
    rewrite !count_app.
    rewrite (loop_events_count is_discover evs); [| by intros [] | done].
    rewrite (loop_events_count is_write_config evs); [| by intros [] | done].
    done.
  - rewrite stage_key_keep in H by done. injection H as <- <-.
    exists []. unfold added. by rewrite app_nil_r.
Qed.

Lemma saveEvents_discover h c cfg p :
  count is_discover (saveEvents w h c cfg p) = 0%nat.
Proof. unfold saveEvents. destruct c; [| done]. by destruct (snd _). Qed.

Lemma saveEvents_new_authenticator h c cfg p :
  count is_new_authenticator (saveEvents w h c cfg p) = 0%nat.
Proof. unfold saveEvents. destruct c; [| done]. by destruct (snd _). Qed.

Lemma saveEvents_authenticate h c cfg p :
  count is_authenticate (saveEvents w h c cfg p) = 0%nat.
Proof. unfold saveEvents. destruct c; [| done]. by destruct (snd _). Qed.

Lemma afterLoad_added a b c p :
  added p (afterLoad a b c p)
    (if c then [EvLog Info "Using cache for Hue bridge credentials"] else []).
Proof. done. Qed.

Lemma loadEvents_count (f : event -> bool) (c : bool) :
  (forall msg, f (EvLog Info msg) = false) ->
  count f (if c then [EvLog Info "Using cache for Hue bridge credentials"] else [])
  = 0%nat.
Proof. intros Hf. destruct c; [| done]. unfold count. cbn. by rewrite Hf. Qed.

(** X5.  [GetAuthConfig] goes to discover a bridge exactly when neither
    the environment nor the cache has an address or the address passed in
    is "discover": in every run that gets past the home directory it then
    calls [Discover] once, otherwise not at all; and a run that discovers
    and ends well returns the discovered address, whatever the environment
    and the cache hold. *)
Theorem discovery_runs_exactly_when fuel a b c p h r p' :
  UserHomeDir w = Ok h ->
  GetAuthConfig w fuel a b c p = Some (r, p') ->
  exists evs,
    added p p' evs /\
    count is_discover evs = (if discovers w p a c then 1 else 0)%nat /\
    (discovers w p a c = true ->
     forall auth, r = Ok auth ->
       exists md, Discover w = Ok md /\ BridgeIp auth = IpAddress md).
Proof.
  intros Hh H.
  destruct (run_parts fuel a b c p h r p' Hh H) as (r1 & p1 & r2 & p2 & H1 & Hrest).
  rewrite stage_address_run, (GetString_loaded_ip w p h c Hh) in H1.
  fold (discovers w p a c) in H1.
  pose proof (afterLoad_added a b c p) as HL. unfold added in *.
  pose proof (loadEvents_count is_discover c (fun _ => eq_refl)) as HLc.
  destruct (discovers w p a c) eqn:Hd.
  - destruct (Discover w) as [md|e] eqn:HD; injection H1 as <- <-.
    + destruct Hrest as [H2 Hrest].
      destruct (stage_key_events _ _ _ _ _ H2) as (evs2 & Ha2 & Hc2 & _).
      unfold added in Ha2. cbn [trace emit] in Ha2. rewrite HL in Ha2.
      destruct r2 as [cfg2|e2]; destruct Hrest as [-> ->].
      * eexists. split; [cbn [trace afterSave]; rewrite Ha2, <- !app_assoc; done |].
        split.
        { rewrite !count_app, HLc, Hc2, saveEvents_discover. done. }
        intros _ auth [= <-]. exists md. split; [done |].
        apply stage_key_inv in H2 as (_ & Hip & _).
        unfold authConfigOf. cbn [BridgeIp].
        rewrite Hip. apply GetString_Set_eq.
      * eexists. split; [rewrite Ha2, <- !app_assoc; done |]. split.
        { rewrite !count_app, HLc, Hc2. done. }
        by intros _ auth [=].
    + destruct Hrest as [-> ->]. eexists.
      split; [cbn [trace emit]; rewrite HL, <- app_assoc; done |]. split.
      { rewrite !count_app, HLc. done. }
      by intros _ auth [=].
  - injection H1 as <- <-. destruct Hrest as [H2 Hrest].
    destruct (stage_key_events _ _ _ _ _ H2) as (evs2 & Ha2 & Hc2 & _).
    unfold added in Ha2. rewrite HL in Ha2.
    destruct r2 as [cfg2|e2]; destruct Hrest as [-> ->].
    + eexists. split; [cbn [trace afterSave]; rewrite Ha2, <- !app_assoc; done |].
      split; [| done].
      rewrite !count_app, HLc, Hc2, saveEvents_discover. done.
    + eexists. split; [rewrite Ha2, <- !app_assoc; done |]. split; [| done].
      rewrite !count_app, HLc, Hc2. done.
Qed.

(** X6.  When the discovery that [GetAuthConfig] goes for fails, the call
    returns that error, wrapped, whatever the bound on the waiter: it
    creates no authenticator, attempts no write and leaves the files as
    they were. *)
Theorem discovery_failure_aborts fuel a b c p h e :
  UserHomeDir w = Ok h ->
  Discover w = Err e ->
  discovers w p a c = true ->
  exists p' evs,
    GetAuthConfig w fuel a b c p
      = Some (Err (Wrapf "failed to discover Hue Bridge: " e), p') /\
    files p' = files p /\ added p p' evs /\
    count is_discover evs = 1%nat /\
    count is_new_authenticator evs = 0%nat /\
    count is_write_config evs = 0%nat.
Proof.
  intros Hh HD Hd. rewrite GetAuthConfig_stages, Hh.
  rewrite (bind_ok _ _ _ _ _ (stage_load_run h a b c p)).
  unfold bind at 1.
  rewrite stage_address_run, (GetString_loaded_ip w p h c Hh).
  fold (discovers w p a c). rewrite Hd, HD.
  eexists _, _. split; [done |]. split; [done |].
  unfold added. cbn [trace emit afterLoad]. rewrite <- app_assoc.
  split; [done |]. by destruct c.
Qed.

(** X7.  The credentials of a run that ends well are usable: the API key
    is never empty, and the address is empty only if the discovery
    reported an empty one. *)
Theorem returned_credentials_usable fuel a b c p auth p' :
  GetAuthConfig w fuel a b c p = Some (Ok auth, p') ->
  BridgeApiKey auth <> "" /\
  (BridgeIp auth = "" ->
   exists md, Discover w = Ok md /\ IpAddress md = "").
Proof.
  intros H.
  destruct (UserHomeDir w) as [h|e] eqn:Hh;
    [| by rewrite GetAuthConfig_stages, Hh in H].
  destruct (run_parts fuel a b c p h _ p' Hh H) as (r1 & p1 & r2 & p2 & H1 & Hrest).
  destruct r1 as [cfg1|e1]; [| by destruct Hrest].
  destruct Hrest as [H2 Hrest].
  destruct r2 as [cfg2|e2]; [| by destruct Hrest].
  destruct Hrest as [[= ->] _]. unfold authConfigOf. cbn [BridgeIp BridgeApiKey].
  split.
  - destruct (decide (viper.GetString cfg1 (environ w) "hue_bridge_api_key" = ""))
      as [Hk|Hk].
    + apply (stage_key_paired _ _ _ _ _ Hk) in H2
        as (_ & _ & res & st & Hrun & Hres).
      destruct res as [k|e]; [| done]. injection Hres as ->.
      rewrite GetString_Set_eq.
      unfold authenticateWithBridgeIp in Hrun.
      destruct (NewAuthenticator w _); [done |].
      by apply pollLoop_ok_nonempty in Hrun.
    + rewrite stage_key_keep in H2 by done. by injection H2 as <- <-.
  - apply stage_key_inv in H2 as (_ & -> & _).
    rewrite stage_address_run in H1.
    destruct (_ || _) eqn:Hd.
    + destruct (Discover w) as [md|e]; [| done]. injection H1 as <- <-.
      rewrite GetString_Set_eq. eauto.
    + injection H1 as <- <-. intros Hip. rewrite Hip in Hd.
      by rewrite bool_decide_eq_true_2 in Hd.
Qed.

(** X8.  When neither the environment nor the cache has a key, the key of
    a run that ends well is the one the waiter got, and the waiter was
    sent to the very address the run returns. *)
Theorem paired_with_returned_address fuel a b c p h auth p' :
  UserHomeDir w = Ok h ->
  env_then_cache w p c "hue_bridge_api_key" = "" ->
  GetAuthConfig w fuel a b c p = Some (Ok auth, p') ->
  exists tr0 st tr1,
    authenticateWithBridgeIp w fuel (BridgeIp auth) tr0
      = Some (Ok (BridgeApiKey auth), st, tr1) /\
    exists evs0 evs1,
      added p p' (evs0 ++ EvNewAuthenticator (BridgeIp auth) :: evs1) /\
      count is_new_authenticator evs0 = 0%nat /\
      count is_new_authenticator evs1 = 0%nat.
Proof.
  intros Hh Hkey H.
  destruct (run_parts fuel a b c p h _ p' Hh H) as (r1 & p1 & r2 & p2 & H1 & Hrest).
  destruct r1 as [cfg1|e1]; [| by destruct Hrest].
  destruct Hrest as [H2 Hrest].
  destruct r2 as [cfg2|e2]; [| by destruct Hrest].
  destruct Hrest as [[= ->] ->].
  pose proof (stage_address_inv w _ _ _ _ _ H1) as (_ & K1 & _).
  rewrite (GetString_loaded_key w p h c Hh), Hkey in K1.
  apply (stage_key_paired _ _ _ _ _ K1) in H2 as (_ & _ & res & st & Hrun & Hres).
  destruct res as [k|e]; [| done]. injection Hres as ->.
  unfold authConfigOf. cbn [BridgeIp BridgeApiKey].
  rewrite GetString_Set_eq, GetString_Set_ne by done.
  eexists _, st, _. split; [exact Hrun |].
  apply waiter_events in Hrun as (evs & Ht & Hevs).
  rewrite stage_address_run in H1.
  assert (exists evs1, trace p1 = (trace p ++ evs1)%list /\
                       count is_new_authenticator evs1 = 0%nat) as (evs1 & Ht1 & Hc1).
  { destruct (_ || _).
    - destruct (Discover w); [| done]. injection H1 as <- <-.
      eexists. cbn [trace emit afterLoad]. rewrite <- app_assoc.
      split; [done |]. by destruct c.
    - injection H1 as <- <-. eexists. split; [done |]. by destruct c. }
  exists (evs1 ++ [EvLog Warn msgPairing])%list,
         (evs ++ saveEvents w h c
                   (viper.Set_ cfg1 "hue_bridge_api_key" k) p2)%list.
  unfold added. cbn [trace afterSave]. rewrite Ht, Ht1, <- !app_assoc.
  split; [done |]. rewrite !count_app, Hc1, saveEvents_new_authenticator.
  split; [done |].
  rewrite (loop_events_count is_new_authenticator evs); [done | by intros [] | done].
Qed.

(** X9.  A run that ends with an error has attempted no write of the
    cache file and leaves the files as they were. *)
Theorem failed_run_caches_nothing fuel a b c p e p' :
  GetAuthConfig w fuel a b c p = Some (Err e, p') ->
  files p' = files p /\
  exists evs, added p p' evs /\ count is_write_config evs = 0%nat.
Proof.
  intros H. destruct (UserHomeDir w) as [h|err] eqn:Hh.
  - destruct (before_save w fuel a b c p h _ p' Hh H)
      as [(evs & Ha & Hf & Hfs & _) | (cfg & p2 & evs & _ & _ & _ & [=] & _)].
    split; [done |]. exists evs. split; [done |]. by apply count_none.
  - rewrite GetAuthConfig_stages, Hh in H. injection H as <- <-.
    split; [done |]. exists []. unfold added. by rewrite app_nil_r.
Qed.

(** *** What is written is what is read back *)

Lemma AllSettings_override cfg env key v :
  viper.override cfg !! key = Some v ->
  viper.AllSettings cfg env !! key = Some v.
Proof.
  intros H. unfold viper.AllSettings. rewrite map_lookup_imap.
  rewrite (lookup_union_Some_l _ _ _ v);
    [| by apply lookup_union_Some_l].
  cbn. unfold viper.find. by rewrite H.
Qed.

Lemma cached_absent p h key :
  UserHomeDir w = Ok h ->
  files p !! Join h cachePath = None ->
  cached w p true key = None.
Proof. intros Hh Hf. unfold cached. by rewrite Hh, Hf. Qed.

Lemma cached_present p h m key :
  UserHomeDir w = Ok h ->
  files p !! Join h cachePath = Some (Json m) ->
  cached w p true key = m !! key.
Proof. intros Hh Hf. unfold cached. by rewrite Hh, Hf. Qed.

(** X10.  The cache round trip.  In a fresh setting (nothing in the
    environment, no cache file yet, the file can be created) a run with
    the cache enabled that ends well writes the address and the key it
    returns to the cache file; every later run with the cache enabled and
    an address argument other than "discover" then returns the same two
    values, without discovery and without pairing. *)
Theorem cache_round_trip fuel a b p h auth p' :
  UserHomeDir w = Ok h ->
  viper.getEnv (environ w) "HUE_BRIDGE_IP" = None ->
  viper.getEnv (environ w) "HUE_BRIDGE_API_KEY" = None ->
  files p !! Join h cachePath = None ->
  createErr w = None ->
  GetAuthConfig w fuel a b true p = Some (Ok auth, p') ->
  BridgeIp auth <> "" ->
  (exists m,
     files p' !! Join h cachePath = Some (Json m) /\
     m !! "hue_bridge_ip" = Some (BridgeIp auth) /\
     m !! "hue_bridge_api_key" = Some (BridgeApiKey auth)) /\
  (forall fuel' a' b',
     a' <> "discover" ->
     exists p'' evs,
       GetAuthConfig w fuel' a' b' true p' = Some (Ok auth, p'') /\
       added p' p'' evs /\
       count is_discover evs = 0%nat /\
       count is_new_authenticator evs = 0%nat /\
       count is_authenticate evs = 0%nat).
Proof.
  intros Hh Eip Ekey Hnone Hcreate H Hip.
  assert (Cip : env_then_cache w p true "hue_bridge_ip" = "").
  { unfold env_then_cache. change (ToUpper "hue_bridge_ip") with "HUE_BRIDGE_IP".
    by rewrite Eip, (cached_absent p h _ Hh Hnone). }
  assert (Ckey : env_then_cache w p true "hue_bridge_api_key" = "").
  { unfold env_then_cache.
    change (ToUpper "hue_bridge_api_key") with "HUE_BRIDGE_API_KEY".
    by rewrite Ekey, (cached_absent p h _ Hh Hnone). }
  destruct (run_parts fuel a b true p h _ p' Hh H)
    as (r1 & p1 & r2 & p2 & H1 & Hrest).
  rewrite stage_address_run, (GetString_loaded_ip w p h true Hh), Cip in H1.
  rewrite bool_decide_eq_true_2 in H1 by done. cbn [orb] in H1.
  destruct (Discover w) as [md|e]; injection H1 as <- <-; [| by destruct Hrest].
  destruct Hrest as [H2 Hrest].
  assert (K1 : viper.GetString
                 (viper.Set_ (loaded (files p) h true) "hue_bridge_ip" (IpAddress md))
                 (environ w) "hue_bridge_api_key" = "").
  { rewrite GetString_Set_ne by done.
    by rewrite (GetString_loaded_key w p h true Hh). }
  apply (stage_key_paired _ _ _ _ _ K1) in H2 as (Hf2 & _ & res & st & Hrun & Hres).
  destruct res as [k|e]; subst r2; [| by destruct Hrest].
  destruct Hrest as [[= ->] ->].
  set (cfg2 := viper.Set_ (viper.Set_ (loaded (files p) h true) "hue_bridge_ip"
                             (IpAddress md)) "hue_bridge_api_key" k) in *.
  assert (Aip : BridgeIp (authConfigOf w cfg2) = IpAddress md).
  { unfold authConfigOf, cfg2. cbn [BridgeIp].
    rewrite GetString_Set_ne by done. apply GetString_Set_eq. }
  assert (Akey : BridgeApiKey (authConfigOf w cfg2) = k).
  { unfold authConfigOf, cfg2. cbn [BridgeApiKey]. apply GetString_Set_eq. }
  assert (Hfile : files (afterSave w h true cfg2 p2) !! Join h cachePath
                  = Some (Json (viper.AllSettings cfg2 (environ w)))).
  { cbn [files afterSave]. unfold viper.SafeWriteConfigAs.
    rewrite Hf2. cbn [files emit afterLoad]. rewrite Hnone, Hcreate. cbn [fst].
    apply lookup_insert_eq. }
  assert (Mip : viper.AllSettings cfg2 (environ w) !! "hue_bridge_ip"
                = Some (IpAddress md)).
  { apply AllSettings_override. unfold cfg2. cbn [viper.override viper.Set_].
    rewrite lookup_insert_ne by done. apply lookup_insert_eq. }
  assert (Mkey : viper.AllSettings cfg2 (environ w) !! "hue_bridge_api_key"
                 = Some k).
  { apply AllSettings_override. unfold cfg2. cbn [viper.override viper.Set_].
    apply lookup_insert_eq. }
  split.
  - eexists. split; [exact Hfile |]. by rewrite Aip, Akey.
  - intros fuel' a' b' Ha'.
    set (p1 := afterSave w h true cfg2 p2) in *.
    assert (Dip : env_then_cache w p1 true "hue_bridge_ip" = IpAddress md).
    { unfold env_then_cache. change (ToUpper "hue_bridge_ip") with "HUE_BRIDGE_IP".
      by rewrite Eip, (cached_present p1 h _ _ Hh Hfile), Mip. }
    assert (Dkey : env_then_cache w p1 true "hue_bridge_api_key" = k).
    { unfold env_then_cache.
      change (ToUpper "hue_bridge_api_key") with "HUE_BRIDGE_API_KEY".
      by rewrite Ekey, (cached_present p1 h _ _ Hh Hfile), Mkey. }
    rewrite Aip in Hip.
    assert (Hkey : k <> "").
    { unfold authenticateWithBridgeIp in Hrun.
      destruct (NewAuthenticator w _); [done |].
      by apply pollLoop_ok_nonempty in Hrun. }
    eexists _, _. split.
    + rewrite (GetAuthConfig_resolved w fuel' a' b' true p1 h); try done.
      * rewrite Dip, Dkey. do 2 f_equal. unfold authConfigOf.
        fold (BridgeIp (authConfigOf w cfg2)).
        by rewrite <- Aip, <- Akey.
      * by rewrite Dip.
      * by rewrite Dkey.
    + unfold added, afterSave at 1, saveEvents, viper.SafeWriteConfigAs.
      cbn [trace files afterLoad]. rewrite Hfile. cbn [snd].
      rewrite <- app_assoc. split; [reflexivity |]. done.
Qed.

End AcquireExtras.

Section AcquireExtraWitnesses.
Import config config_defs acquire_defs extra_defs.

Lemma explicit_values_are_not_read_witness :
  same_run
    (GetAuthConfig samples.pairingWorld 4 "192.168.1.10" "secret" true
       samples.freshProc)
    (GetAuthConfig samples.pairingWorld 4 "" "" true samples.freshProc).
Proof.
  apply (explicit_values_are_not_read samples.pairingWorld 4
           "192.168.1.10" "secret" "" "" true samples.freshProc).
  split; discriminate.
Defined.

Lemma discovery_runs_exactly_when_witness :
  exists r p',
    GetAuthConfig samples.pairingWorld 4 "discover" "" false
      (samples.procWithCache "10.0.0.7" "cached-key") = Some (r, p') /\
    exists evs,
      added (samples.procWithCache "10.0.0.7" "cached-key") p' evs /\
      count is_discover evs
        = (if discovers samples.pairingWorld
                (samples.procWithCache "10.0.0.7" "cached-key") "discover" false
           then 1 else 0)%nat /\
      (discovers samples.pairingWorld
         (samples.procWithCache "10.0.0.7" "cached-key") "discover" false = true ->
       forall auth, r = Ok auth ->
         exists md, Discover samples.pairingWorld = Ok md /\
                    BridgeIp auth = IpAddress md).
Proof.
  eexists _, _. split; [vm_compute; reflexivity |].
  eapply (discovery_runs_exactly_when samples.pairingWorld 4 "discover" "" false
            (samples.procWithCache "10.0.0.7" "cached-key") "/home/u").
  - reflexivity.
  - vm_compute. reflexivity.
Defined.

Lemma discovery_failure_aborts_witness :
  exists p' evs,
    GetAuthConfig samples.noBridgeWorld 0 "" "" true samples.freshProc
      = Some (Err (Wrapf "failed to discover Hue Bridge: "
                     (LibError "no bridge found")), p') /\
    files p' = files samples.freshProc /\ added samples.freshProc p' evs /\
    count is_discover evs = 1%nat /\
    count is_new_authenticator evs = 0%nat /\
    count is_write_config evs = 0%nat.
Proof.
  apply (discovery_failure_aborts samples.noBridgeWorld 0 "" "" true
           samples.freshProc "/home/u" (LibError "no bridge found"));
    reflexivity.
Defined.

Lemma returned_credentials_usable_witness :
  BridgeApiKey samples.paired <> "" /\
  (BridgeIp samples.paired = "" ->
   exists md, Discover samples.pairingWorld = Ok md /\ IpAddress md = "").
Proof.
  eapply (returned_credentials_usable samples.pairingWorld 4 "" "" false
            samples.freshProc samples.paired).
  vm_compute. reflexivity.
Defined.

Lemma paired_with_returned_address_witness :
  exists p',
    GetAuthConfig samples.pairingWorld 4 "" "" false samples.freshProc
      = Some (Ok samples.paired, p') /\
    exists tr0 st tr1,
      authenticateWithBridgeIp samples.pairingWorld 4 (BridgeIp samples.paired) tr0
        = Some (Ok (BridgeApiKey samples.paired), st, tr1) /\
      exists evs0 evs1,
        added samples.freshProc p'
          (evs0 ++ EvNewAuthenticator (BridgeIp samples.paired) :: evs1) /\
        count is_new_authenticator evs0 = 0%nat /\
        count is_new_authenticator evs1 = 0%nat.
Proof.
  eexists. split; [vm_compute; reflexivity |].
  eapply (paired_with_returned_address samples.pairingWorld 4 "" "" false
            samples.freshProc "/home/u" samples.paired).
  - reflexivity.
  - reflexivity.
  - vm_compute. reflexivity.
Defined.

Lemma failed_run_caches_nothing_witness :
  exists p',
    GetAuthConfig samples.noBridgeWorld 0 "discover" "" true samples.freshProc
      = Some (Err (Wrapf "failed to discover Hue Bridge: "
                     (LibError "no bridge found")), p') /\
    files p' = files samples.freshProc /\
    exists evs, added samples.freshProc p' evs /\
                count is_write_config evs = 0%nat.
Proof.
  eexists. split; [vm_compute; reflexivity |].
  eapply (failed_run_caches_nothing samples.noBridgeWorld 0 "discover" "" true
            samples.freshProc).
  vm_compute. reflexivity.
Defined.

Lemma cache_round_trip_witness :
  exists p' p'' evs,
    GetAuthConfig samples.pairingWorld 4 "discover" "" true samples.freshProc
      = Some (Ok samples.paired, p') /\
    GetAuthConfig samples.pairingWorld 0 "" "" true p'
      = Some (Ok samples.paired, p'') /\
    added p' p'' evs /\
    count is_discover evs = 0%nat /\
    count is_new_authenticator evs = 0%nat /\
    count is_authenticate evs = 0%nat.
Proof.
  assert (exists p', GetAuthConfig samples.pairingWorld 4 "discover" "" true
                       samples.freshProc = Some (Ok samples.paired, p'))
    as [p' Hrun] by (eexists; vm_compute; reflexivity).
  destruct (proj2 (cache_round_trip samples.pairingWorld 4 "discover" ""
                     samples.freshProc "/home/u" samples.paired p'
                     eq_refl eq_refl eq_refl eq_refl eq_refl Hrun
                     ltac:(discriminate))
              0%nat "" "" ltac:(discriminate))
    as (p'' & evs & H).
  exists p', p'', evs. split; [exact Hrun | exact H].
Defined.

End AcquireExtraWitnesses.

(** ** The provider *)

Section ProviderExtras.
Import config config_defs acquire_defs extra_defs.
Context {printTables : strconv.PrintTables}.
Variable w : World.

(** What a run of [GetAuthConfig] does to the default transport: nothing,
    unless it starts the waiter. *)
Lemma GetAuthConfig_transport fuel a b c p r p' :
  GetAuthConfig w fuel a b c p = Some (r, p') ->
  exists evs,
    added p p' evs /\
    DefaultTransport_InsecureSkipVerify p'
    = match count is_new_authenticator evs with
      | O => DefaultTransport_InsecureSkipVerify p
      | S _ => true
      end.
Proof.
  intros H. unfold added.
  destruct (UserHomeDir w) as [h|e] eqn:Hh.
  2: { rewrite GetAuthConfig_stages, Hh in H. injection H as <- <-.
       exists []. by rewrite app_nil_r. }
  destruct (run_parts w fuel a b c p h r p' Hh H) as (r1 & p1 & r2 & p2 & H1 & Hrest).
  assert (exists evs1,
             trace p1 = (trace p ++ evs1)%list /\
             count is_new_authenticator evs1 = 0%nat /\
             DefaultTransport_InsecureSkipVerify p1
             = DefaultTransport_InsecureSkipVerify p) as (evs1 & Ht1 & Hc1 & Hf1).
  { rewrite stage_address_run in H1. destruct (_ || _).
    - destruct (Discover w); injection H1 as <- <-; eexists;
        cbn [trace emit afterLoad DefaultTransport_InsecureSkipVerify];
        rewrite <- app_assoc; (split; [done |]); by destruct c.
    - injection H1 as <- <-. eexists. split; [done |]. by destruct c. }
  destruct r1 as [cfg1|e1].
  2: { destruct Hrest as [_ ->]. exists evs1. by rewrite Hc1. }
  destruct Hrest as [H2 Hrest].
  assert (exists evs2,
             trace p2 = (trace p ++ evs2)%list /\
             DefaultTransport_InsecureSkipVerify p2
             = match count is_new_authenticator evs2 with
               | O => DefaultTransport_InsecureSkipVerify p
               | S _ => true
               end) as (evs2 & Ht2 & Hf2).
  { destruct (decide (viper.GetString cfg1 (environ w) "hue_bridge_api_key" = ""))
      as [Hk|Hk].
    - apply (stage_key_paired _ _ _ _ _ _ Hk) in H2 as (_ & T & res & st & Hrun & _).
      apply waiter_events in Hrun as (evs & Ht & _).
      exists (evs1 ++ EvLog Warn msgPairing
                :: EvNewAuthenticator
                     (viper.GetString cfg1 (environ w) "hue_bridge_ip") :: evs)%list.
      rewrite Ht, Ht1, <- !app_assoc. split; [done |].
      rewrite count_app, Hc1. done.
    - rewrite stage_key_keep in H2 by done. injection H2 as <- <-.
      exists evs1. by rewrite Hc1. }
  destruct r2 as [cfg2|e2]; destruct Hrest as [_ ->]; [| by exists evs2].
  exists (evs2 ++ saveEvents w h c cfg2 p2)%list.
  cbn [trace afterSave DefaultTransport_InsecureSkipVerify].
  rewrite Ht2, <- app_assoc. split; [done |].
  by rewrite count_app, saveEvents_new_authenticator, Nat.add_0_r.
Qed.

Lemma HasError_AddError summary detail d :
  HasError (AddError summary detail d) = true.
Proof.
  unfold HasError, AddError. rewrite existsb_app. cbn. apply orb_true_r.
Qed.

(** X11.  A [Configure] that hands over no client has reported an error.
    It has left the default transport as it was if it did not get as far
    as the pairing waiter; if it did, creating the authenticator has
    switched certificate checks off, and they stay off although nothing
    was configured. *)
Theorem configure_failure_and_transport fuel req p resp p' :
  provider.Configure w fuel req p = Some (resp, p') ->
  provider.ResourceData resp = None ->
  (provider.DataSourceData resp = None /\
   provider.EphemeralResourceData resp = None /\
   HasError (provider.Diags resp) = true) /\
  exists evs,
    added p p' evs /\
    DefaultTransport_InsecureSkipVerify p'
    = match count is_new_authenticator evs with
      | O => DefaultTransport_InsecureSkipVerify p
      | S _ => true
      end.
Proof.
  unfold provider.Configure, provider.NewClientWithResponses.
  destruct (GetAuthConfig _ _ _ _ _ _) as [[r p1]|] eqn:E; [| done].
  apply GetAuthConfig_transport in E as (evs & Ha & Hf).
  unfold added in *.
  assert (Hevs : forall msg,
             trace (emit [EvLog Info msg] p1) = (trace p ++ evs ++ [EvLog Info msg])%list /\
             count is_new_authenticator (evs ++ [EvLog Info msg])
             = count is_new_authenticator evs).
  { intros msg. cbn [trace emit]. rewrite Ha, <- app_assoc. split; [done |].
    rewrite count_app. cbn. lia. }
  destruct r as [auth|e].
  - destruct (NewClientErr w); [| by intros [= <- <-] [=]].
    intros [= <- <-] _. cbn [provider.failed provider.DataSourceData
                              provider.EphemeralResourceData provider.Diags].
    rewrite HasError_AddError. split; [done |].
    eexists. destruct (Hevs ("Configuring provider with bridge_ip: "
                             ++ types.String (provider.BridgeIp
                                                (provider.Config_model req))))
      as [Ht Hc].
    split; [exact Ht |]. by rewrite Hc.
  - intros [= <- <-] _. cbn [provider.failed provider.DataSourceData
                              provider.EphemeralResourceData provider.Diags].
    rewrite HasError_AddError. split; [done |].
    eexists. destruct (Hevs ("Configuring provider with bridge_ip: "
                             ++ types.String (provider.BridgeIp
                                                (provider.Config_model req))))
      as [Ht Hc].
    split; [exact Ht |]. by rewrite Hc.
Qed.

End ProviderExtras.

Section ProviderExtraWitnesses.
#[local] Existing Instance samples.printTables.

(** No bridge is found: the transport stays as it was.  A bridge is found
    but the caller's context is done before the first tick: the waiter
    gives up, and certificate checks are off all the same. *)
Lemma configure_failure_and_transport_witness :
  (exists resp p',
     provider.Configure samples.noBridgeWorld 0
       (samples.request types.StringNull types.StringNull true)
       samples.freshProc = Some (resp, p') /\
     HasError (provider.Diags resp) = true /\
     DefaultTransport_InsecureSkipVerify p' = false) /\
  (exists resp p',
     provider.Configure samples.cancelledWorld 1
       (samples.request types.StringNull types.StringNull true)
       samples.freshProc = Some (resp, p') /\
     HasError (provider.Diags resp) = true /\
     DefaultTransport_InsecureSkipVerify p' = true).
Proof.
  split.
  - eexists _, _. split; [vm_compute; reflexivity |].
    edestruct (configure_failure_and_transport samples.noBridgeWorld 0
                 (samples.request types.StringNull types.StringNull true)
                 samples.freshProc)
      as ((_ & _ & Hd) & evs & Ha & Hf);
      [vm_compute; reflexivity | reflexivity |].
    split; [exact Hd | reflexivity].
  - eexists _, _. split; [vm_compute; reflexivity |].
    edestruct (configure_failure_and_transport samples.cancelledWorld 1
                 (samples.request types.StringNull types.StringNull true)
                 samples.freshProc)
      as ((_ & _ & Hd) & evs & Ha & Hf);
      [vm_compute; reflexivity | reflexivity |].
    split; [exact Hd | reflexivity].
Defined.

End ProviderExtraWitnesses.

(** ** Rooms *)

Section RoomExtras.
Import resources room_defs room_extra_defs.
Context {printTables : strconv.PrintTables}.

Lemma archetype_lookup a v :
  stringToRoomArchetype !! a = Some v -> v = a /\ a ∈ recognised.
Proof.
  intros H. apply elem_of_list_to_map_2 in H.
  unfold recognised.
  repeat (apply elem_of_cons in H as [[= -> ->] | H];
          [split; [done | set_solver] |]).
  by apply elem_of_nil in H.
Qed.

Lemma payload_of_ok (model : RoomResourceModel) put :
  buildRoomPutPayload model = Ok put ->
  openhue.Metadata put =
    Some {| openhue.Archetype := Some (types.ValueString (Archetype model));
            openhue.Name := types.ValueStringPointer (Name model) |} /\
  openhue.Children put =
    Some (List.map (fun lightId =>
                      {| openhue.Rid := Some (types.ValueString lightId);
                         openhue.Rtype := Some "device" |})
                   (types.Elements (LightIds model))).
Proof.
  unfold buildRoomPutPayload, mapStringToRoomArchetype.
  destruct (stringToRoomArchetype !! _) as [v|] eqn:E; [| done].
  apply archetype_lookup in E as [-> Hin]. cbn. by intros [= <-].
Qed.

(** X12.  [buildRoomPutPayload] succeeds exactly for the six archetype
    names.  What it builds then carries the archetype string as it is and
    the name, and one child of type "device" for each light id, in the
    order of the model. *)
Theorem room_payload_shape (model : RoomResourceModel) :
  ((exists put, buildRoomPutPayload model = Ok put)
   <-> types.ValueString (Archetype model) ∈ recognised) /\
  (forall put,
     buildRoomPutPayload model = Ok put ->
     openhue.Metadata put =
       Some {| openhue.Archetype := Some (types.ValueString (Archetype model));
               openhue.Name := types.ValueStringPointer (Name model) |} /\
     openhue.Children put =
       Some (List.map (fun lightId =>
                         {| openhue.Rid := Some (types.ValueString lightId);
                            openhue.Rtype := Some "device" |})
                      (types.Elements (LightIds model)))).
Proof.
  split; [| apply payload_of_ok].
  unfold buildRoomPutPayload, mapStringToRoomArchetype.
  destruct (stringToRoomArchetype !! _) as [v|] eqn:E.
  - apply archetype_lookup in E as [-> Hin]. cbn. split; [done | eauto].
  - split; [by intros [put [=]] |].
    intros Hin. apply recognised_maps in Hin.
    unfold mapStringToRoomArchetype in Hin. rewrite E in Hin. discriminate Hin.
Qed.

Lemma childRids_map ids :
  room.childRids
    (List.map (fun lightId =>
                 {| openhue.Rid := Some (types.ValueString lightId);
                    openhue.Rtype := Some "device" |})
              (List.map types.StringValue ids))
  = Some ids.
Proof. induction ids as [|i ids IH]; [done |]. cbn. by rewrite IH. Qed.

(** X13.  Round trip of a room.  For a model with known values, what
    [buildRoomPutPayload] builds, echoed by the bridge under an id, is
    mapped back by [mapRoomResponseToModel] to the same name and
    archetype, with that id, and, if the room has lights, to the same
    lights.  A room without lights comes back with the null list: a null
    list makes the round trip, a known empty list does not. *)
Theorem room_round_trip name id0 id archetype lightIds put put' :
  buildRoomPutPayload (knownRoom name id0 archetype lightIds) = Ok put ->
  buildRoomPutPayload (roomWith name id0 archetype types.ListNull) = Ok put' ->
  room.mapRoomResponseToModel (echo id put)
  = Returned (Ok match lightIds with
                 | [] => roomWith name id archetype types.ListNull
                 | _ :: _ => knownRoom name id archetype lightIds
                 end) /\
  room.mapRoomResponseToModel (echo id put')
  = Returned (Ok (roomWith name id archetype types.ListNull)) /\
  roomWith name id archetype types.ListNull <> knownRoom name id archetype [].
Proof.
  intros H H'.
  destruct (payload_of_ok _ put H) as [Hm Hc].
  destruct (payload_of_ok _ put' H') as [Hm' Hc'].
  unfold room.mapRoomResponseToModel, echo.
  cbn [api.RoomChildren api.RoomMetadata api.RoomId].
  rewrite Hc, Hm, Hc', Hm'.
  cbn [knownRoom roomWith LightIds Name Archetype types.Elements].
  rewrite childRids_map. split; [by destruct lightIds |]. done.
Qed.

Lemma HasError_addError {S} summary detail (resp : framework.Response S) :
  HasError (framework.Diags (framework.addError summary detail resp)) = true.
Proof. apply HasError_AddError. Qed.

(** X14.  No room operation contacts the bridge more than once, and none
    contacts it at all when the resource has no client or decoding the
    plan or the state has reported an error: it then returns with an error
    in the diagnostics and the state as it was. *)
Theorem room_ops_contact_bridge_at_most_once
    (bridge : api.RoomApi) create (r : Room)
    (req : room.Req) (resp : room.Resp) (creq : CreateRequest)
    (cresp : CreateResponse) :
  ((count_rest (snd (Create create r creq cresp)) <= 1)%nat /\
   (List.length (calls (snd (room.Read bridge r req resp))) <= 1)%nat /\
   (List.length (calls (snd (room.Update bridge r req resp))) <= 1)%nat /\
   (List.length (calls (snd (room.Delete bridge r req resp))) <= 1)%nat) /\
  ((client r = None \/ HasError (Diags cresp ++ Plan_diags creq)%list = true) ->
   count_rest (snd (Create create r creq cresp)) = 0%nat /\
   exists out, fst (Create create r creq cresp) = Returned out /\
               State out = State cresp /\ HasError (Diags out) = true) /\
  ((client r = None
    \/ HasError (framework.Diags resp ++ framework.diags req)%list = true) ->
   (calls (snd (room.Read bridge r req resp)) = [] /\
    exists out, fst (room.Read bridge r req resp) = Returned out /\
                framework.State out = framework.State resp /\
                HasError (framework.Diags out) = true) /\
   (calls (snd (room.Update bridge r req resp)) = [] /\
    exists out, fst (room.Update bridge r req resp) = Returned out /\
                framework.State out = framework.State resp /\
                HasError (framework.Diags out) = true) /\
   (calls (snd (room.Delete bridge r req resp)) = [] /\
    exists out, fst (room.Delete bridge r req resp) = Returned out /\
                framework.State out = framework.State resp /\
                HasError (framework.Diags out) = true)).
Proof.
  split; [| split].
  - unfold Create, room.Read, room.Update, room.Delete.
    repeat split; split_cases; cbn; lia.
  - unfold Create. intros [Hc | Hd].
    + rewrite Hc. cbn. split; [done |]. eexists. split; [done |].
      split; [done | apply HasError_AddError].
    + destruct (client r).
      * cbn [Diags]. rewrite Hd. cbn. split; [done |]. eexists. by repeat split.
      * cbn. split; [done |]. eexists. split; [done |].
        split; [done | apply HasError_AddError].
  - unfold room.Read, room.Update, room.Delete. intros [Hc | Hd].
    + rewrite Hc. cbn.
      repeat split; try done; eexists; (split; [done |]);
        (split; [done | apply HasError_AddError]).
    + destruct (client r).
      * unfold framework.append. cbn [framework.Diags]. rewrite Hd. cbn.
        repeat split; try done; eexists; by repeat split.
      * cbn. repeat split; try done; eexists; (split; [done |]);
          (split; [done | apply HasError_AddError]).
Qed.

Lemma status_is (code expected : N) :
  negb (code =? expected) = false -> code = expected.
Proof. intros H. apply negb_false_iff in H. by apply N.eqb_eq. Qed.

(** X15.  A room operation that returns without an error in the
    diagnostics has had the bridge's confirmation: status 201 with a body
    and at least one entry for [Create], 200 with at least one entry for
    [Read] and [Update], 200 for [Delete].  The state it leaves is the plan
    with the id of the first entry ([Create]), the first entry mapped to a
    model ([Read]), the plan ([Update]), or the state as it was
    ([Delete]). *)
Theorem room_success_means_confirmed
    (bridge : api.RoomApi) create (r : Room)
    (req : room.Req) (resp : room.Resp) (creq : CreateRequest)
    (cresp : CreateResponse) :
  (forall out,
     fst (Create create r creq cresp) = Returned out ->
     HasError (Diags out) = false ->
     exists put apiResp body first rest,
       buildRoomPutPayload (Plan_model creq) = Ok put /\
       create put = Ok apiResp /\
       openhue.StatusCode apiResp = 201 /\
       openhue.Body apiResp = Some body /\
       openhue.JSON200_Data apiResp = Some (first :: rest) /\
       State out =
         Some {| Name := Name (Plan_model creq);
                 Id := types.StringPointerValue (openhue.Rid first);
                 LightIds := LightIds (Plan_model creq);
                 Archetype := Archetype (Plan_model creq) |}) /\
  (forall out,
     fst (room.Read bridge r req resp) = Returned out ->
     HasError (framework.Diags out) = false ->
     exists apiResp first rest model,
       api.GetRoomWithResponse bridge
         (types.ValueString (Id (framework.model req))) = Ok apiResp /\
       api.StatusCode apiResp = 200 /\
       api.JSON200 apiResp = Some (Some (first :: rest)) /\
       room.mapRoomResponseToModel first = Returned (Ok model) /\
       framework.State out = Some model) /\
  (forall out,
     fst (room.Update bridge r req resp) = Returned out ->
     HasError (framework.Diags out) = false ->
     exists put apiResp first rest,
       api.UpdateRoomWithResponse bridge
         (types.ValueString (Id (framework.model req))) put = Ok apiResp /\
       api.StatusCode apiResp = 200 /\
       api.JSON200 apiResp = Some (Some (first :: rest)) /\
       framework.State out = Some (framework.model req)) /\
  (forall out,
     fst (room.Delete bridge r req resp) = Returned out ->
     HasError (framework.Diags out) = false ->
     exists apiResp,
       api.DeleteRoomWithResponse bridge
         (types.ValueString (Id (framework.model req))) = Ok apiResp /\
       api.StatusCode apiResp = 200 /\
       framework.State out = framework.State resp).
Proof.
  repeat split; intros out H Hno.
  - unfold Create in H.
    repeat case_match; simplify_eq/=;
      try (by rewrite HasError_AddError in Hno);
      try congruence.
    match goal with Hs : negb _ = false |- _ => apply status_is in Hs end.
    eauto 12.
  - unfold room.Read in H.
    repeat case_match; simplify_eq/=;
      try (by rewrite HasError_AddError in Hno);
      try congruence.
    match goal with Hs : negb _ = false |- _ => apply status_is in Hs end.
    eauto 12.
  - unfold room.Update in H.
    repeat case_match; simplify_eq/=;
      try (by rewrite HasError_AddError in Hno);
      try congruence;
      match goal with Hs : negb _ = false |- _ => apply status_is in Hs end;
      eauto 12.
  - unfold room.Delete in H.
    repeat case_match; simplify_eq/=;
      try (by rewrite HasError_AddError in Hno);
      try congruence.
    match goal with Hs : negb _ = false |- _ => apply status_is in Hs end.
    eauto 12.
Qed.

(** X16.  [Room.Update] does not check the archetype: the error of
    [buildRoomPutPayload] is dropped, and for an unrecognised archetype the
    request goes out with the empty payload.  When the bridge accepts it,
    the plan is recorded as the state and no error is reported. *)
Theorem room_update_skips_archetype_check
    (bridge : api.RoomApi) (r : Room) (req : room.Req) (resp : room.Resp)
    cl apiResp first rest :
  client r = Some cl ->
  HasError (framework.Diags resp ++ framework.diags req)%list = false ->
  types.ValueString (Archetype (framework.model req)) ∉ recognised ->
  api.UpdateRoomWithResponse bridge
    (types.ValueString (Id (framework.model req))) room.zeroRoomPut = Ok apiResp ->
  api.StatusCode apiResp = 200 ->
  api.JSON200 apiResp = Some (Some (first :: rest)) ->
  room.Update bridge r req resp =
    (Returned (framework.setState (framework.model req)
                 (framework.append (framework.diags req) resp)),
     [OpLog ("Updating room " ++ types.ValueString (Id (framework.model req)));
      OpCall (api.UpdateRoom (types.ValueString (Id (framework.model req)))
                room.zeroRoomPut)]).
Proof.
  intros Hc Hd Hbad Hcall Hs Hj. unfold room.Update. rewrite Hc.
  cbn [framework.Diags framework.append]. rewrite Hd.
  assert (Hb : exists e, buildRoomPutPayload (framework.model req) = Err e).
  { unfold buildRoomPutPayload, mapStringToRoomArchetype.
    rewrite (unrecognised_lookup _ Hbad). cbn. eauto. }
  destruct Hb as [e ->]. rewrite Hcall, Hs, Hj. reflexivity.
Qed.

Lemma configure_keeps r d :
  is_Some (client r) -> is_Some (client (fst (room.Configure r d []))).
Proof. intros H. destruct d as [[c|t]|]; cbn; eauto. Qed.

(** X17.  [Room.Configure] may be called any number of times: a call with
    a client installs it, and no call, with or without provider data,
    takes a client away. *)
Theorem room_configure_never_clears (r : Room)
    (ds : list (option framework.ProviderData)) c :
  (is_Some (client r) -> is_Some (client (configureAll r ds))) /\
  client (configureAll r (ds ++ [Some (framework.IsClient c)])) = Some c /\
  client (configureAll r (ds ++ [None])) = client (configureAll r ds) /\
  (forall t,
     client (configureAll r (ds ++ [Some (framework.IsOther t)]))
     = client (configureAll r ds)).
Proof.
  unfold configureAll. split;
    [| split; [| split; [| intros t]]; rewrite fold_left_app; reflexivity].
  revert r. induction ds as [|d ds IH]; intros r H; [done |].
  cbn [fold_left]. apply IH. by apply configure_keeps.
Qed.

End RoomExtras.

Section RoomExtraWitnesses.
Import resources room_defs room_extra_defs.
#[local] Existing Instance samples.printTables.

Lemma room_payload_shape_witness :
  exists put, buildRoomPutPayload (samples.room "office") = Ok put.
Proof.
  apply (proj2 (proj1 (room_payload_shape (samples.room "office")))).
  vm_compute. set_solver.
Defined.

Lemma room_round_trip_witness :
  room.mapRoomResponseToModel
    (echo "room-1"
       {| openhue.Children :=
            Some [ {| openhue.Rid := Some "light-1";
                      openhue.Rtype := Some "device" |} ];
          openhue.Metadata :=
            Some {| openhue.Archetype := Some "office";
                    openhue.Name := Some "Study" |} |})
  = Returned (Ok (knownRoom "Study" "room-1" "office" ["light-1"])) /\
  room.mapRoomResponseToModel
    (echo "room-1"
       {| openhue.Children := Some [];
          openhue.Metadata :=
            Some {| openhue.Archetype := Some "office";
                    openhue.Name := Some "Study" |} |})
  = Returned (Ok (roomWith "Study" "room-1" "office" types.ListNull)).
Proof.
  edestruct (room_round_trip "Study" "" "room-1" "office" ["light-1"])
    as (H1 & H2 & _); [vm_compute; reflexivity | vm_compute; reflexivity |].
  split; [exact H1 | exact H2].
Defined.

Lemma room_ops_contact_bridge_at_most_once_witness :
  calls (snd (room.Delete samples.roomBridge (mkRoom None)
                (framework.mkRequest (samples.room "office") [])
                (framework.mkResponse [] None))) = [].
Proof.
  exact (proj1 (proj2 (proj2 (proj2 (proj2
           (room_ops_contact_bridge_at_most_once samples.roomBridge
              samples.created (mkRoom None)
              (framework.mkRequest (samples.room "office") [])
              (framework.mkResponse [] None)
              (mkCreateRequest (samples.room "office") [])
              (mkCreateResponse [] None)))
           (or_introl eq_refl))))).
Defined.

Lemma room_success_means_confirmed_witness :
  exists apiResp,
    api.DeleteRoomWithResponse samples.roomBridge
      (types.ValueString (Id (samples.room "office"))) = Ok apiResp /\
    api.StatusCode apiResp = 200 /\
    framework.State (framework.mkResponse (S := RoomResourceModel) [] None) = None.
Proof.
  apply (proj2 (proj2 (proj2
           (room_success_means_confirmed samples.roomBridge samples.created
              (mkRoom (Some samples.someClient))
              (framework.mkRequest (samples.room "office") [])
              (framework.mkResponse [] None)
              (mkCreateRequest (samples.room "office") [])
              (mkCreateResponse [] None))))
           (framework.mkResponse [] None)); reflexivity.
Defined.

Lemma room_update_skips_archetype_check_witness :
  room.Update samples.roomBridge (mkRoom (Some samples.someClient))
    (framework.mkRequest (samples.room "attic") [])
    (framework.mkResponse [] None)
  = (Returned (framework.mkResponse [] (Some (samples.room "attic"))),
     [OpLog "Updating room ";
      OpCall (api.UpdateRoom "" room.zeroRoomPut)]).
Proof.
  apply (room_update_skips_archetype_check samples.roomBridge
           (mkRoom (Some samples.someClient))
           (framework.mkRequest (samples.room "attic") [])
           (framework.mkResponse [] None)
           samples.someClient
           (api.mkParsed 200 "200 OK" "{}"
              (Some (Some [ {| openhue.Rid := Some "room-1";
                               openhue.Rtype := Some "room" |} ])))
           {| openhue.Rid := Some "room-1"; openhue.Rtype := Some "room" |} []);
    try reflexivity.
  vm_compute. intros H.
  repeat (inversion H as [|? ? ? H']; subst; clear H; rename H' into H).
Defined.

Lemma room_configure_never_clears_witness :
  is_Some (client (configureAll (mkRoom (Some samples.someClient))
                     [None; Some (framework.IsOther "string"); None])).
Proof.
  apply (proj1 (room_configure_never_clears (mkRoom (Some samples.someClient))
                  [None; Some (framework.IsOther "string"); None]
                  samples.someClient)).
  eexists. reflexivity.
Defined.

End RoomExtraWitnesses.

(** ** Lights *)

Section LightExtras.
Context {printTables : strconv.PrintTables}.
Variable float32 : Type.
Variable zero : float32.

Lemma findLight_first name pre target post :
  Forall (fun l => exists n, light.nameOf float32 l = Some n /\ n <> name) pre ->
  light.nameOf float32 target = Some name ->
  light.findLight float32 name (pre ++ target :: post) = resources.Returned (Some target).
Proof.
  intros Hpre Ht. induction Hpre as [|l pre (n & Hn & Hne) _ IH]; cbn.
  - rewrite Ht. by destruct (decide (name = name)).
  - rewrite Hn. by destruct (decide (n = name)).
Qed.

Lemma findLight_none name lights names :
  light.lampNames float32 lights = Some names ->
  name ∉ names ->
  light.findLight float32 name lights = resources.Returned None.
Proof.
  revert names. induction lights as [|l lights IH]; intros names; cbn; [done |].
  destruct (light.nameOf float32 l) as [n|]; [| done].
  destruct (light.lampNames float32 lights) as [ns|]; [| done].
  intros [= <-] Hnot. apply not_elem_of_cons in Hnot as [Hne Hnot].
  destruct (decide (n = name)); [congruence |]. by apply (IH ns).
Qed.

(** X18.  [Light.Create] adopts the first light of the configured name
    among those the bridge lists: the one update it sends goes to that
    light's id, and when it returns without an error the state is the plan
    with that id. *)
Theorem light_create_adopts_first_match
    (bridge : api.LightApi float32) (r : light.Light)
    (req : light.Req float32) (resp : light.Resp float32)
    cl parsed pre target post :
  light.client r = Some cl ->
  HasError (framework.Diags resp ++ framework.diags req)%list = false ->
  api.GetLightsWithResponse bridge = Ok parsed ->
  api.StatusCode parsed = 200 ->
  api.JSON200 parsed = Some (Some (pre ++ target :: post)%list) ->
  Forall (fun l => exists n, light.nameOf float32 l = Some n /\
                   n <> types.ValueString (light.Name float32 (framework.model req)))
         pre ->
  light.nameOf float32 target
    = Some (types.ValueString (light.Name float32 (framework.model req))) ->
  exists payload,
    light.lightModelToPayload float32 zero (framework.model req) = Some payload /\
    calls (snd (light.Create float32 zero bridge r req resp))
    = [api.GetLights;
       api.UpdateLight
         (types.ValueString (types.StringPointerValue (api.LightId target)))
         payload] /\
    forall out,
      fst (light.Create float32 zero bridge r req resp) = resources.Returned out ->
      HasError (framework.Diags out) = false ->
      framework.State out =
        Some {| light.Name := light.Name float32 (framework.model req);
                light.Id := types.StringPointerValue (api.LightId target);
                light.On := light.On float32 (framework.model req);
                light.Brightness := light.Brightness float32 (framework.model req);
                light.Color := light.Color float32 (framework.model req) |}.
Proof.
  intros Hc Hd Hget Hs Hj Hpre Ht. eexists. split; [reflexivity |].
  unfold light.Create. rewrite Hc. cbn [framework.Diags framework.append].
  rewrite Hd, Hget, Hs, Hj. cbn [N.eqb Pos.eqb negb api.StatusOK].
  rewrite (findLight_first _ _ _ _ Hpre Ht).
  cbn [light.lightModelToPayload light.Id].
  destruct (api.UpdateLightWithResponse bridge _ _) as [updateResp|e].
  - destruct (negb _ && negb _).
    + split; [done |]. intros out [= <-] Hno.
      by rewrite HasError_addError in Hno.
    + destruct (api.JSON200 updateResp) as [[[|first rest]|]|].
      * split; [done |]. intros out [= <-] Hno.
        by rewrite HasError_addError in Hno.
      * split; [done |]. by intros out [= <-] _.
      * split; [done |]. by intros out [=].
      * split; [done |]. intros out [= <-] Hno.
        by rewrite HasError_addError in Hno.
  - split; [done |]. intros out [= <-] Hno.
    by rewrite HasError_addError in Hno.
Qed.

(** X19.  When no light the bridge lists has the configured name,
    [Light.Create] sends no update: it reports the name it looked for and
    the names there are, and leaves the state as it was. *)
Theorem light_create_not_found
    (bridge : api.LightApi float32) (r : light.Light)
    (req : light.Req float32) (resp : light.Resp float32)
    cl parsed lights names :
  light.client r = Some cl ->
  HasError (framework.Diags resp ++ framework.diags req)%list = false ->
  api.GetLightsWithResponse bridge = Ok parsed ->
  api.StatusCode parsed = 200 ->
  api.JSON200 parsed = Some (Some lights) ->
  light.lampNames float32 lights = Some names ->
  types.ValueString (light.Name float32 (framework.model req)) ∉ names ->
  light.Create float32 zero bridge r req resp =
    (resources.Returned
       (framework.addError "failed to find light"
          (light.notFound (light.Name float32 (framework.model req)) names)
          (framework.append (framework.diags req) resp)),
     [OpCall api.GetLights]).
Proof.
  intros Hc Hd Hget Hs Hj Hnames Hnot.
  unfold light.Create. rewrite Hc. cbn [framework.Diags framework.append].
  rewrite Hd, Hget, Hs, Hj. cbn [N.eqb Pos.eqb negb api.StatusOK].
  by rewrite (findLight_none _ _ _ Hnames Hnot), Hnames.
Qed.

(** X20.  A [Light.Read] that returns without an error has had status
    200 and at least one entry from the bridge, and the state it leaves is
    made of the first entry: its name, its id, its on state and its
    brightness, together with the color the call was made with, whatever
    the bridge reports. *)
Theorem light_read_keeps_color
    (bridge : api.LightApi float32) (r : light.Light)
    (req : light.Req float32) (resp : light.Resp float32) out :
  fst (light.Read float32 bridge r req resp) = resources.Returned out ->
  HasError (framework.Diags out) = false ->
  exists apiResp first rest metadata on dimming,
    api.GetLightWithResponse bridge
      (types.ValueString (light.Id float32 (framework.model req))) = Ok apiResp /\
    api.StatusCode apiResp = 200 /\
    api.JSON200 apiResp = Some (Some (first :: rest)) /\
    api.LightMeta first = Some metadata /\
    api.LightOn first = Some on /\
    api.LightDimming first = Some dimming /\
    framework.State out =
      Some {| light.Name := types.StringPointerValue (api.LightName metadata);
              light.Id := types.StringPointerValue (api.LightId first);
              light.On := framework.BoolPointerValue (api.On_On on);
              light.Brightness :=
                framework.Float32PointerValue (api.Brightness dimming);
              light.Color := light.Color float32 (framework.model req) |}.
Proof.
  intros H Hno. unfold light.Read in H.
  repeat case_match; simplify_eq/=;
    try (by rewrite HasError_AddError in Hno); try congruence.
  match goal with Hs : negb _ = false |- _ => apply status_is in Hs end.
  match goal with
  | Hm : light.mapLightStateToModel _ _ _ = resources.Returned ?s |- _ =>
    unfold light.mapLightStateToModel in Hm;
    repeat case_match; simplify_eq/=
  end.
  eexists _, _, _, _, _, _. repeat split; eauto.
Qed.

(** X21.  [Light.Create] lists the lights and then sends at most one
    update; [Read] and [Update] make at most one call; [Delete] makes none
    and changes nothing.  When the resource has no client or decoding has
    reported an error, none of them contacts the bridge: they return with
    an error in the diagnostics and the state as it was. *)
Theorem light_ops_contact_bridge
    (bridge : api.LightApi float32) (r : light.Light)
    (req : light.Req float32) (resp : light.Resp float32) :
  ((calls (snd (light.Create float32 zero bridge r req resp)) = []
    \/ calls (snd (light.Create float32 zero bridge r req resp)) = [api.GetLights]
    \/ exists id body,
         calls (snd (light.Create float32 zero bridge r req resp))
         = [api.GetLights; api.UpdateLight id body]) /\
   (List.length (calls (snd (light.Read float32 bridge r req resp))) <= 1)%nat /\
   (List.length (calls (snd (light.Update float32 zero bridge r req resp))) <= 1)%nat /\
   light.Delete float32 bridge r req resp = (resources.Returned resp, [])) /\
  ((light.client r = None
    \/ HasError (framework.Diags resp ++ framework.diags req)%list = true) ->
   (calls (snd (light.Create float32 zero bridge r req resp)) = [] /\
    exists out,
      fst (light.Create float32 zero bridge r req resp) = resources.Returned out /\
      framework.State out = framework.State resp /\
      HasError (framework.Diags out) = true) /\
   (calls (snd (light.Read float32 bridge r req resp)) = [] /\
    exists out,
      fst (light.Read float32 bridge r req resp) = resources.Returned out /\
      framework.State out = framework.State resp /\
      HasError (framework.Diags out) = true) /\
   (calls (snd (light.Update float32 zero bridge r req resp)) = [] /\
    exists out,
      fst (light.Update float32 zero bridge r req resp) = resources.Returned out /\
      framework.State out = framework.State resp /\
      HasError (framework.Diags out) = true)).
Proof.
  split.
  - unfold light.Create, light.Read, light.Update, light.Delete.
    repeat split; split_cases; cbn; eauto; lia.
  - unfold light.Create, light.Read, light.Update. intros [Hc | Hd].
    + rewrite Hc. cbn.
      repeat split; try done; eexists; (split; [done |]);
        (split; [done | apply HasError_AddError]).
    + destruct (light.client r).
      * unfold framework.append. cbn [framework.Diags]. rewrite Hd. cbn.
        repeat split; try done; eexists; by repeat split.
      * cbn. repeat split; try done; eexists; (split; [done |]);
          (split; [done | apply HasError_AddError]).
Qed.

(** X22.  The data source and the resource look a light up in the same
    way: when [LightDataSource.Read] returns without an error, the id it
    reports is the id a [Light.Create] for the same name sends its update
    to. *)
Theorem data_source_agrees_with_resource
    (bridge : api.LightApi float32)
    (d : datasources.LightDataSource) (dreq : datasources.Req)
    (dresp : datasources.Resp) (out : datasources.Resp)
    (r : light.Light) (req : light.Req float32) (resp : light.Resp float32) cl :
  fst (datasources.Read float32 bridge d dreq dresp) = resources.Returned out ->
  HasError (framework.Diags out) = false ->
  types.ValueString (light.Name float32 (framework.model req))
    = types.ValueString (datasources.Name (framework.model dreq)) ->
  light.client r = Some cl ->
  HasError (framework.Diags resp ++ framework.diags req)%list = false ->
  exists s payload,
    framework.State out = Some s /\
    datasources.Name s = datasources.Name (framework.model dreq) /\
    calls (snd (light.Create float32 zero bridge r req resp))
    = [api.GetLights; api.UpdateLight (types.ValueString (datasources.Id s)) payload].
Proof.
  intros H Hno Hname Hc Hd. unfold datasources.Read in H.
  unfold light.Create. rewrite Hc, Hname.
  cbn [framework.Diags framework.append]. rewrite Hd.
  repeat case_match; simplify_eq/=;
    try (by rewrite HasError_AddError in Hno); try congruence;
    eexists _, _; (split; [reflexivity |]); (split; [reflexivity |]);
    reflexivity.
Qed.

End LightExtras.

Section LightExtraWitnesses.
#[local] Existing Instance samples.printTables.

Lemma light_create_adopts_first_match_witness :
  exists payload,
    light.lightModelToPayload N 0 (samples.lightModel "lamp_2") = Some payload /\
    calls (snd (light.Create N 0 samples.lightBridge
                  (light.mkLight (Some samples.someClient))
                  (framework.mkRequest (samples.lightModel "lamp_2") [])
                  (framework.mkResponse [] None)))
    = [api.GetLights; api.UpdateLight "id-2" payload].
Proof.
  destruct (light_create_adopts_first_match N 0 samples.lightBridge
              (light.mkLight (Some samples.someClient))
              (framework.mkRequest (samples.lightModel "lamp_2") [])
              (framework.mkResponse [] None)
              samples.someClient
              (api.mkParsed 200 "200 OK" "{}" (Some (Some samples.lamps)))
              [samples.lamp "lamp_1" "id-1"] (samples.lamp "lamp_2" "id-2")
              [samples.lamp "lamp_2" "id-3"])
    as (payload & Hp & Hcalls & _); try reflexivity.
  - repeat constructor. exists "lamp_1". split; [reflexivity | discriminate].
  - exists payload. split; [exact Hp | exact Hcalls].
Defined.

Lemma light_create_not_found_witness :
  light.Create N 0 samples.lightBridge
    (light.mkLight (Some samples.someClient))
    (framework.mkRequest (samples.lightModel "lamp_9") [])
    (framework.mkResponse [] None)
  = (resources.Returned
       (framework.addError "failed to find light"
          (light.notFound (types.StringValue "lamp_9")
             ["lamp_1"; "lamp_2"; "lamp_2"])
          (framework.mkResponse [] None)),
     [OpCall api.GetLights]).
Proof.
  apply (light_create_not_found N 0 samples.lightBridge
           (light.mkLight (Some samples.someClient))
           (framework.mkRequest (samples.lightModel "lamp_9") [])
           (framework.mkResponse [] None)
           samples.someClient
           (api.mkParsed 200 "200 OK" "{}" (Some (Some samples.lamps)))
           samples.lamps ["lamp_1"; "lamp_2"; "lamp_2"]); try reflexivity.
  cbn. intros H.
  repeat (apply elem_of_cons in H as [[=] | H]).
  by apply elem_of_nil in H.
Defined.

(** The state holds "lamp_2" at brightness 100; the bridge has the light
    at 80, under another name and id. *)
Lemma light_read_keeps_color_witness :
  exists out,
    fst (light.Read N samples.renamingBridge
           (light.mkLight (Some samples.someClient))
           (framework.mkRequest (samples.lightModel "lamp_2") [])
           (framework.mkResponse [] None)) = resources.Returned out /\
    framework.State out =
      Some {| light.Name := types.StringValue "desk";
              light.Id := types.StringValue "id-7";
              light.On := types.BoolValue true;
              light.Brightness := framework.Float32Value 80;
              light.Color := light.Color N (samples.lightModel "lamp_2") |}.
Proof.
  eexists. split; [reflexivity |].
  destruct (light_read_keeps_color N samples.renamingBridge
              (light.mkLight (Some samples.someClient))
              (framework.mkRequest (samples.lightModel "lamp_2") [])
              (framework.mkResponse [] None)
              _ eq_refl eq_refl)
    as (apiResp & first & rest & metadata & on & dimming
        & H1 & _ & H3 & H4 & H5 & H6 & H7).
  rewrite H7. injection H1 as <-. injection H3 as <- <-.
  injection H4 as <-. injection H5 as <-. injection H6 as <-.
  reflexivity.
Defined.

Lemma light_ops_contact_bridge_witness :
  calls (snd (light.Update N 0 samples.lightBridge (light.mkLight None)
                (framework.mkRequest (samples.lightModel "lamp_2") [])
                (framework.mkResponse [] None))) = [].
Proof.
  exact (proj1 (proj2 (proj2
           (proj2 (light_ops_contact_bridge N 0 samples.lightBridge
                     (light.mkLight None)
                     (framework.mkRequest (samples.lightModel "lamp_2") [])
                     (framework.mkResponse [] None))
              (or_introl eq_refl))))).
Defined.

Lemma data_source_agrees_with_resource_witness :
  exists s payload,
    Some s = Some s /\
    datasources.Name s = types.StringValue "lamp_2" /\
    calls (snd (light.Create N 0 samples.lightBridge
                  (light.mkLight (Some samples.someClient))
                  (framework.mkRequest (samples.lightModel "lamp_2") [])
                  (framework.mkResponse [] None)))
    = [api.GetLights; api.UpdateLight (types.ValueString (datasources.Id s)) payload].
Proof.
  destruct (data_source_agrees_with_resource N 0 samples.lightBridge
              (datasources.mkLightDataSource (Some samples.someClient))
              (framework.mkRequest
                 (datasources.mkLightDataSourceModel types.StringUnknown
                    (types.StringValue "lamp_2") types.BoolUnknown) [])
              (framework.mkResponse [] None) _
              (light.mkLight (Some samples.someClient))
              (framework.mkRequest (samples.lightModel "lamp_2") [])
              (framework.mkResponse [] None) samples.someClient
              eq_refl eq_refl eq_refl eq_refl eq_refl)
    as (s & payload & H1 & H2 & H3).
  exists s, payload. split; [reflexivity |]. split; [exact H2 | exact H3].
Defined.

End LightExtraWitnesses.
